(** * KYC verifier: ensemble scoring, orchestration and fusion

    A shallow embedding of the decision logic of the ML service
    (ml-service/src): the liveness analyzer, the anti-spoof ensemble, the
    face-match scorer, the document scorer and the /verify-kyc pipeline
    that fuses them, followed by the properties the design document states
    about them.  The single-purpose routes, the response schemas, the
    metrics collector, the image processor, the embedding service and the
    rate-limit middleware are embedded as well; their properties close
    the file.

    Conventions of the embedding.
    - A Python [float] is an exact rational ([Q]); equalities between
      scores are stated with [==].  Rounding of binary64 arithmetic is not
      modelled.
    - A Python [dict] with string keys is a [gmap string value]; the
      iteration order of a dict is not tracked.
    - Code that can raise returns a [result]; a [try/except] is a match on
      it.
    - Calls that leave the repository (OpenCV, torch, OCR, the clock) are
      [Variable]s of the section that models the calling class. *)

From Stdlib Require Import QArith Qabs Qminmax Lqa.
From stdpp Require Import gmap strings list fin_maps pretty.

Set Warnings "-register-all".

Local Open Scope Q_scope.

(** ** Python values, exceptions and the few builtins the code uses *)

Module Py.

Inductive value :=
| VNone
| VBool (b : bool)
| VInt (n : Z)
| VFloat (x : Q)
| VStr (s : string)
| VList (l : list value)
| VDict (d : gmap string value).

(** Exceptions derived from [Exception].  [ExternalError] stands for
    whatever a collaborator raised (cv2.error, RuntimeError, an
    HTTPException of the downloader, ...); the string is its [str()].
    For [ValidationError] the string names the model that failed. *)
Inductive exn :=
| TypeError (msg : string)
| ValueError (msg : string)
| ValidationError (model : string)
| ExternalError (msg : string).

Definition str (e : exn) : string :=
  match e with
  | TypeError m => m
  | ValueError m => m
  | ValidationError f => f
  | ExternalError m => m
  end.

Inductive result (A : Type) :=
| Ok (a : A)
| Raise (e : exn).
Arguments Ok {A} a.
Arguments Raise {A} e.

#[export] Instance result_ret : MRet result := fun _ a => Ok a.
#[export] Instance result_bind : MBind result := fun _ _ f m =>
  match m with
  | Ok a => f a
  | Raise e => Raise e
  end.

(** [try: c  except: return d] *)
Definition try_default {A} (c : result A) (d : A) : A :=
  match c with
  | Ok a => a
  | Raise _ => d
  end.

(** [try: c  except Exception as e: return h e] *)
Definition try_except {A} (c : result A) (h : exn -> A) : A :=
  match c with
  | Ok a => a
  | Raise e => h e
  end.

(** Comparison of floats. *)
Definition Qleb (x y : Q) : bool := Qle_bool x y.
Definition Qltb (x y : Q) : bool := negb (Qle_bool y x).

(** The name [type(v).__name__] prints. *)
Definition type_name (v : value) : string :=
  match v with
  | VNone => "NoneType"
  | VBool _ => "bool"
  | VInt _ => "int"
  | VFloat _ => "float"
  | VStr _ => "str"
  | VList _ => "list"
  | VDict _ => "dict"
  end.

(** A numeric operand: [bool] is a subclass of [int]; anything else
    makes arithmetic and ordering raise TypeError (its message is
    abridged here). *)
Definition as_float (v : value) : result Q :=
  match v with
  | VFloat x => Ok x
  | VInt n => Ok (inject_Z n)
  | VBool b => Ok (if b then 1 else 0)
  | _ => Raise (TypeError ("unsupported operand type: " +:+ type_name v))
  end.

Definition opt_str (o : option string) : value :=
  match o with
  | Some s => VStr s
  | None => VNone
  end.

(** The characters of a string, each a string of length one. *)
Fixpoint chars (s : string) : list string :=
  match s with
  | EmptyString => []
  | String c s' => String c EmptyString :: chars s'
  end.

(** [iter(v)]: what a [for] loop or [list.extend] sees. *)
Definition iter (v : value) : result (list value) :=
  match v with
  | VList l => Ok l
  | VStr s => Ok (VStr <$> chars s)
  | VDict d => Ok (VStr <$> (map_to_list d).*1)
  | VNone | VBool _ | VInt _ | VFloat _ =>
      Raise (TypeError ("'" +:+ type_name v +:+ "' object is not iterable"))
  end.

(** [l.extend(v)] *)
Definition extend (l : list value) (v : value) : result (list value) :=
  items ← iter v; mret (l ++ items).

(** [d.get(k, dflt)] *)
Definition get (d : gmap string value) (k : string) (dflt : value) : value :=
  default dflt (d !! k).

(** [len(l)] as a float. *)
Definition len {A} (l : list A) : Q := inject_Z (Z.of_nat (length l)).

(** [sum(xs)]: starts from 0 and adds from the left. *)
Definition sum (xs : list Q) : Q := fold_left Qplus xs 0.

(** [max(xs, key=f)]: one pass that keeps the running maximum and
    replaces it only by an item with a strictly greater key; [None]
    stands for the ValueError on an empty iterable. *)
Definition max_step {A K} (ltb : K -> K -> bool) (key : A -> K) (m item : A) : A :=
  if ltb (key m) (key item) then item else m.
Definition max_by {A K} (ltb : K -> K -> bool) (key : A -> K) (xs : list A) : option A :=
  match xs with
  | [] => None
  | x :: xs' => Some (fold_left (max_step ltb key) xs' x)
  end.

(** [l.count(x)] *)
Definition count (l : list string) (x : string) : nat :=
  length (filter (fun y => y = x) l).

(** [np.mean] and [np.var] (population variance) of a non-empty list. *)
Definition np_mean (xs : list Q) : Q := sum xs / len xs.
Definition np_var (xs : list Q) : Q :=
  let m := np_mean xs in
  np_mean ((fun x => (x - m) * (x - m)) <$> xs).

End Py.
Import Py.

(** ** models/liveness_detection.py *)

Module LivenessDetection.

Section Model.

(** Collaborators: OpenCV, numpy and torch computations on pixels. *)
Variable Image : Type.
(** [cv2.cvtColor(image, cv2.COLOR_BGR2RGB)] *)
Variable cvtColor : Image -> result Image.
(** LBP histogram entropy, the [try] body of [_analyze_texture] up to
    [entropy]. *)
Variable lbp_entropy : Image -> result Q.
(** [skin_ratio] of [_analyze_color_space]. *)
Variable skin_ratio : Image -> result Q.
(** [edge_density] of [_analyze_edges]. *)
Variable edge_density : Image -> result Q.
(** [reflection_ratio] of [_detect_reflections]. *)
Variable reflection_ratio : Image -> result Q.
(** [np.mean(cv2.absdiff(f, g)) / 255.0] *)
Variable mean_absdiff : Image -> Image -> result Q.

(** The network: preprocessing, forward pass and softmax, giving the
    probability of the class "live". *)
Definition LivenessNet : Type := Image -> result Q.

Record LivenessDetectionModel := {
  device : string;
  model : option LivenessNet;
}.

(** [__init__] with [_initialize_model]: building the network either
    succeeds or re-raises. *)
Definition init (dev : string) (build : result LivenessNet)
  : result LivenessDetectionModel :=
  net ← build; mret {| device := dev; model := Some net |}.

Definition _analyze_texture (image : Image) : Q :=
  try_default (entropy ← lbp_entropy image;
               mret (Qmin (entropy / 8.0) 1.0)) 0.5.

Definition _analyze_color_space (image : Image) : Q :=
  try_default
    (r ← skin_ratio image;
     mret (if Qleb 0.15 r && Qleb r 0.40 then 0.8
           else if Qleb 0.10 r && Qleb r 0.50 then 0.5
           else 0.2)) 0.5.

Definition _analyze_edges (image : Image) : Q :=
  try_default
    (d ← edge_density image;
     mret (if Qleb 0.05 d && Qleb d 0.20 then 0.8
           else if Qleb 0.02 d && Qleb d 0.30 then 0.5
           else 0.2)) 0.5.

Definition _detect_reflections (image : Image) : Q :=
  try_default (reflection_ratio image) 0.0.

Definition blink_pattern : list Q :=
  [0.3; 0.2; 0.1; 0.05; 0.1; 0.2; 0.3; 0.4; 0.5; 0.6].

Definition _detect_blink (frames : list Image) : Q :=
  if (10 <=? length frames)%nat
  then Qmin (np_mean (take (length frames) blink_pattern)) 1.0
  else 0.5.

(** [turn_scores] of [_detect_head_turn]: consecutive frames. *)
Fixpoint turn_scores (frames : list Image) : result (list Q) :=
  match frames with
  | f :: (g :: _) as rest =>
      d ← mean_absdiff f g;
      ds ← turn_scores rest;
      mret (d :: ds)
  | _ => mret []
  end.

Definition _detect_head_turn (frames : list Image) : Q :=
  try_default
    (if (5 <=? length frames)%nat
     then
       ts ← turn_scores frames;
       mret (match ts with
             | [] => 0.5
             | _ => Qmin (np_mean ts * 2) 1.0
             end)
     else mret 0.5) 0.5.

Definition smile_pattern : list Q := [0.2; 0.3; 0.4; 0.6; 0.8].

Definition _detect_smile (frames : list Image) : Q :=
  if (5 <=? length frames)%nat
  then Qmin (np_mean (take (length frames) smile_pattern)) 1.0
  else 0.5.

Definition _analyze_challenge (frames : list Image) (challenge_type : string) : Q :=
  if (length frames <? 2)%nat then 0.5
  else if String.eqb challenge_type "blink" then _detect_blink frames
  else if String.eqb challenge_type "head_turn" then _detect_head_turn frames
  else if String.eqb challenge_type "smile" then _detect_smile frames
  else 0.5.

Definition _model_based_detection (net : LivenessNet) (image : Image) : Q :=
  try_default (net image) 0.5.

Definition _detect_spoof_type
  (texture_score color_score edge_score reflection_score : Q) : option string :=
  if Qltb edge_score 0.3 && Qltb texture_score 0.3 then Some "printed_photo"
  else if Qltb 0.1 reflection_score then Some "screen_replay"
  else if Qltb color_score 0.3 then Some "mask"
  else if Qltb 0.8 texture_score && Qltb 0.8 color_score then Some "3d_mask"
  else None.

Definition _calculate_confidence (scores : list Q) : Q :=
  let variance := np_var scores in
  let confidence := 1.0 - Qmin (variance * 5) 1.0 in
  Qmax confidence 0.0.

Definition weights : list Q := [0.25; 0.20; 0.20; 0.15; 0.20].

(** [sum(s * w for s, w in zip(scores, weights))] *)
Definition weighted (scores ws : list Q) : Q :=
  sum (zip_with Qmult scores ws).

(** [challenge_type and temporal_data] *)
Definition challenge_supplied
  (challenge_type : option string) (temporal_data : option (list Image)) : bool :=
  match challenge_type, temporal_data with
  | Some c, Some (_ :: _) => negb (String.eqb c "")
  | _, _ => false
  end.

(** The [scores] list of a run on the converted image (the reflection
    score enters as its complement). *)
Definition detector_scores (image_rgb : Image) (challenge_type : option string)
  (temporal_data : option (list Image)) : list Q :=
  [ _analyze_texture image_rgb;
    _analyze_color_space image_rgb;
    _analyze_edges image_rgb;
    1.0 - _detect_reflections image_rgb;
    if challenge_supplied challenge_type temporal_data
    then _analyze_challenge (default [] temporal_data) (default "" challenge_type)
    else 0.5 ].

(** The [try] body of [detect_liveness]. *)
Definition detect_liveness_body (self : LivenessDetectionModel) (image : Image)
  (challenge_type : option string) (temporal_data : option (list Image))
  : result (gmap string value) :=
  image_rgb ← cvtColor image;
  let texture_score := _analyze_texture image_rgb in
  let color_score := _analyze_color_space image_rgb in
  let edge_score := _analyze_edges image_rgb in
  let reflection_score := _detect_reflections image_rgb in
  let challenge_score :=
    if challenge_supplied challenge_type temporal_data
    then _analyze_challenge (default [] temporal_data) (default "" challenge_type)
    else 0.5 in
  let scores :=
    [texture_score; color_score; edge_score; 1.0 - reflection_score; challenge_score] in
  let liveness_score := weighted scores weights in
  let model_score := (fun net => _model_based_detection net image_rgb) <$> model self in
  let liveness_score :=
    match model_score with
    | Some ms => (liveness_score + ms) / 2
    | None => liveness_score
    end in
  let spoof_type :=
    _detect_spoof_type texture_score color_score edge_score reflection_score in
  let confidence := _calculate_confidence scores in
  mret (<["liveness_score" := VFloat liveness_score]>
        (<["is_live" := VBool (Qleb 0.7 liveness_score)]>
        (<["confidence" := VFloat confidence]>
        (<["spoof_type" := opt_str spoof_type]>
        (<["metadata" := VDict
            (<["texture_score" := VFloat texture_score]>
            (<["color_score" := VFloat color_score]>
            (<["edge_score" := VFloat edge_score]>
            (<["reflection_score" := VFloat reflection_score]>
            (<["challenge_score" := VFloat challenge_score]>
            (<["model_score" := VFloat (default 0.5 model_score)]> ∅))))))]>
         ∅))))).

(** The dict of the [except] branch. *)
Definition liveness_error (e : exn) : gmap string value :=
  <["liveness_score" := VFloat 0.0]>
  (<["is_live" := VBool false]>
  (<["confidence" := VFloat 0.0]>
  (<["error" := VStr (str e)]> ∅))).

Definition detect_liveness (self : LivenessDetectionModel) (image : Image)
  (challenge_type : option string) (temporal_data : option (list Image))
  : gmap string value :=
  try_except (detect_liveness_body self image challenge_type temporal_data)
             liveness_error.

End Model.

End LivenessDetection.

(** ** models/anti_spoof.py *)

Module AntiSpoof.

(** What one detection method returns. *)
Record method_result := {
  score : Q;
  is_spoof : bool;
  type : string;
}.

Section Model.

Variable Image : Type.
(** [image[y1:y2, x1:x2]] *)
Variable crop : Image -> Z -> Z -> Z -> Z -> Image.
(** Pixel statistics computed with OpenCV, numpy and pywt; each may
    raise inside the [try] of the method that asks for it.  In the order
    of the declarations: variance of the LBP codes and mean saturation;
    the FFT grid score and the share of strong gradients; the peak ratio
    of the frame differences; the standard deviation of the block
    deviations ([None] without blocks); the Laplacian variance and the
    colour variance; the deviation of the gradient directions over pi; the
    variation of the optical flow; the share of highlights; the edge
    sharpness, the wavelet noise level and the brightness difference of
    the quadrants. *)
Variable lbp_variance saturation : Image -> result Q.
Variable grid_score gradient_reflection : Image -> result Q.
Variable refresh_ratio : list Image -> result Q.
Variable block_std_dispersion : Image -> result (option Q).
Variable laplacian_var color_variance : Image -> result Q.
Variable direction_consistency_by_pi : Image -> result Q.
Variable expression_variation : list Image -> result Q.
Variable highlight_ratio : Image -> result Q.
Variable edge_sharpness noise_level brightness_diff : Image -> result Q.
(** The order in which iterating [set(xs)] yields its elements; it
    depends on the hashes of the strings. *)
Variable set_order : list string -> list string.

Definition frames_longer_than (n : nat) (temporal_frames : option (list Image)) : bool :=
  match temporal_frames with
  | Some fs => (n <? length fs)%nat
  | None => false
  end.

Definition failed (label : string) : method_result :=
  {| score := 0.0; is_spoof := false; type := label |}.

Definition _detect_print_attack (face_region : Image)
  (temporal_frames : option (list Image)) : method_result :=
  try_default
    (v ← lbp_variance face_region;
     sat ← saturation face_region;
     let print_score :=
       (1.0 - Qmin (v / 1000.0) 1.0) * 0.6 + (1.0 - Qmin (sat / 255.0) 1.0) * 0.4 in
     mret {| score := print_score; is_spoof := Qltb 0.6 print_score;
             type := "printed_photo" |})
    (failed "printed_photo").

Definition _detect_screen_refresh (frames : list Image) : result Q :=
  if (length frames <? 5)%nat then mret 0.0
  else r ← refresh_ratio frames; mret (Qmin r 1.0).

Definition _detect_screen_replay (face_region : Image)
  (temporal_frames : option (list Image)) : method_result :=
  try_default
    (g ← grid_score face_region;
     reflection_score ← gradient_reflection face_region;
     refresh_score ←
       (if frames_longer_than 5 temporal_frames
        then _detect_screen_refresh (default [] temporal_frames)
        else mret 0.0);
     let screen_score :=
       Qmin (g * 2) 1.0 * 0.4 + reflection_score * 0.4 + refresh_score * 0.2 in
     mret {| score := screen_score; is_spoof := Qltb 0.5 screen_score;
             type := "screen_replay" |})
    (failed "screen_replay").

Definition _calculate_texture_uniformity (image : Image) : result Q :=
  d ← block_std_dispersion image;
  mret (match d with
        | None => 0.0
        | Some sd => 1.0 - Qmin (sd / 50.0) 1.0
        end).

Definition _calculate_skin_detail (image : Image) : result Q :=
  high_freq ← laplacian_var image; mret (Qmin (high_freq / 500.0) 1.0).

Definition _detect_mask_attack (face_region : Image)
  (temporal_frames : option (list Image)) : method_result :=
  try_default
    (texture_uniformity ← _calculate_texture_uniformity face_region;
     detail_score ← _calculate_skin_detail face_region;
     cv ← color_variance face_region;
     let color_score := 1.0 - Qmin (cv / 1000.0) 1.0 in
     let mask_score :=
       texture_uniformity * 0.4 + (1.0 - detail_score) * 0.4 + color_score * 0.2 in
     mret {| score := mask_score; is_spoof := Qltb 0.6 mask_score;
             type := "mask" |})
    (failed "mask").

Definition _estimate_face_depth (image : Image) : result Q :=
  c ← direction_consistency_by_pi image; mret (1.0 - Qmin c 1.0).

Definition _detect_micro_expressions (frames : list Image) : result Q :=
  if (length frames <? 10)%nat then mret 0.0
  else v ← expression_variation frames; mret (Qmin (v * 10) 1.0).

Definition _analyze_reflection_pattern (image : Image) : result Q :=
  r ← highlight_ratio image; mret (Qmin (r * 5) 1.0).

Definition _detect_3d_mask (face_region : Image)
  (temporal_frames : option (list Image)) : method_result :=
  try_default
    (depth_score ← _estimate_face_depth face_region;
     expression_score ←
       (if frames_longer_than 10 temporal_frames
        then _detect_micro_expressions (default [] temporal_frames)
        else mret 0.0);
     reflection_pattern ← _analyze_reflection_pattern face_region;
     let mask_3d_score :=
       (1.0 - depth_score) * 0.5 + (1.0 - expression_score) * 0.3
       + reflection_pattern * 0.2 in
     mret {| score := mask_3d_score; is_spoof := Qltb 0.7 mask_3d_score;
             type := "3d_mask" |})
    (failed "3d_mask").

Definition _analyze_noise_pattern (image : Image) : result Q :=
  n ← noise_level image; mret (Qmin (n / 50.0) 1.0).

Definition _check_lighting_consistency (image : Image) : result Q :=
  d ← brightness_diff image; mret (1.0 - Qmin (d / 100.0) 1.0).

Definition _detect_photo_quality (face_region : Image)
  (temporal_frames : option (list Image)) : method_result :=
  try_default
    (sharp ← edge_sharpness face_region;
     noise_pattern ← _analyze_noise_pattern face_region;
     lighting_score ← _check_lighting_consistency face_region;
     let photo_score :=
       (1.0 - sharp) * 0.4 + (1.0 - noise_pattern) * 0.4
       + (1.0 - lighting_score) * 0.2 in
     mret {| score := photo_score; is_spoof := Qltb 0.6 photo_score;
             type := "photo_manipulation" |})
    (failed "photo_manipulation").

(** [detection_methods], each with its [__name__]. *)
Definition detection_methods
  : list (string * (Image -> option (list Image) -> method_result)) :=
  [ ("_detect_print_attack", _detect_print_attack);
    ("_detect_screen_replay", _detect_screen_replay);
    ("_detect_mask_attack", _detect_mask_attack);
    ("_detect_3d_mask", _detect_3d_mask);
    ("_detect_photo_quality", _detect_photo_quality) ].

(** The loop over the methods: the [scores] dict, as the pairs it
    receives in insertion order (the five names differ, so no entry is
    overwritten), and the [indicators] list. *)
Definition run_methods (face_region : Image) (temporal_frames : option (list Image))
  : list (string * method_result) :=
  (fun m => (m.1, m.2 face_region temporal_frames)) <$> detection_methods.

Definition scores_of (rs : list (string * method_result)) : list (string * Q) :=
  (fun r => (r.1, score r.2)) <$> rs.

Definition indicators_of (rs : list (string * method_result)) : list string :=
  type <$> filter (fun r => is_spoof r = true) (snd <$> rs).

(** [max(set(indicators), key=indicators.count) if indicators else None] *)
Definition spoof_type_of (indicators : list string) : option string :=
  match indicators with
  | [] => None
  | _ => max_by Nat.ltb (count indicators) (set_order indicators)
  end.

(** [x1, y1, x2, y2 = face_bbox] *)
Definition unpack4 (bbox : list Z) : result (Z * Z * Z * Z) :=
  match bbox with
  | [x1; y1; x2; y2] => Ok (x1, y1, x2, y2)
  | _ => Raise (ValueError "wrong number of values to unpack (expected 4)")
  end.

(** The face region: the crop when a box is given, else the image. *)
Definition face_region_of (image : Image) (face_bbox : option (list Z)) : result Image :=
  match face_bbox with
  | Some (_ :: _ as bbox) =>
      '(x1, y1, x2, y2) ← unpack4 bbox; mret (crop image x1 y1 x2 y2)
  | _ => mret image
  end.

Definition detect_spoof_body (image : Image) (face_bbox : option (list Z))
  (temporal_frames : option (list Image)) : result (gmap string value) :=
  face_region ← face_region_of image face_bbox;
  let rs := run_methods face_region temporal_frames in
  let scores := scores_of rs in
  let indicators := indicators_of rs in
  let spoof_score := np_mean (snd <$> scores) in
  let is_spoof := Qltb 0.7 spoof_score in
  let spoof_type := spoof_type_of indicators in
  mret (<["is_spoof" := VBool is_spoof]>
        (<["spoof_type" := opt_str spoof_type]>
        (<["confidence" := VFloat spoof_score]>
        (<["scores" := VDict (list_to_map (prod_map id VFloat <$> scores))]>
        (<["indicators" := VList (VStr <$> indicators)]> ∅))))).

Definition spoof_error (e : exn) : gmap string value :=
  <["is_spoof" := VBool false]> (<["error" := VStr (str e)]> ∅).

Definition detect_spoof (image : Image) (face_bbox : option (list Z))
  (temporal_frames : option (list Image)) : gmap string value :=
  try_except (detect_spoof_body image face_bbox temporal_frames) spoof_error.

End Model.

End AntiSpoof.

(** ** models/face_recognition.py *)

Module FaceRecognition.

(** One entry of the list [detect_faces] returns. *)
Record Face := {
  bbox : list Z;
  quality_score : Q;
  pose : gmap string value;
}.

Definition Embedding : Type := list Q.

Section Model.

Variable Image : Type.
(** The [try] body of [detect_faces]: InsightFace detection followed by
    the quality and pose estimates of each face. *)
Variable insight_faces : Image -> result (list Face).
(** The loop body of [extract_embeddings] for one face: [None] when
    the cropped region is empty. *)
Variable facenet_embedding : Image -> Face -> result (option Embedding).
(** [F.cosine_similarity] of two embeddings. *)
Variable cosine_similarity : Embedding -> Embedding -> result Q.

Definition detect_faces (image : Image) : list Face :=
  try_default (insight_faces image) [].

(** The loop of [extract_embeddings]; an exception ends it and what
    was gathered so far is returned. *)
Fixpoint extract_loop (image : Image) (faces : list Face) (embeddings : list Embedding)
  : list Embedding :=
  match faces with
  | [] => embeddings
  | face :: rest =>
      match facenet_embedding image face with
      | Ok None => extract_loop image rest embeddings
      | Ok (Some e) => extract_loop image rest (embeddings ++ [e])
      | Raise _ => embeddings
      end
  end.

Definition extract_embeddings (image : Image) (faces : list Face) : list Embedding :=
  extract_loop image faces [].

Definition compare_faces (embedding1 embedding2 : Embedding) : Q :=
  try_default (similarity ← cosine_similarity embedding1 embedding2;
               mret ((similarity + 1) / 2)) 0.0.

Definition face_error (msg : string) : gmap string value :=
  <["match_score" := VFloat 0.0]>
  (<["is_match" := VBool false]>
  (<["confidence" := VFloat 0.0]>
  (<["error" := VStr msg]> ∅))).

Definition face_details (f : Face) : value :=
  VDict (<["bbox" := VList (VInt <$> bbox f)]>
        (<["quality_score" := VFloat (quality_score f)]>
        (<["pose" := VDict (pose f)]> ∅))).

(** [verify_face_match].  Every call of its [try] body catches its own
    exceptions, so the [except] branch, which returns [face_error (str e)],
    is not reached. *)
Definition verify_face_match (selfie_image id_image : Image) (threshold : Q)
  : gmap string value :=
  let selfie_faces := detect_faces selfie_image in
  let id_faces := detect_faces id_image in
  match max_by Qltb quality_score selfie_faces,
        max_by Qltb quality_score id_faces with
  | Some selfie_face, Some id_face =>
      let selfie_embeddings := extract_embeddings selfie_image [selfie_face] in
      let id_embeddings := extract_embeddings id_image [id_face] in
      match selfie_embeddings, id_embeddings with
      | se :: _, ie :: _ =>
          let similarity := compare_faces se ie in
          let confidence := Qmin (quality_score selfie_face) (quality_score id_face) in
          <["match_score" := VFloat similarity]>
          (<["is_match" := VBool (Qleb threshold similarity)]>
          (<["confidence" := VFloat confidence]>
          (<["distance" := VFloat (1 - similarity)]>
          (<["selfie_face" := face_details selfie_face]>
          (<["id_face" := face_details id_face]>
          (<["embeddings" := VDict
              (<["selfie" := VList (VFloat <$> se)]>
              (<["id_photo" := VList (VFloat <$> ie)]> ∅))]> ∅))))))
      | _, _ => face_error "Failed to extract face embeddings"
      end
  | _, _ => face_error "No faces detected in one or both images"
  end.

End Model.

End FaceRecognition.

(** ** models/document_verification.py *)

Module DocumentVerification.

(** [self.document_patterns], in insertion order. *)
Record pattern := {
  regexes : list string;
  fields : list string;
}.

Definition document_patterns : list (string * pattern) :=
  [ ("passport",
     {| regexes := ["P[A-Z]<[A-Z]{3}[A-Z]+<<[A-Z]+<*"; "[A-Z]{1,2}\d{6,8}"];
        fields := ["document_number"; "surname"; "given_names"; "nationality";
                   "dob"; "expiry"; "sex"] |});
    ("driver_license",
     {| regexes := ["D[A-Z]{3}[A-Z0-9]{6,9}"; "DL \d{6,12}"];
        fields := ["license_number"; "name"; "address"; "dob"; "expiry"; "class"] |});
    ("id_card",
     {| regexes := ["ID[A-Z]{2}\d{6,9}"; "\d{9,12}"];
        fields := ["id_number"; "name"; "dob"; "expiry"; "address"] |}) ].

Definition patterns_get (document_type : string) : option pattern :=
  (list_to_map document_patterns : gmap string pattern) !! document_type.

(** [x in l] for a list of strings. *)
Definition mem (x : string) (l : list string) : bool := bool_decide (x ∈ l).

(** [k in d] *)
Definition has_key {V} (k : string) (d : gmap string V) : bool :=
  bool_decide (is_Some (d !! k)).

Section Model.

Variable Image : Type.
(** A [datetime], as a point on a time line. *)
Definition datetime : Type := Z.
(** [datetime.now()] *)
Variable now : datetime.
(** [strptime] over the formats of [_parse_date] and its year-only
    fallback; raises ValueError when nothing matches. *)
Variable _parse_date : string -> result datetime.
(** [_preprocess_document] on an image that is not None. *)
Variable _preprocess_document : Image -> Image.
(** [cv2.Laplacian(img, cv2.CV_64F).var()] *)
Variable laplacian_var : Image -> result Q.
(** [np.mean(img) / 255.0] and [np.std(img) / 255.0] *)
Variable brightness contrast : Image -> result Q.
(** OCR and the regular expressions over its text. *)
Variable _extract_text : Image -> string.
Variable _detect_document_type : Image -> string.
Variable _parse_document_data : string -> string -> string -> gmap string string.
Variable _calculate_text_confidence : string -> string -> Q.
Variable _calculate_image_metrics : Image -> option Image -> gmap string value.
(** [np.std(brightness_std) / 100.0] of [_detect_tampering]. *)
Variable brightness_std_dispersion : Image -> result Q.
(** [cv2.compareHist] of the two normalised histograms. *)
Variable histogram_correlation : Image -> Image -> result Q.

Definition _calculate_blur_score (image : Image) : Q :=
  try_default
    (v ← laplacian_var image;
     mret (if Qltb 100 v then 1.0
           else if Qltb 50 v then 0.8
           else if Qltb 20 v then 0.5
           else if Qltb 10 v then 0.3
           else 0.1)) 0.5.

(** The score of one image in the loop of [_calculate_document_quality]. *)
Definition img_score (img : Image) : result Q :=
  let blur_score := _calculate_blur_score img in
  b ← brightness img;
  let brightness_score := 1.0 - Qabs (b - 0.5) / 0.5 in
  c ← contrast img;
  let contrast_score := Qmin (c * 2) 1.0 in
  v ← laplacian_var img;
  let sharpness_score := Qmin (v / 1000.0) 1.0 in
  mret (0.4 * blur_score + 0.2 * brightness_score + 0.2 * contrast_score
        + 0.2 * sharpness_score).

Definition _calculate_document_quality (front_image back_image : option Image) : Q :=
  try_default
    (scores ← mapM img_score (omap id [front_image; back_image]);
     mret (match scores with
           | [] => 0.0
           | _ => np_mean scores
           end)) 0.5.

Definition _detect_tampering (image : Image) : Q :=
  try_default (t ← brightness_std_dispersion image; mret (Qmin t 1.0)) 0.0.

Definition _check_consistency (front_image back_image : Image) : Q :=
  try_default (c ← histogram_correlation front_image back_image;
               mret (Qmax c 0.0)) 0.0.

(** [self.document_patterns.get(document_type, {}).get('fields', [])] *)
Definition required_fields_of (document_type : string) : list string :=
  match patterns_get document_type with
  | Some p => fields p
  | None => []
  end.

(** The fields among name and document_number that the type requires
    and the extracted data lacks. *)
Definition missing_fields (required_fields : list string)
  (extracted_data : gmap string string) : list string :=
  filter (fun field => mem field required_fields = true
                       /\ has_key field extracted_data = false)
         ["name"; "document_number"].

Definition _detect_fraud_indicators (front_image back_image : option Image)
  (extracted_data : gmap string string) (document_type : string) : list string :=
  let blurry :=
    match front_image with
    | Some img => if Qltb (_calculate_blur_score img) 0.3 then ["blurry_image"] else []
    | None => []
    end in
  let missing :=
    (fun field => "missing_" +:+ field)
      <$> missing_fields (required_fields_of document_type) extracted_data in
  let dates :=
    match extracted_data !! "expiry_date" with
    | Some d =>
        match _parse_date d with
        | Ok expiry => if (expiry <? now)%Z then ["expired_document"] else []
        | Raise _ => ["invalid_date_format"]
        end
    | None => []
    end in
  let tampering :=
    match front_image with
    | Some img =>
        if Qltb 0.7 (_detect_tampering img) then ["possible_tampering"] else []
    | None => []
    end in
  let sides :=
    match front_image, back_image with
    | Some f, Some b =>
        if Qltb (_check_consistency f b) 0.5 then ["inconsistent_document_sides"] else []
    | _, _ => []
    end in
  blurry ++ missing ++ dates ++ tampering ++ sides.

Definition critical_indicators : list string :=
  ["expired_document"; "missing_document_number"; "missing_name";
   "possible_tampering"].

(** Future date of birth; a date that does not parse is let through. *)
Definition dob_in_future (extracted_data : gmap string string) : bool :=
  match extracted_data !! "date_of_birth" with
  | Some d =>
      match _parse_date d with
      | Ok dob => (now <? dob)%Z
      | Raise _ => false
      end
  | None => false
  end.

(** The check of the required fields: only for a known document type. *)
Definition required_field_missing (document_type : string)
  (extracted_data : gmap string string) : bool :=
  match patterns_get document_type with
  | Some p =>
      match missing_fields (fields p) extracted_data with
      | [] => false
      | _ => true
      end
  | None => false
  end.

Definition _validate_document (extracted_data : gmap string string)
  (fraud_indicators : list string) (quality_score : Q) (document_type : string) : bool :=
  if existsb (fun indicator => mem indicator fraud_indicators) critical_indicators
  then false
  else if Qltb quality_score 0.4 then false
  else if required_field_missing document_type extracted_data then false
  else if dob_in_future extracted_data then false
  else (length fraud_indicators <=? 2)%nat.

(** [verify_document].  Every helper called in its [try] body catches
    its own exceptions, so the [except] branch, which returns
    [document_error] below, is not reached. *)
Definition verify_document (front_image : Image) (back_image : option Image)
  (document_type : option string) : gmap string value :=
  let front_processed := _preprocess_document front_image in
  let back_processed := _preprocess_document <$> back_image in
  let quality_score := _calculate_document_quality (Some front_processed) back_processed in
  let document_type :=
    match document_type with
    | Some t => if String.eqb t "" then _detect_document_type front_processed else t
    | None => _detect_document_type front_processed
    end in
  let front_text := _extract_text front_processed in
  let back_text :=
    match back_processed with
    | Some b => _extract_text b
    | None => ""
    end in
  let extracted_data := _parse_document_data front_text back_text document_type in
  let fraud_indicators :=
    _detect_fraud_indicators (Some front_processed) back_processed
                             extracted_data document_type in
  let is_valid :=
    _validate_document extracted_data fraud_indicators quality_score document_type in
  <["is_valid" := VBool is_valid]>
  (<["document_type" := VStr document_type]>
  (<["extracted_data" := VDict (VStr <$> extracted_data)]>
  (<["quality_score" := VFloat quality_score]>
  (<["fraud_indicators" := VList (VStr <$> fraud_indicators)]>
  (<["metadata" := VDict
      (<["text_confidence" := VFloat (_calculate_text_confidence front_text back_text)]>
      (<["image_metrics" := VDict (_calculate_image_metrics front_processed back_processed)]>
      (<["processing_time" := VNone]> ∅)))]> ∅))))).

(** The dict of the [except] branch of [verify_document]. *)
Definition document_error (e : exn) : gmap string value :=
  <["is_valid" := VBool false]>
  (<["error" := VStr (str e)]>
  (<["fraud_indicators" := VList [VStr "verification_failed"]]> ∅)).

End Model.

End DocumentVerification.

(** ** api/routes.py and api/schemas.py: the /verify-kyc pipeline *)

Module Routes.

Record KYCVerificationRequest := {
  attempt_id : string;
  selfie_url : string;
  id_front_url : string;
  id_back_url : option string;
}.

Record KYCVerificationResponse := {
  liveness_score : Q;
  match_score : Q;
  fraud_score : Q;
  document_quality_score : Q;
  overall_score : Q;
  status : string;
  reasons : list string;
  confidence : Q;
  processing_time : Q;
  metadata : gmap string value;
}.

(** What the endpoint hands to the HTTP layer. *)
Inductive outcome :=
| Returned (response : KYCVerificationResponse)
| HTTPException (status_code : Z) (detail : string).

(** [Field(..., ge=0.0, le=1.0)] *)
Definition in_unit_interval (x : Q) : bool := Qleb 0.0 x && Qleb x 1.0.

(** [List[str]]: every item has to be a string. *)
Definition as_str_list (l : list value) : option (list string) :=
  mapM (fun v => match v with VStr s => Some s | _ => None end) l.

(** Construction of the response model with pydantic's validation. *)
Definition make_response (liveness_score match_score fraud_score
    document_quality_score overall_score : Q) (status : string)
    (reasons : list value) (confidence processing_time : Q)
    (metadata : gmap string value) : result KYCVerificationResponse :=
  match as_str_list reasons with
  | Some rs =>
      if forallb in_unit_interval
           [liveness_score; match_score; fraud_score; document_quality_score;
            overall_score; confidence]
      then Ok {| liveness_score := liveness_score;
                 match_score := match_score;
                 fraud_score := fraud_score;
                 document_quality_score := document_quality_score;
                 overall_score := overall_score;
                 status := status;
                 reasons := rs;
                 confidence := confidence;
                 processing_time := processing_time;
                 metadata := metadata |}
      else Raise (ValidationError "KYCVerificationResponse")
  | None => Raise (ValidationError "KYCVerificationResponse")
  end.

(** The dict that replaces the result of a task that raised. *)
Definition degraded : gmap string value :=
  <["liveness_score" := VFloat 0.0]>
  (<["is_live" := VBool false]>
  (<["match_score" := VFloat 0.0]>
  (<["is_match" := VBool false]>
  (<["is_valid" := VBool false]>
  (<["fraud_indicators" := VList [VStr "verification_failed"]]> ∅))))).

(** One entry of [results] after the loop that handles exceptions. *)
Definition handled (task : result (gmap string value)) : gmap string value :=
  try_default task degraded.

(** [fraud_indicators] after the two [extend] calls. *)
Definition fraud_indicators_of (liveness_result document_result : gmap string value)
  : result (list value) :=
  l ← extend [] (get liveness_result "spoof_type" (VList []));
  extend l (get document_result "fraud_indicators" (VList [])).

Definition fraud_score_of (fraud_indicators : list value) : Q :=
  Qmin (len fraud_indicators / 10.0) 1.0.

Definition overall_score_of (liveness_score match_score document_quality_score
    fraud_score : Q) : Q :=
  liveness_score * 0.3 + match_score * 0.4 + document_quality_score * 0.2
  + (1 - fraud_score) * 0.1.

Definition status_of (overall_score liveness_score match_score : Q) : string :=
  if Qleb 0.8 overall_score && Qleb 0.7 liveness_score && Qleb 0.6 match_score
  then "approved"
  else if Qleb 0.6 overall_score then "manual_review"
  else "rejected".

(** Everything between the gathered results and the response. *)
Definition fuse (attempt : string) (processing_time : Q)
    (liveness_result face_match_result document_result : gmap string value)
  : result KYCVerificationResponse :=
  let liveness_score := get liveness_result "liveness_score" (VFloat 0.0) in
  let match_score := get face_match_result "match_score" (VFloat 0.0) in
  let document_quality_score := get document_result "quality_score" (VFloat 0.0) in
  fraud_indicators ← fraud_indicators_of liveness_result document_result;
  let fraud_score := fraud_score_of fraud_indicators in
  liveness_score ← as_float liveness_score;
  match_score ← as_float match_score;
  document_quality_score ← as_float document_quality_score;
  let overall_score :=
    overall_score_of liveness_score match_score document_quality_score fraud_score in
  let status := status_of overall_score liveness_score match_score in
  c1 ← as_float (get liveness_result "confidence" (VFloat 0.0));
  c2 ← as_float (get face_match_result "confidence" (VFloat 0.0));
  make_response liveness_score match_score fraud_score document_quality_score
    overall_score status fraud_indicators (Qmin c1 c2) processing_time
    (<["attempt_id" := VStr attempt]>
     (<["liveness_details" := get liveness_result "metadata" (VDict ∅)]>
     (<["face_match_details" := VDict
         (<["selfie_face" := get face_match_result "selfie_face" (VDict ∅)]>
         (<["id_face" := get face_match_result "id_face" (VDict ∅)]> ∅))]>
     (<["document_details" := VDict
         (<["extracted_data" := get document_result "extracted_data" (VDict ∅)]>
         (<["fraud_indicators" := get document_result "fraud_indicators" (VList [])]>
          ∅))]> ∅)))).

Section Endpoint.

Variable Image : Type.
Variable download_image : string -> result Image.
(** [settings.FACE_MATCH_THRESHOLD] *)
Variable FACE_MATCH_THRESHOLD : Q.
(** The three analyzer calls handed to [asyncio.to_thread]. *)
Variable detect_liveness :
  Image -> option string -> option (list Image) -> result (gmap string value).
Variable verify_face_match : Image -> Image -> Q -> result (gmap string value).
Variable verify_document :
  Image -> option Image -> option string -> result (gmap string value).
(** The two readings of the event-loop clock. *)
Variable start_time end_time : Q.

(** [request.id_back_url] when it is truthy. *)
Definition back_url (request : KYCVerificationRequest) : list string :=
  match id_back_url request with
  | Some u => if String.eqb u "" then [] else [u]
  | None => []
  end.

(** The [try] body of [verify_kyc]. *)
Definition verify_kyc_body (request : KYCVerificationRequest)
  : result KYCVerificationResponse :=
  images ← mapM download_image
             ([selfie_url request; id_front_url request] ++ back_url request);
  match images with
  | selfie_image :: id_front_image :: rest =>
      let id_back_image := head rest in
      let liveness_result := handled (detect_liveness selfie_image None None) in
      let face_match_result :=
        handled (verify_face_match selfie_image id_front_image FACE_MATCH_THRESHOLD) in
      let document_result :=
        handled (verify_document id_front_image id_back_image None) in
      fuse (attempt_id request) (end_time - start_time)
           liveness_result face_match_result document_result
  | _ => Raise (ValueError "list index out of range")
  end.

Definition verify_kyc (request : KYCVerificationRequest) : outcome :=
  match verify_kyc_body request with
  | Ok response => Returned response
  | Raise e => HTTPException 500 (str e)
  end.

End Endpoint.

End Routes.

(** ** api/routes.py: the liveness route and the upload route *)

Module Endpoints.

Record LivenessRequest := {
  image_url : string;
  attempt_id : string;
  challenge_type : option string;
}.

(** What a route hands to the HTTP layer. *)
Inductive reply :=
| Reply (body : gmap string value)
| HTTPError (status_code : Z) (detail : string).

Section LivenessRoute.

Variable Image : Type.
Variable download_image : string -> result Image.
(** [liveness_model.detect_liveness], which catches its own exceptions. *)
Variable detect_liveness :
  Image -> option string -> option (list Image) -> gmap string value.
(** The reading of the event-loop clock. *)
Variable loop_time : Q.

(** The route [detect_liveness]: the frames are never passed on
    ([temporal_data=None]); the log line reads [result['liveness_score']],
    a KeyError when the key is missing. *)
Definition detect_liveness_route (request : LivenessRequest) : reply :=
  match download_image (image_url request) with
  | Ok image =>
      let result := detect_liveness image (challenge_type request) None in
      let result := <["attempt_id" := VStr (attempt_id request)]> result in
      let result := <["timestamp" := VFloat loop_time]> result in
      match result !! "liveness_score" with
      | Some _ => Reply result
      | None => HTTPError 500 "'liveness_score'"
      end
  | Raise e => HTTPError 500 (str e)
  end.

End LivenessRoute.

Section UploadRoute.

Variable UploadFile Image : Type.
(** [file.file.read()], [Image.open], [np.array] and [cv2.cvtColor]. *)
Variable decode : UploadFile -> result Image.
(** [cv_image.size] and [(shape[0], shape[1])]. *)
Variable size : Image -> Z.
Variable shape : Image -> Z * Z.
(** [settings.MAX_IMAGE_SIZE] *)
Variable MAX_IMAGE_SIZE : Z.

(** An exception in flight inside a route: an HTTPException or any other
    Exception. *)
Inductive raised :=
| RaisedHTTP (status_code : Z) (detail : string)
| RaisedOther (e : exn).

(** The [try] body of [validate_image]. *)
Definition validate_image_body (file : UploadFile) : Image + raised :=
  match decode file with
  | Ok cv_image =>
      if (MAX_IMAGE_SIZE * MAX_IMAGE_SIZE * 3 <? size cv_image)%Z
      then inr (RaisedHTTP 400
                  ("Image too large. Max size: " +:+ pretty MAX_IMAGE_SIZE
                   +:+ "x" +:+ pretty MAX_IMAGE_SIZE))
      else inl cv_image
  | Raise e => inr (RaisedOther e)
  end.

(** [validate_image]: [except Exception] also catches the HTTPException
    raised in the body. *)
Definition validate_image (file : UploadFile) : Image + raised :=
  match validate_image_body file with
  | inl cv_image => inl cv_image
  | inr _ => inr (RaisedHTTP 400 "Invalid image file")
  end.

Definition file_types : list string := ["selfie"; "id_front"; "id_back"].

(** The [try] body of [upload_image]. *)
Definition upload_image_body (file : UploadFile) (file_type : string)
  : gmap string value + raised :=
  if negb (bool_decide (file_type ∈ file_types))
  then inr (RaisedHTTP 400 "Invalid file type")
  else
    match validate_image file with
    | inl image =>
        inl (<["success" := VBool true]>
             (<["message" := VStr "Image uploaded successfully"]>
             (<["file_type" := VStr file_type]>
             (<["image_size" := VStr (pretty (shape image).2 +:+ "x"
                                      +:+ pretty (shape image).1)]>
             (<["processing_available" := VBool true]> ∅)))))
    | inr r => inr r
    end.

(** [upload_image]: an HTTPException passes, anything else becomes a 500. *)
Definition upload_image (file : UploadFile) (file_type : string) : reply :=
  match upload_image_body file file_type with
  | inl body => Reply body
  | inr (RaisedHTTP status_code detail) => HTTPError status_code detail
  | inr (RaisedOther e) => HTTPError 500 (str e)
  end.

End UploadRoute.

End Endpoints.

(** ** api/routes.py: the face-match route *)

Module FaceMatchEndpoint.

Record FaceMatchRequest := {
  selfie_url : string;
  id_photo_url : string;
  attempt_id : string;
}.

Section Route.

Variable Image : Type.
Variable download_image : string -> result Image.
(** [settings.FACE_MATCH_THRESHOLD] *)
Variable FACE_MATCH_THRESHOLD : Q.
(** [face_model.verify_face_match], which catches its own exceptions. *)
Variable verify_face_match : Image -> Image -> Q -> gmap string value.
Variable loop_time : Q.

Definition verify_face_match_route (request : FaceMatchRequest) : Endpoints.reply :=
  match (selfie_image ← download_image (selfie_url request);
         id_image ← download_image (id_photo_url request);
         mret (selfie_image, id_image)) with
  | Ok (selfie_image, id_image) =>
      let result := verify_face_match selfie_image id_image FACE_MATCH_THRESHOLD in
      let result := <["attempt_id" := VStr (attempt_id request)]> result in
      let result := <["timestamp" := VFloat loop_time]> result in
      match result !! "match_score" with
      | Some _ => Endpoints.Reply result
      | None => Endpoints.HTTPError 500 "'match_score'"
      end
  | Raise e => Endpoints.HTTPError 500 (str e)
  end.

End Route.

End FaceMatchEndpoint.

(** ** api/schemas.py: the fields a response model requires *)

Module Schemas.

(** The fields declared without a default. *)
Definition LivenessResponse_required : list string :=
  ["liveness_score"; "is_live"; "confidence"].
Definition FaceMatchResponse_required : list string :=
  ["match_score"; "is_match"; "confidence"; "distance"].

Definition has_fields (required : list string) (d : gmap string value) : bool :=
  forallb (fun k => bool_decide (is_Some (d !! k))) required.

End Schemas.

(** ** utils/metrics.py *)

Module Metrics.

(** The dataclass [ModelMetrics]; the counters start at 0 and are only
    incremented. *)
Record ModelMetrics := {
  total_inferences : nat;
  total_processing_time : Q;
  avg_processing_time : Q;
  success_count : nat;
  error_count : nat;
  last_inference_time : option Q;
}.

(** [ModelMetrics()] *)
Definition fresh : ModelMetrics :=
  {| total_inferences := 0; total_processing_time := 0.0;
     avg_processing_time := 0.0; success_count := 0; error_count := 0;
     last_inference_time := None |}.

(** [update]; [now] is the reading of [time.time()]. *)
Definition update (self : ModelMetrics) (processing_time : Q) (success : bool)
  (now : Q) : ModelMetrics :=
  let total_inferences := S (total_inferences self) in
  let total_processing_time := total_processing_time self + processing_time in
  {| total_inferences := total_inferences;
     total_processing_time := total_processing_time;
     avg_processing_time :=
       total_processing_time / inject_Z (Z.of_nat total_inferences);
     success_count := if success then S (success_count self) else success_count self;
     error_count := if success then error_count self else S (error_count self);
     last_inference_time := Some now |}.

(** [self.metrics] is a [defaultdict(ModelMetrics)]. *)
Record MetricsCollector := {
  metrics : gmap string ModelMetrics;
  start_time : Q;
}.

Definition init (now : Q) : MetricsCollector :=
  {| metrics := ∅; start_time := now |}.

(** A call either returns or waits for ever. *)
Inductive run (A : Type) :=
| Returns (a : A)
| Blocks.
Arguments Returns {A} a.
Arguments Blocks {A}.

#[export] Instance run_ret : MRet run := fun _ a => Returns a.
#[export] Instance run_bind : MBind run := fun _ _ f m =>
  match m with
  | Returns a => f a
  | Blocks => Blocks
  end.

(** [with self.lock: body].  A [threading.Lock] is not reentrant: the
    thread that holds it and acquires it again waits for ever.  [held]
    tells whether the calling thread holds the lock already. *)
Definition with_lock {A} (held : bool) (body : run A) : run A :=
  if held then Blocks else body.

Definition record_inference (held : bool) (self : MetricsCollector)
  (model_name : string) (processing_time : Q) (success : bool) (now : Q)
  : run MetricsCollector :=
  with_lock held
    (mret {| metrics :=
               <[model_name :=
                   update (default fresh (metrics self !! model_name))
                          processing_time success now]> (metrics self);
             start_time := start_time self |}).

(** [successes / total if total > 0 else 0] *)
Definition rate (successes total : nat) : value :=
  if (0 <? total)%nat
  then VFloat (inject_Z (Z.of_nat successes) / inject_Z (Z.of_nat total))
  else VInt 0.

Definition opt_float (o : option Q) : value :=
  match o with
  | Some x => VFloat x
  | None => VNone
  end.

Definition get_model_metrics (held : bool) (self : MetricsCollector)
  (model_name : string) : run (gmap string value) :=
  with_lock held
    (let metrics := default fresh (metrics self !! model_name) in
     mret (<["total_inferences" := VInt (Z.of_nat (total_inferences metrics))]>
           (<["avg_processing_time" := VFloat (avg_processing_time metrics)]>
           (<["success_rate" :=
                rate (success_count metrics) (total_inferences metrics)]>
           (<["last_inference_time" :=
                opt_float (last_inference_time metrics)]> ∅))))).

(** [get_all_metrics]; [now1] and [now2] are the two readings of the
    clock.  The dict comprehension calls [get_model_metrics] inside the
    [with] block. *)
Definition get_all_metrics (held : bool) (self : MetricsCollector) (now1 now2 : Q)
  : run (gmap string value) :=
  with_lock held
    (let values := (map_to_list (metrics self)).*2 in
     let total_inferences := sum_list (total_inferences <$> values) in
     let total_success := sum_list (success_count <$> values) in
     models ← mapM (fun name => d ← get_model_metrics true self name;
                                mret (name, VDict d))
                   (map_to_list (metrics self)).*1;
     mret (<["uptime" := VFloat (now1 - start_time self)]>
           (<["total_inferences" := VInt (Z.of_nat total_inferences)]>
           (<["overall_success_rate" := rate total_success total_inferences]>
           (<["models" := VDict (list_to_map models)]>
           (<["timestamp" := VFloat now2]> ∅)))))).

Definition reset (held : bool) (self : MetricsCollector) (now : Q)
  : run MetricsCollector :=
  with_lock held (mret {| metrics := ∅; start_time := now |}).

(** [v > x] for a number [v]. *)
Definition gt (v : value) (x : Q) : bool :=
  match as_float v with
  | Ok y => Qltb x y
  | Raise _ => false
  end.

Definition get_health_status (held : bool) (self : MetricsCollector) (now1 now2 : Q)
  : run (gmap string value) :=
  metrics ← get_all_metrics held self now1 now2;
  let is_healthy := gt (get metrics "total_inferences" VNone) 0 in
  let is_healthy :=
    if is_healthy then gt (get metrics "overall_success_rate" VNone) 0.8
    else is_healthy in
  mret (<["status" := VStr (if is_healthy then "healthy" else "degraded")]>
        (<["message" := VStr (if is_healthy then "Service is operational"
                              else "Service may be experiencing issues")]>
        (<["metrics" := VDict metrics]> ∅))).

(** A thread that records a list of inferences, one call each, without
    holding the lock. *)
Fixpoint record_all (self : MetricsCollector)
  (inferences : list (string * Q * bool * Q)) : run MetricsCollector :=
  match inferences with
  | [] => mret self
  | (model_name, processing_time, success, now) :: rest =>
      self ← record_inference false self model_name processing_time success now;
      record_all self rest
  end.

End Metrics.

(** ** utils/image_utils.py and services/image_processor.py *)

Module ImageProcessor.

Record ImageQuality := {
  blur_score : Q;
  brightness : Q;
  contrast : Q;
  resolution : Z * Z;
  overall_score : Q;
}.

Section Model.

Variable Image : Type.
(** On the grey-level image [cv2.cvtColor(image, cv2.COLOR_BGR2GRAY)]:
    the variance of the Laplacian, the mean and the standard deviation. *)
Variable laplacian_var gray_mean gray_std : Image -> result Q.
(** [(image.shape[0], image.shape[1])]: height and width. *)
Variable shape : Image -> Z * Z.
(** [enhance_image] and [resize_image(_, self.max_size)]. *)
Variable enhance_image resize_image : Image -> result Image.
(** Grey levels, histogram equalisation, thresholding and
    [_deskew_document]. *)
Variable binarize_and_deskew : Image -> result Image.

Definition detect_blur (image : Image) (threshold : Q) : result Q :=
  v ← laplacian_var image; mret (Qmin (v / threshold) 1.0).

Definition calculate_brightness (image : Image) : result Q :=
  m ← gray_mean image; mret (m / 255.0).

Definition calculate_contrast (image : Image) : result Q :=
  s ← gray_std image; mret (Qmin (s / 128.0) 1.0).

Definition _calculate_image_quality (image : Image) : result ImageQuality :=
  blur_score ← detect_blur image 100.0;
  brightness ← calculate_brightness image;
  contrast ← calculate_contrast image;
  let overall_score :=
    blur_score * 0.4 + Qmin (Qabs (brightness - 0.5) * 2) 1.0 * 0.3
    + contrast * 0.3 in
  mret {| blur_score := blur_score; brightness := brightness;
          contrast := contrast;
          resolution := ((shape image).2, (shape image).1);
          overall_score := overall_score |}.

Definition _validate_selfie (image : Image) (quality : ImageQuality) : bool :=
  if ((shape image).1 <? 480)%Z || ((shape image).2 <? 480)%Z then false
  else if Qltb (overall_score quality) 0.4 then false
  else if Qltb (brightness quality) 0.3 || Qltb 0.8 (brightness quality) then false
  else if Qltb (blur_score quality) 0.3 then false
  else true.

Definition _validate_document (image : Image) (quality : ImageQuality) : bool :=
  if ((shape image).1 <? 600)%Z || ((shape image).2 <? 800)%Z then false
  else if Qltb (overall_score quality) 0.5 then false
  else if Qltb (contrast quality) 0.4 then false
  else if Qltb (blur_score quality) 0.4 then false
  else true.

(** What [process_selfie] and [process_id_document] return. *)
Record processed := {
  processed_image : Image;
  quality : ImageQuality;
  is_valid : bool;
  validation_errors : list string;
}.

Definition process_selfie (image : Image) : result processed :=
  enhanced ← enhance_image image;
  resized ← resize_image enhanced;
  quality ← _calculate_image_quality resized;
  let is_valid := _validate_selfie resized quality in
  mret {| processed_image := resized; quality := quality; is_valid := is_valid;
          validation_errors :=
            if is_valid then [] else ["Image does not meet selfie requirements"] |}.

Definition process_id_document (image : Image) : result processed :=
  deskewed ← binarize_and_deskew image;
  quality ← _calculate_image_quality image;
  let is_valid := _validate_document image quality in
  mret {| processed_image := deskewed; quality := quality; is_valid := is_valid;
          validation_errors :=
            if is_valid then [] else ["Document image quality insufficient"] |}.

End Model.

End ImageProcessor.

(** ** services/embedding_service.py *)

Module EmbeddingService.

(** [np.argmax]: the first index that holds the greatest value. *)
Definition argmax (xs : list Q) : nat :=
  match max_by Qltb snd (imap (fun i x => (i, x)) xs) with
  | Some (i, _) => i
  | None => 0%nat
  end.

Section Model.

Variable Embedding : Type.
(** [np.dot] of the two vectors, each divided by its norm. *)
Variable cosine : Embedding -> Embedding -> Q.

(** [find_best_match]; [None] stands for the IndexError of
    [reference_ids[best_idx]]. *)
Definition find_best_match (query_embedding : Embedding)
  (reference_embeddings : list Embedding) (reference_ids : option (list string))
  : option (gmap string value) :=
  match reference_embeddings with
  | [] =>
      Some (<["best_match_index" := VInt (-1)]>
            (<["similarity" := VFloat 0.0]>
            (<["is_match" := VBool false]>
            (<["confidence" := VFloat 0.0]> ∅))))
  | _ =>
      let similarities := cosine query_embedding <$> reference_embeddings in
      let best_idx := argmax similarities in
      let best_similarity := default 0 (similarities !! best_idx) in
      best_match_id ←
        match reference_ids with
        | Some ((_ :: _) as ids) => VStr <$> ids !! best_idx
        | _ => Some VNone
        end;
      Some (<["best_match_index" := VInt (Z.of_nat best_idx)]>
            (<["best_match_id" := best_match_id]>
            (<["similarity" := VFloat best_similarity]>
            (<["is_match" := VBool (Qltb 0.6 best_similarity)]>
            (<["confidence" := VFloat best_similarity]>
            (<["all_similarities" := VList (VFloat <$> similarities)]> ∅))))))
  end.

End Model.

End EmbeddingService.

(** ** api/middleware.py: the rate limiter *)

Module RateLimit.

Record Request := {
  (** [request.url.path] *)
  path : string;
  (** [request.headers.get("X-API-Key")] *)
  x_api_key : option string;
  (** [request.client.host], when there is a client *)
  client_host : option string;
}.

Definition exempt_paths : list string :=
  ["/health"; "/metrics"; "/docs"; "/redoc"; "/openapi.json"].

Definition _get_client_id (request : Request) : string :=
  let by_ip := "ip:" +:+ default "unknown" (client_host request) in
  match x_api_key request with
  | Some api_key =>
      if String.eqb api_key "" then by_ip else "api_key:" +:+ api_key
  | None => by_ip
  end.

(** The Redis server as the middleware sees it within one window: the
    counters it holds, written by this middleware only, or a server whose
    every command raises. *)
Inductive Redis :=
| Up (counters : gmap string Z)
| Down (e : exn).

(** How the block that consults Redis ends: it falls through to
    [call_next], raises the HTTPException 429, or raises something else. *)
Inductive verdict :=
| Pass
| Exceeded (retry_after limit : Z)
| Failed (e : exn).

(** The request reaches the handler unless the limit is exceeded: when
    Redis raises, the middleware lets it through. *)
Definition forwarded (v : verdict) : bool :=
  match v with
  | Exceeded _ _ => false
  | Pass | Failed _ => true
  end.

(** Lines 30-54 issue two Redis commands, GET and then one of SETEX, INCR
    and TTL, and await each of them: the event loop can run other requests
    between the two.  The block of a request has issued nothing yet, has
    bound [current], or has ended with a verdict. *)
Inductive progress :=
| Entered
| Read (current : option Z)
| Checked (v : verdict).

(** The block fell through to [call_next]. *)
Definition passed (p : progress) : bool :=
  match p with
  | Checked v => forwarded v
  | _ => false
  end.

(** What a handler, and the middleware, hands back. *)
Inductive reply (Response : Type) :=
| Responded (response : Response)
| RaisedHTTP (status_code : Z) (detail : value)
| RaisedOther (e : exn).
Arguments Responded {Response} response.
Arguments RaisedHTTP {Response} status_code detail.
Arguments RaisedOther {Response} e.

Section Model.

(** [settings.RATE_LIMIT_PER_MINUTE] *)
Variable RATE_LIMIT_PER_MINUTE : Z.
(** [redis_client.ttl(key)] *)
Variable ttl : string -> Z.

(** Lines 30-54 of [__call__], run for one request with no other request
    in between. *)
Definition limit_check (redis_client : option Redis) (key : string)
  : option Redis * verdict :=
  match redis_client with
  | None => (redis_client, Pass)
  | Some (Down e) => (redis_client, Failed e)
  | Some (Up counters) =>
      match counters !! key with
      | None => (Some (Up (<[key := 1%Z]> counters)), Pass)
      | Some current =>
          if (current <? RATE_LIMIT_PER_MINUTE)%Z
          then (Some (Up (<[key := (current + 1)%Z]> counters)), Pass)
          else (redis_client, Exceeded (ttl key) RATE_LIMIT_PER_MINUTE)
      end
  end.

(** The next command of a request, on the server as it is at that moment.
    INCR adds to the counter the server holds then, whatever [current]
    was read. *)
Definition command (redis_client : option Redis) (key : string) (p : progress)
  : option Redis * progress :=
  match p, redis_client with
  | Checked _, _ => (redis_client, p)
  | _, None => (redis_client, Checked Pass)
  | _, Some (Down e) => (redis_client, Checked (Failed e))
  | Entered, Some (Up counters) => (redis_client, Read (counters !! key))
  | Read None, Some (Up counters) =>
      (Some (Up (<[key := 1%Z]> counters)), Checked Pass)
  | Read (Some current), Some (Up counters) =>
      if (current <? RATE_LIMIT_PER_MINUTE)%Z
      then (Some (Up (<[key := (default 0 (counters !! key) + 1)%Z]> counters)),
            Checked Pass)
      else (redis_client, Checked (Exceeded (ttl key) RATE_LIMIT_PER_MINUTE))
  end.

(** The requests in flight, each with its key, under a schedule: the
    indices of the requests in the order in which the event loop lets
    them issue their next command. *)
Fixpoint interleave (redis_client : option Redis)
  (requests : list (string * progress)) (schedule : list nat)
  : option Redis * list (string * progress) :=
  match schedule with
  | [] => (redis_client, requests)
  | i :: schedule =>
      match requests !! i with
      | Some (key, p) =>
          let '(redis_client, p) := command redis_client key p in
          interleave redis_client (<[i := (key, p)]> requests) schedule
      | None => interleave redis_client requests schedule
      end
  end.

(** How many of the requests with the given keys carry the key [key] and
    are forwarded to the handler under the schedule. *)
Definition forwarded_for (key : string) (redis_client : option Redis)
  (keys : list string) (schedule : list nat) : nat :=
  length (filter (fun r => r.1 = key /\ passed r.2 = true)
                 (interleave redis_client ((fun k => (k, Entered)) <$> keys)
                    schedule).2).

(** The rest of the application behind the middleware, with its state. *)
Variable Response App : Type.
Variable call_next : Request -> App -> App * reply Response.

Definition __call__ (redis_client : option Redis) (request : Request) (app : App)
  : option Redis * (App * reply Response) :=
  if bool_decide (path request ∈ exempt_paths)
  then (redis_client, call_next request app)
  else
    let key := "rate_limit:" +:+ _get_client_id request in
    let '(redis_client, v) := limit_check redis_client key in
    match v with
    | Pass =>
        let '(app, r) := call_next request app in
        match r with
        | RaisedOther _ => (redis_client, call_next request app)
        | _ => (redis_client, (app, r))
        end
    | Exceeded retry_after limit =>
        (redis_client,
         (app, RaisedHTTP 429
                 (VDict (<["error" := VStr "Rate limit exceeded"]>
                        (<["retry_after" := VInt retry_after]>
                        (<["limit" := VInt limit]> ∅))))))
    | Failed _ => (redis_client, call_next request app)
    end.

End Model.

(** Two schedules for [n] requests: each request issues its two commands
    before the next one starts; every request issues its GET before any
    of them issues its second command. *)
Definition one_at_a_time (n : nat) : list nat :=
  flat_map (fun i => [i; i]) (seq 0 n).
Definition reads_first (n : nat) : list nat := seq 0 n ++ seq 0 n.

End RateLimit.

(** The three statuses in the order rejected, manual_review, approved. *)
Definition status_rank (status : string) : nat :=
  if String.eqb status "approved" then 2
  else if String.eqb status "manual_review" then 1
  else 0.

(** ** The validity decision as the design document words it *)

(** Invalid if a critical indicator is present, or the quality score is
    below 0.4, or a required field is absent; otherwise valid iff there
    are at most two indicators. *)
Definition spec_document_valid (extracted_data : gmap string string)
  (fraud_indicators : list string) (quality_score : Q) (document_type : string) : bool :=
  if existsb (fun c => DocumentVerification.mem c fraud_indicators)
             DocumentVerification.critical_indicators
     || Qltb quality_score 0.4
     || DocumentVerification.required_field_missing document_type extracted_data
  then false
  else (length fraud_indicators <=? 2)%nat.

(** ** The aggregate label as the design document words it *)

(** Among the labels of the flagged outcomes, in detector order, the most
    frequent one, the earliest of them on a tie; none when nothing is
    flagged. *)
Definition spec_aggregate_label (flagged_labels : list string) : option string :=
  max_by Nat.ltb (count flagged_labels) flagged_labels.

(** ** A concrete instance of the collaborators *)

Module Scenario.

(** The images of the examples, told apart by a tag. *)
Inductive image :=
| Selfie          (* a well-lit selfie of a live person *)
| Masked          (* a selfie with little skin colour in the frame *)
| Faceless        (* a picture in which no face is found *)
| IdFront         (* the front of an identity card *)
| Undecodable.    (* a buffer OpenCV cannot convert *)

Definition cvtColor (img : image) : result image :=
  match img with
  | Undecodable => Raise (ExternalError "OpenCV: unsupported array type in cvtColor")
  | _ => Ok img
  end.

(** Texture 1.0, colour 0.8, edge 0.8, no reflection. *)
Definition lbp_entropy (_ : image) : result Q := Ok 8.0.
Definition skin_ratio (img : image) : result Q :=
  match img with
  | Masked => Ok 0.05
  | _ => Ok 0.2
  end.
Definition edge_density (_ : image) : result Q := Ok 0.1.
Definition reflection_ratio (_ : image) : result Q := Ok 0.0.
Definition mean_absdiff (_ _ : image) : result Q := Ok 0.1.

(** The network of [_initialize_model] has no trained weights loaded; here
    it gives "live" a probability of 0.1. *)
Definition net : LivenessDetection.LivenessNet image := fun _ => Ok 0.1.

Definition liveness_model : LivenessDetection.LivenessDetectionModel image :=
  {| LivenessDetection.device := "cpu"; LivenessDetection.model := Some net |}.

Definition detect_liveness (img : image) (challenge_type : option string)
  (temporal_data : option (list image)) : gmap string value :=
  LivenessDetection.detect_liveness image cvtColor lbp_entropy skin_ratio
    edge_density reflection_ratio mean_absdiff liveness_model img
    challenge_type temporal_data.

(** Face detection: one good face, except in the faceless picture. *)
Definition a_face : FaceRecognition.Face :=
  {| FaceRecognition.bbox := [10; 10; 110; 110]%Z;
     FaceRecognition.quality_score := 0.8;
     FaceRecognition.pose := ∅ |}.

Definition insight_faces (img : image) : result (list FaceRecognition.Face) :=
  match img with
  | Faceless => Ok []
  | _ => Ok [a_face]
  end.

Definition facenet_embedding (_ : image) (_ : FaceRecognition.Face)
  : result (option FaceRecognition.Embedding) := Ok (Some [1.0; 0.0]).

Definition cosine_similarity (_ _ : FaceRecognition.Embedding) : result Q := Ok 0.5.

Definition verify_face_match (selfie_image id_image : image) (threshold : Q)
  : gmap string value :=
  FaceRecognition.verify_face_match image insight_faces facenet_embedding
    cosine_similarity selfie_image id_image threshold.

(** Anti-spoof statistics: every measurement is 0, which flags the print,
    mask and photo-quality detectors. *)
Definition zero (_ : image) : result Q := Ok 0.0.
Definition zero_frames (_ : list image) : result Q := Ok 0.0.
Definition no_dispersion (_ : image) : result (option Q) := Ok (Some 0.0).

(** Two admissible iteration orders of [set(xs)]: for labels without
    repetition, the order of the list and its reverse. *)
Definition in_list_order (xs : list string) : list string := remove_dups xs.
Definition in_reverse_order (xs : list string) : list string := reverse (remove_dups xs).

Definition detect_spoof (set_order : list string -> list string) (img : image)
  : gmap string value :=
  AntiSpoof.detect_spoof image (fun i _ _ _ _ => i) zero zero zero zero zero_frames
    no_dispersion zero zero zero zero_frames zero zero zero zero set_order
    img None None.

Definition method_results (img : image) : list (string * AntiSpoof.method_result) :=
  AntiSpoof.run_methods image zero zero zero zero zero_frames
    no_dispersion zero zero zero zero_frames zero zero zero zero img None.

(** Dates: days since 0001-01-01; the clock reads 2026-11-04. *)
Definition today : Z := 739924.
Definition parse_date (s : string) : result Z :=
  if String.eqb s "01/01/2999" then Ok 1094998%Z
  else if String.eqb s "01/01/1990" then Ok 726468%Z
  else Raise (ValueError ("Could not parse date: " +:+ s)).

(** The fields read off an identity card. *)
Definition card_data (dob : string) : gmap string string :=
  <["name" := "JANE DOE"]>
  (<["document_number" := "IDAB1234567"]>
  (<["date_of_birth" := dob]> ∅)).

(** Document statistics: a sharp, evenly lit card with no sign of
    tampering. *)
Definition verify_document (front_image : image) (back_image : option image)
  (document_type : option string) : gmap string value :=
  DocumentVerification.verify_document image today parse_date (fun i => i)
    (fun _ => Ok 150.0) (fun _ => Ok 0.5) (fun _ => Ok 0.5)
    (fun _ => "NAME: JANE DOE") (fun _ => "id_card")
    (fun _ _ _ => card_data "01/01/1990") (fun _ _ => 0.5) (fun _ _ => ∅)
    zero (fun _ _ => Ok 1.0)
    front_image back_image document_type.

(** The downloader. *)
Definition download_image (url : string) : result image :=
  if String.eqb url "https://kyc.example/selfie.jpg" then Ok Selfie
  else if String.eqb url "https://kyc.example/masked.jpg" then Ok Masked
  else if String.eqb url "https://kyc.example/faceless.jpg" then Ok Faceless
  else if String.eqb url "https://kyc.example/id-front.jpg" then Ok IdFront
  else Raise (ExternalError ("Failed to download image from " +:+ url)).

Definition request (selfie : string) : Routes.KYCVerificationRequest :=
  {| Routes.attempt_id := "a-1";
     Routes.selfie_url := selfie;
     Routes.id_front_url := "https://kyc.example/id-front.jpg";
     Routes.id_back_url := None |}.

(** The endpoint over these collaborators, with the face-match task left
    open so that a failing one can be plugged in. *)
Definition verify_kyc_with
  (face_task : image -> image -> Q -> result (gmap string value))
  (selfie : string) : Routes.outcome :=
  Routes.verify_kyc image download_image 0.6
    (fun i c t => Ok (detect_liveness i c t))
    face_task
    (fun f b t => Ok (verify_document f b t))
    10.0 10.25 (request selfie).

Definition verify_kyc (selfie : string) : Routes.outcome :=
  verify_kyc_with (fun s i t => Ok (verify_face_match s i t)) selfie.

(** A face-match task that raises. *)
Definition failing_face_task (_ _ : image) (_ : Q) : result (gmap string value) :=
  Raise (ExternalError "face model unavailable").

End Scenario.

(** * Properties *)

(** ** Arithmetic helpers *)

Section Arithmetic.

Lemma Qleb_le x y : Qleb x y = true <-> x <= y.
Proof. apply Qle_bool_iff. Qed.

Lemma Qltb_lt x y : Qltb x y = true <-> x < y.
Proof.
  unfold Qltb. rewrite negb_true_iff.
  split.
  - intros H. apply Qnot_le_lt. intros Hle.
    apply Qle_bool_iff in Hle. congruence.
  - intros H. destruct (Qle_bool y x) eqn:E; [|done].
    apply Qle_bool_iff in E. exfalso. eapply Qlt_not_le; eauto.
Qed.

Lemma Qleb_false x y : Qleb x y = false <-> y < x.
Proof.
  rewrite <- Qltb_lt. unfold Qltb, Qleb.
  destruct (Qle_bool x y); simpl; split; congruence.
Qed.

Lemma Qltb_false x y : Qltb x y = false <-> y <= x.
Proof.
  rewrite <- Qleb_le. unfold Qltb, Qleb.
  destruct (Qle_bool y x); simpl; split; congruence.
Qed.

Lemma Qmin_le_r (x y : Q) : Qmin x y <= y.
Proof. apply Q.le_min_r. Qed.

Lemma sum_from (xs : list Q) (a : Q) : fold_left Qplus xs a == a + sum xs.
Proof.
  unfold sum. revert a. induction xs as [|x xs IH]; intros a; simpl.
  - ring.
  - rewrite IH, (IH (0 + x)). ring.
Qed.

Lemma sum_cons (x : Q) (xs : list Q) : sum (x :: xs) == x + sum xs.
Proof. unfold sum at 1. simpl. rewrite sum_from. ring. Qed.

End Arithmetic.

(** ** Fusion (routes.py) *)

Section Fusion.

Import Routes.

Lemma make_response_fields l m f d o st rs c pt md r :
  make_response l m f d o st rs c pt md = Ok r ->
  liveness_score r = l /\ match_score r = m /\ fraud_score r = f
  /\ document_quality_score r = d /\ overall_score r = o /\ status r = st
  /\ as_str_list rs = Some (reasons r) /\ confidence r = c.
Proof.
  unfold make_response. destruct (as_str_list rs) as [ss|]; [|discriminate].
  destruct (forallb _ _); [|discriminate].
  intros [= <-]. simpl. tauto.
Qed.

(** Inversion of a run of [fuse] that reached the response. *)
Lemma fuse_inv att pt lr fr dr r :
  fuse att pt lr fr dr = Ok r ->
  exists inds,
    fraud_indicators_of lr dr = Ok inds
    /\ as_float (get lr "liveness_score" (VFloat 0.0)) = Ok (liveness_score r)
    /\ as_float (get fr "match_score" (VFloat 0.0)) = Ok (match_score r)
    /\ as_float (get dr "quality_score" (VFloat 0.0)) = Ok (document_quality_score r)
    /\ fraud_score r = fraud_score_of inds
    /\ overall_score r =
         overall_score_of (liveness_score r) (match_score r)
                          (document_quality_score r) (fraud_score r)
    /\ status r = status_of (overall_score r) (liveness_score r) (match_score r)
    /\ as_str_list inds = Some (reasons r).
Proof.
  unfold fuse.
  destruct (fraud_indicators_of lr dr) as [inds|] eqn:Hi; [|discriminate].
  cbn [mbind result_bind].
  destruct (as_float (get lr "liveness_score" _)) as [l|]; [|discriminate].
  destruct (as_float (get fr "match_score" _)) as [m|]; [|discriminate].
  destruct (as_float (get dr "quality_score" _)) as [d|]; [|discriminate].
  destruct (as_float (get lr "confidence" _)) as [c1|]; [|discriminate].
  destruct (as_float (get fr "confidence" _)) as [c2|]; [|discriminate].
  intros H. apply make_response_fields in H.
  destruct H as (-> & -> & -> & -> & -> & -> & Hrs & _).
  exists inds. repeat split; auto.
Qed.

Lemma status_of_cases o l m :
  (status_of o l m = "approved" <-> 0.8 <= o /\ 0.7 <= l /\ 0.6 <= m)
  /\ (status_of o l m = "manual_review"
      <-> ~ (0.8 <= o /\ 0.7 <= l /\ 0.6 <= m) /\ 0.6 <= o)
  /\ (status_of o l m = "rejected"
      <-> ~ (0.8 <= o /\ 0.7 <= l /\ 0.6 <= m) /\ ~ 0.6 <= o).
Proof.
  unfold status_of.
  destruct (Qleb 0.8 o) eqn:E1; destruct (Qleb 0.7 l) eqn:E2;
    destruct (Qleb 0.6 m) eqn:E3; destruct (Qleb 0.6 o) eqn:E4; simpl;
    rewrite ?Qleb_le, ?Qleb_false in *;
    repeat split; intros; try discriminate; try tauto; try lra;
    try (destruct_and?; exfalso; lra).
Qed.

End Fusion.

Section FusionClaims.

Import Routes.



End FusionClaims.

(** ** The spoof type in the indicator list (routes.py, lines 289-293) *)

Section Indicators.

Import Routes.








Context {Image : Type}.
Variable download_image : string -> result Image.
Variable FACE_MATCH_THRESHOLD : Q.
Variable detect_liveness :
  Image -> option string -> option (list Image) -> result (gmap string value).
Variable verify_face_match : Image -> Image -> Q -> result (gmap string value).
Variable verify_document :
  Image -> option Image -> option string -> result (gmap string value).
Variable start_time end_time : Q.

Local Abbreviation endpoint :=
  (verify_kyc Image download_image FACE_MATCH_THRESHOLD detect_liveness
              verify_face_match verify_document start_time end_time).
Local Abbreviation endpoint_body :=
  (verify_kyc_body Image download_image FACE_MATCH_THRESHOLD detect_liveness
                   verify_face_match verify_document start_time end_time).

Lemma verify_kyc_body_fuse request selfie front rest :
  mapM download_image
       ([selfie_url request; id_front_url request] ++ back_url request)
    = Ok (selfie :: front :: rest) ->
  endpoint_body request =
    fuse (attempt_id request) (end_time - start_time)
         (handled (detect_liveness selfie None None))
         (handled (verify_face_match selfie front FACE_MATCH_THRESHOLD))
         (handled (verify_document front (head rest) None)).
Proof. intros H. unfold verify_kyc_body. rewrite H. reflexivity. Qed.


End Indicators.


(** C3. The fraud score is min(n / 10, 1.0) for the n entries of the
    combined indicator list, but a spoof type does not count once: for the
    masked selfie of the scenario the liveness analyzer reports the spoof
    type "mask", the document has no indicator, and the combined list has
    the four entries m, a, s, k, so that the fraud score is 0.4 and not
    0.1. *)
Theorem spoof_type_counts_per_character :
  (forall inds, Routes.fraud_score_of inds == Qmin (len inds / 10) 1)
  /\ Scenario.detect_liveness Scenario.Masked None None !! "spoof_type"
     = Some (VStr "mask")
  /\ Scenario.verify_document Scenario.IdFront None None !! "fraud_indicators"
     = Some (VList [])
  /\ Routes.fraud_indicators_of
       (Scenario.detect_liveness Scenario.Masked None None)
       (Scenario.verify_document Scenario.IdFront None None)
     = Ok [VStr "m"; VStr "a"; VStr "s"; VStr "k"]
  /\ (exists r, Scenario.verify_kyc "https://kyc.example/masked.jpg" = Routes.Returned r
                /\ Routes.fraud_score r == 0.4
                /\ ~ Routes.fraud_score r == 0.1
                /\ Routes.reasons r = ["m"; "a"; "s"; "k"]).
Proof.
  split; [|split; [|split; [|split]]].
  - intros inds. unfold Routes.fraud_score_of.
    assert (H10 : 10.0 == 10) by reflexivity.
    assert (H1 : 1.0 == 1) by reflexivity.
    rewrite H10, H1. reflexivity.
  - vm_compute. reflexivity.
  - vm_compute. reflexivity.
  - vm_compute. reflexivity.
  - destruct (Scenario.verify_kyc "https://kyc.example/masked.jpg") as [r|c d] eqn:E.
    + exists r. split; [reflexivity|].
      vm_compute in E. injection E as <-.
      repeat split; vm_compute; congruence.
    + vm_compute in E. discriminate E.
Qed.

(** ** Degraded results (routes.py, lines 266-281) *)

Section Degraded.

Import Routes.

(** What the fusion reads from the dict that replaces a failed task:
    score 0, confidence 0 (the key is absent and read with the default),
    and an indicator list holding verification_failed. *)
Lemma degraded_reads (e : exn) :
  handled (Raise e) = degraded
  /\ get degraded "liveness_score" (VFloat 0.0) = VFloat 0.0
  /\ get degraded "match_score" (VFloat 0.0) = VFloat 0.0
  /\ get degraded "quality_score" (VFloat 0.0) = VFloat 0.0
  /\ get degraded "confidence" (VFloat 0.0) = VFloat 0.0
  /\ degraded !! "fraud_indicators" = Some (VList [VStr "verification_failed"]).
Proof. repeat split; vm_compute; reflexivity. Qed.

(** C5. The face-match task raises while the liveness task returns the
    result of a live selfie in which no spoof was found: the failed task is
    replaced by the degraded dict, yet the endpoint ends in HTTP 500 and no
    response is built. *)
Theorem degraded_face_match_no_verdict :
  handled (Scenario.failing_face_task Scenario.Selfie Scenario.IdFront 0.6) = degraded
  /\ Scenario.detect_liveness Scenario.Selfie None None !! "spoof_type" = Some VNone
  /\ Scenario.verify_kyc_with Scenario.failing_face_task
       "https://kyc.example/selfie.jpg"
     = HTTPException 500 "'NoneType' object is not iterable".
Proof. repeat split; vm_compute; reflexivity. Qed.

(** With the masked selfie, for which a spoof type is reported, the same
    failure of the face-match task is absorbed and a response is built. *)
Lemma degraded_face_match_verdict :
  exists r,
    Scenario.verify_kyc_with Scenario.failing_face_task "https://kyc.example/masked.jpg"
      = Returned r
    /\ match_score r == 0 /\ confidence r == 0 /\ status r = "rejected".
Proof.
  destruct (Scenario.verify_kyc_with _ _) as [r|c d] eqn:E.
  - exists r. split; [reflexivity|].
    vm_compute in E. injection E as <-. repeat split.
  - vm_compute in E. discriminate E.
Qed.

End Degraded.

(** ** Liveness: spoof type, score and confidence *)

Section Liveness.

Import LivenessDetection.

(** C8. The spoof type is chosen by the first rule that matches, in the
    order: printed_photo (edge < 0.3 and texture < 0.3), screen_replay
    (reflection > 0.1), mask (colour < 0.3), 3d_mask (texture > 0.8 and
    colour > 0.8), none; edge 0.2, texture 0.2, reflection 0.05,
    colour 0.9 gives printed_photo. *)
Theorem spoof_type_priority (texture color edge reflection : Q) :
  (edge < 0.3 /\ texture < 0.3 ->
     _detect_spoof_type texture color edge reflection = Some "printed_photo")
  /\ (~ (edge < 0.3 /\ texture < 0.3) -> 0.1 < reflection ->
     _detect_spoof_type texture color edge reflection = Some "screen_replay")
  /\ (~ (edge < 0.3 /\ texture < 0.3) -> ~ 0.1 < reflection -> color < 0.3 ->
     _detect_spoof_type texture color edge reflection = Some "mask")
  /\ (~ (edge < 0.3 /\ texture < 0.3) -> ~ 0.1 < reflection -> ~ color < 0.3 ->
     0.8 < texture /\ 0.8 < color ->
     _detect_spoof_type texture color edge reflection = Some "3d_mask")
  /\ (~ (edge < 0.3 /\ texture < 0.3) -> ~ 0.1 < reflection -> ~ color < 0.3 ->
     ~ (0.8 < texture /\ 0.8 < color) ->
     _detect_spoof_type texture color edge reflection = None)
  /\ _detect_spoof_type 0.2 0.9 0.2 0.05 = Some "printed_photo"
  /\ _detect_spoof_type 0.2 0.9 0.2 0.05 <> Some "mask".
Proof.
  unfold _detect_spoof_type.
  destruct (Qltb edge 0.3) eqn:E1; destruct (Qltb texture 0.3) eqn:E2;
    destruct (Qltb 0.1 reflection) eqn:E3; destruct (Qltb color 0.3) eqn:E4;
    destruct (Qltb 0.8 texture) eqn:E5; destruct (Qltb 0.8 color) eqn:E6;
    simpl; rewrite ?Qltb_lt, ?Qltb_false in *;
    repeat split; intros; try reflexivity; try discriminate;
    exfalso; try tauto; try lra.
Qed.

(** C8 on the outputs of the example and on a low colour score alone. *)
Lemma spoof_type_priority_witness :
  _detect_spoof_type 0.2 0.9 0.2 0.05 = Some "printed_photo"
  /\ _detect_spoof_type 0.9 0.2 0.9 0.05 = Some "mask".
Proof.
  split.
  - apply (proj1 (spoof_type_priority 0.2 0.9 0.2 0.05)). split; reflexivity.
  - apply (proj1 (proj2 (proj2 (spoof_type_priority 0.9 0.2 0.9 0.05)))).
    + intros [H _]. discriminate H.
    + intros H. discriminate H.
    + reflexivity.
Defined.

End Liveness.

Section LivenessScore.

Import LivenessDetection.

Context {Image : Type}.
Variable cvtColor : Image -> result Image.
Variables lbp_entropy skin_ratio edge_density reflection_ratio : Image -> result Q.
Variable mean_absdiff : Image -> Image -> result Q.

Local Abbreviation run :=
  (detect_liveness Image cvtColor lbp_entropy skin_ratio edge_density
                   reflection_ratio mean_absdiff).

Lemma weighted_five (t c e r ch : Q) :
  weighted [t; c; e; r; ch] weights
  == t * 0.25 + c * 0.20 + e * 0.20 + r * 0.15 + ch * 0.20.
Proof. unfold weighted, sum, weights. simpl. ring. Qed.

(** A model object that [init] built holds a network. *)
Lemma init_model_present dev build (self : LivenessDetectionModel Image) :
  init Image dev build = Ok self -> exists net, model Image self = Some net.
Proof.
  unfold init. destruct build as [net|e]; simpl; [|discriminate].
  intros [= <-]. eauto.
Qed.

Lemma challenge_not_supplied (challenge_type : option string)
  (temporal_data : option (list Image)) :
  challenge_type = None \/ temporal_data = None ->
  challenge_supplied Image challenge_type temporal_data = false.
Proof. intros [-> | ->]; [reflexivity|]. by destruct challenge_type. Qed.

(** C2, amended. When the image converts, the liveness score is the mean
    of the weighted sum texture*0.25 + colour*0.20 + edge*0.20 +
    (1 - reflection)*0.15 + challenge*0.20 and of the score of the network,
    which a constructed model always holds (the weighted sum alone only
    for a model without a network); the challenge score is 0.5 when the
    challenge type or the frame sequence is missing; is_live holds iff the
    liveness score is >= 0.7. *)
Theorem liveness_score_blends_model_score
  (self : LivenessDetectionModel Image) image rgb challenge_type temporal_data :
  cvtColor image = Ok rgb ->
  let texture := _analyze_texture Image lbp_entropy rgb in
  let color := _analyze_color_space Image skin_ratio rgb in
  let edge := _analyze_edges Image edge_density rgb in
  let reflection := _detect_reflections Image reflection_ratio rgb in
  let challenge :=
    if challenge_supplied Image challenge_type temporal_data
    then _analyze_challenge Image mean_absdiff (default [] temporal_data)
                            (default "" challenge_type)
    else 0.5 in
  let w := texture * 0.25 + color * 0.20 + edge * 0.20
           + (1 - reflection) * 0.15 + challenge * 0.20 in
  exists s,
    run self image challenge_type temporal_data !! "liveness_score" = Some (VFloat s)
    /\ match model Image self with
       | Some net => s == (w + _model_based_detection Image net rgb) / 2
       | None => s == w
       end
    /\ (forall dev build, init Image dev build = Ok self ->
          exists net, model Image self = Some net)
    /\ (challenge_type = None \/ temporal_data = None -> challenge = 0.5)
    /\ exists b,
         run self image challenge_type temporal_data !! "is_live" = Some (VBool b)
         /\ (b = true <-> 0.7 <= s).
Proof.
  intros Hcvt texture color edge reflection challenge w.
  unfold detect_liveness, detect_liveness_body. rewrite Hcvt. simpl.
  eexists. split; [by simplify_map_eq|].
  split; [|split; [|split]].
  - fold texture color edge reflection challenge.
    destruct (model Image self) as [net|]; simpl.
    + rewrite weighted_five. unfold w. field.
    + rewrite weighted_five. unfold w. ring.
  - intros dev build. apply init_model_present.
  - intros H. unfold challenge. by rewrite challenge_not_supplied.
  - eexists. split; [by simplify_map_eq|]. apply Qleb_le.
Qed.

End LivenessScore.

(** C2 as stated fails: for the live selfie of the scenario the detector
    scores are 1.0, 0.8, 0.8, reflection 0 and challenge 0.5, whose
    weighted sum is 0.82, but the network score 0.1 is averaged in, the
    liveness score is 0.46 and is_live is false. *)
Lemma liveness_score_not_weighted_sum :
  Forall2 Qeq
    (LivenessDetection.detector_scores Scenario.image Scenario.lbp_entropy
       Scenario.skin_ratio Scenario.edge_density Scenario.reflection_ratio
       Scenario.mean_absdiff Scenario.Selfie None None)
    [1.0; 0.8; 0.8; 1.0; 0.5]
  /\ exists s,
       Scenario.detect_liveness Scenario.Selfie None None !! "liveness_score"
         = Some (VFloat s)
       /\ ~ s == 1.0 * 0.25 + 0.8 * 0.20 + 0.8 * 0.20 + (1 - 0.0) * 0.15 + 0.5 * 0.20
       /\ s == 0.46
       /\ Scenario.detect_liveness Scenario.Selfie None None !! "is_live"
          = Some (VBool false).
Proof.
  split; [repeat constructor|].
  eexists. split; [vm_compute; reflexivity|].
  repeat split; vm_compute; congruence.
Qed.

(** The amended C2 on the live selfie of the scenario. *)
Lemma liveness_score_blends_model_score_witness :
  exists s,
    Scenario.detect_liveness Scenario.Selfie None None !! "liveness_score"
      = Some (VFloat s)
    /\ s == (0.82 + 0.1) / 2.
Proof.
  destruct (liveness_score_blends_model_score
              Scenario.cvtColor Scenario.lbp_entropy Scenario.skin_ratio
              Scenario.edge_density Scenario.reflection_ratio Scenario.mean_absdiff
              Scenario.liveness_model Scenario.Selfie Scenario.Selfie None None
              eq_refl) as (s & Hs & Hm & _).
  exists s. split; [exact Hs|].
  simpl in Hm. rewrite Hm. vm_compute. reflexivity.
Defined.

(** ** Confidence (liveness_detection.py 423-433, anti_spoof.py 74-90) *)

Section Dispersion.

Lemma len_cons {A} (x : A) (xs : list A) : len (x :: xs) == 1 + len xs.
Proof.
  unfold len. simpl length. rewrite Nat2Z.inj_succ, <- Z.add_1_l.
  rewrite inject_Z_plus. reflexivity.
Qed.

Lemma len_pos {A} (xs : list A) : xs <> [] -> 0 < len xs.
Proof.
  destruct xs as [|x xs]; [congruence|]. intros _.
  unfold len. change 0 with (inject_Z 0). rewrite <- Zlt_Qlt.
  simpl length. lia.
Qed.

Lemma sum_all_eq (xs : list Q) (x : Q) :
  Forall (fun s => s == x) xs -> sum xs == len xs * x.
Proof.
  induction 1 as [|s xs Hs _ IH].
  - reflexivity.
  - rewrite sum_cons, len_cons, IH, Hs. ring.
Qed.

Lemma np_mean_all_eq (xs : list Q) (x : Q) :
  xs <> [] -> Forall (fun s => s == x) xs -> np_mean xs == x.
Proof.
  intros Hne Hall. unfold np_mean. rewrite (sum_all_eq xs x Hall).
  pose proof (len_pos xs Hne). field. lra.
Qed.

Lemma np_var_all_eq (xs : list Q) (x : Q) :
  xs <> [] -> Forall (fun s => s == x) xs -> np_var xs == 0.
Proof.
  intros Hne Hall. unfold np_var.
  pose proof (np_mean_all_eq xs x Hne Hall) as Hm.
  apply np_mean_all_eq.
  - destruct xs; [congruence|discriminate].
  - apply Forall_fmap. eapply Forall_impl; [exact Hall|].
    intros s Hs. simpl. rewrite Hs, Hm. ring.
Qed.

Lemma confidence_formula (scores : list Q) :
  LivenessDetection._calculate_confidence scores
  == 1 - Qmin (5 * np_var scores) 1.
Proof.
  unfold LivenessDetection._calculate_confidence.
  assert (H1 : 1.0 == 1) by reflexivity.
  assert (H0 : 0.0 == 0) by reflexivity.
  rewrite H1, H0, (Qmult_comm (np_var scores) 5).
  apply Q.max_l.
  pose proof (Qmin_le_r (5 * np_var scores) 1). lra.
Qed.

End Dispersion.

Section Confidence.

Context {Image : Type}.
(** Collaborators of the liveness analyzer. *)
Variable cvtColor : Image -> result Image.
Variables lbp_entropy skin_ratio edge_density reflection_ratio : Image -> result Q.
Variable mean_absdiff : Image -> Image -> result Q.
(** Collaborators of the anti-spoof detector. *)
Variable crop : Image -> Z -> Z -> Z -> Z -> Image.
Variables lbp_variance saturation grid_score gradient_reflection : Image -> result Q.
Variable refresh_ratio : list Image -> result Q.
Variable block_std_dispersion : Image -> result (option Q).
Variables laplacian_var color_variance direction_consistency_by_pi : Image -> result Q.
Variable expression_variation : list Image -> result Q.
Variables highlight_ratio edge_sharpness noise_level brightness_diff : Image -> result Q.
Variable set_order : list string -> list string.

Local Abbreviation liveness :=
  (LivenessDetection.detect_liveness Image cvtColor lbp_entropy skin_ratio
     edge_density reflection_ratio mean_absdiff).
Local Abbreviation liveness_scores :=
  (LivenessDetection.detector_scores Image lbp_entropy skin_ratio edge_density
     reflection_ratio mean_absdiff).
Local Abbreviation spoof :=
  (AntiSpoof.detect_spoof Image crop lbp_variance saturation grid_score
     gradient_reflection refresh_ratio block_std_dispersion laplacian_var
     color_variance direction_consistency_by_pi expression_variation
     highlight_ratio edge_sharpness noise_level brightness_diff set_order).
Local Abbreviation spoof_methods :=
  (AntiSpoof.run_methods Image lbp_variance saturation grid_score
     gradient_reflection refresh_ratio block_std_dispersion laplacian_var
     color_variance direction_consistency_by_pi expression_variation
     highlight_ratio edge_sharpness noise_level brightness_diff).

Lemma liveness_confidence self image rgb challenge_type temporal_data :
  cvtColor image = Ok rgb ->
  liveness self image challenge_type temporal_data !! "confidence"
  = Some (VFloat (LivenessDetection._calculate_confidence
                    (liveness_scores rgb challenge_type temporal_data))).
Proof.
  intros Hcvt.
  unfold LivenessDetection.detect_liveness, LivenessDetection.detect_liveness_body.
  rewrite Hcvt. simpl. by simplify_map_eq.
Qed.

Lemma spoof_confidence image face_bbox temporal_frames region :
  AntiSpoof.face_region_of Image crop image face_bbox = Ok region ->
  spoof image face_bbox temporal_frames !! "confidence"
  = Some (VFloat (np_mean (AntiSpoof.score <$>
                             (snd <$> spoof_methods region temporal_frames)))).
Proof.
  intros Hregion.
  unfold AntiSpoof.detect_spoof, AntiSpoof.detect_spoof_body.
  rewrite Hregion. simpl. simplify_map_eq. reflexivity.
Qed.

(** C9, amended. For a non-empty list of detector scores the confidence
    of [_calculate_confidence] is 1 - min(5 * variance, 1), and it is 1
    when all the scores are equal (also for a single score); this is the
    confidence the liveness analyzer reports.  The anti-spoof detector
    reports the mean of its five method scores as its confidence. *)
Theorem confidence_of_the_two_ensembles :
  (forall scores : list Q, scores <> [] ->
     LivenessDetection._calculate_confidence scores
     == 1 - Qmin (5 * np_var scores) 1)
  /\ (forall (scores : list Q) (x : Q), scores <> [] ->
        Forall (fun s => s == x) scores ->
        LivenessDetection._calculate_confidence scores == 1)
  /\ (forall self image rgb challenge_type temporal_data,
        cvtColor image = Ok rgb ->
        liveness self image challenge_type temporal_data !! "confidence"
        = Some (VFloat (LivenessDetection._calculate_confidence
                          (liveness_scores rgb challenge_type temporal_data))))
  /\ (forall image face_bbox temporal_frames region,
        AntiSpoof.face_region_of Image crop image face_bbox = Ok region ->
        spoof image face_bbox temporal_frames !! "confidence"
        = Some (VFloat (np_mean (AntiSpoof.score <$>
                                   (snd <$> spoof_methods region temporal_frames))))).
Proof.
  split; [|split; [|split]].
  - intros scores _. apply confidence_formula.
  - intros scores x Hne Hall. rewrite confidence_formula.
    rewrite (np_var_all_eq scores x Hne Hall).
    assert (H : Qmin (5 * 0) 1 == 0) by reflexivity.
    rewrite H. ring.
  - apply liveness_confidence.
  - apply spoof_confidence.
Qed.

End Confidence.

(** C9 as stated fails for the anti-spoof detector: in the scenario its
    five method scores are 1.0, 0.0, 1.0, 0.3 and 0.8; it reports their
    mean 0.62 as confidence, whereas 1 - min(5 * variance, 1) is 0.192. *)
Lemma anti_spoof_confidence_is_not_dispersion :
  Forall2 Qeq
    (AntiSpoof.score <$> (snd <$> Scenario.method_results Scenario.Selfie))
    [1.0; 0.0; 1.0; 0.3; 0.8]
  /\ exists c,
       Scenario.detect_spoof Scenario.in_list_order Scenario.Selfie !! "confidence"
         = Some (VFloat c)
       /\ c == 0.62
       /\ 1 - Qmin (5 * np_var [1.0; 0.0; 1.0; 0.3; 0.8]) 1 == 0.192
       /\ ~ c == 1 - Qmin (5 * np_var [1.0; 0.0; 1.0; 0.3; 0.8]) 1.
Proof.
  split; [repeat constructor|].
  eexists. split; [vm_compute; reflexivity|].
  repeat split; vm_compute; congruence.
Qed.

(** The amended C9 on a single score, on three equal scores and on the
    live selfie of the scenario. *)
Lemma confidence_of_the_two_ensembles_witness :
  LivenessDetection._calculate_confidence [0.7] == 1
  /\ LivenessDetection._calculate_confidence [0.4; 0.4; 0.4] == 1
  /\ Scenario.detect_liveness Scenario.Selfie None None !! "confidence"
     = Some (VFloat (LivenessDetection._calculate_confidence
                       (LivenessDetection.detector_scores Scenario.image
                          Scenario.lbp_entropy Scenario.skin_ratio
                          Scenario.edge_density Scenario.reflection_ratio
                          Scenario.mean_absdiff Scenario.Selfie None None))).
Proof.
  pose proof (confidence_of_the_two_ensembles
                Scenario.cvtColor Scenario.lbp_entropy Scenario.skin_ratio
                Scenario.edge_density Scenario.reflection_ratio Scenario.mean_absdiff
                (fun i _ _ _ _ => i) Scenario.zero Scenario.zero Scenario.zero
                Scenario.zero Scenario.zero_frames Scenario.no_dispersion
                Scenario.zero Scenario.zero Scenario.zero Scenario.zero_frames
                Scenario.zero Scenario.zero Scenario.zero Scenario.zero
                Scenario.in_list_order) as (_ & Hall & Hlive & _).
  split; [|split].
  - apply (Hall [0.7] 0.7); [discriminate|].
    repeat constructor.
  - apply (Hall [0.4; 0.4; 0.4] 0.4); [discriminate|].
    repeat constructor.
  - apply (Hlive Scenario.liveness_model Scenario.Selfie Scenario.Selfie None None).
    reflexivity.
Defined.

(** ** Results that carry an error *)

Section ErrorResults.

(** C6. A picture without a face makes the face-match analyzer return a
    result with an error, score 0 and confidence 0 but without any
    indicator list; the liveness analyzer does the same for an image that
    cannot be converted.  The error result of the document analyzer holds
    the indicator verification_failed and neither a score nor a
    confidence. *)
Theorem error_results_of_the_analyzers :
  (let r := Scenario.verify_face_match Scenario.Faceless Scenario.IdFront 0.6 in
   r !! "error" = Some (VStr "No faces detected in one or both images")
   /\ r !! "match_score" = Some (VFloat 0.0)
   /\ r !! "confidence" = Some (VFloat 0.0)
   /\ r !! "fraud_indicators" = None /\ r !! "indicators" = None)
  /\ (let r := Scenario.detect_liveness Scenario.Undecodable None None in
      r !! "error" = Some (VStr "OpenCV: unsupported array type in cvtColor")
      /\ r !! "liveness_score" = Some (VFloat 0.0)
      /\ r !! "confidence" = Some (VFloat 0.0)
      /\ r !! "fraud_indicators" = None /\ r !! "indicators" = None
      /\ r !! "spoof_type" = None)
  /\ (forall e,
        let r := DocumentVerification.document_error e in
        r !! "error" = Some (VStr (str e))
        /\ r !! "fraud_indicators" = Some (VList [VStr "verification_failed"])
        /\ r !! "quality_score" = None /\ r !! "confidence" = None).
Proof.
  split; [|split].
  - repeat split; vm_compute; reflexivity.
  - repeat split; vm_compute; reflexivity.
  - intros e r. subst r. unfold DocumentVerification.document_error.
    repeat split; by simplify_map_eq.
Qed.

(** Every error result of the face-match and liveness analyzers lacks
    the indicator list, whatever the failure. *)
Lemma error_results_without_indicators (msg : string) (e : exn) :
  FaceRecognition.face_error msg !! "fraud_indicators" = None
  /\ LivenessDetection.liveness_error e !! "fraud_indicators" = None.
Proof.
  unfold FaceRecognition.face_error, LivenessDetection.liveness_error.
  split; by simplify_map_eq.
Qed.

End ErrorResults.

(** ** Document validity (document_verification.py, lines 532-577) *)

Section DocumentValidity.

Import DocumentVerification.

Lemma critical_absent (fraud_indicators : list string) :
  existsb (fun indicator => mem indicator fraud_indicators) critical_indicators = false
  <-> Forall (fun c => c ∉ fraud_indicators) critical_indicators.
Proof.
  unfold critical_indicators, mem. simpl.
  rewrite !orb_false_iff, !bool_decide_eq_false, !Forall_cons, Forall_nil.
  tauto.
Qed.

Lemma filter_nil_Forall {A} (P : A -> Prop) `{forall x, Decision (P x)} (l : list A) :
  filter P l = [] <-> Forall (fun x => ~ P x) l.
Proof.
  induction l as [|x l IH].
  - split; [constructor|reflexivity].
  - rewrite filter_cons, Forall_cons. case_decide.
    + split; [discriminate|tauto].
    + rewrite IH. tauto.
Qed.

Lemma missing_fields_nil (required : list string) (ext : gmap string string) :
  missing_fields required ext = []
  <-> forall field, field ∈ ["name"; "document_number"] -> field ∈ required ->
        is_Some (ext !! field).
Proof.
  unfold missing_fields, mem, has_key.
  rewrite filter_nil_Forall, Forall_forall.
  split; intros H field Hf.
  - intros Hr. specialize (H field Hf).
    rewrite bool_decide_eq_true, bool_decide_eq_false in H.
    destruct (decide (is_Some (ext !! field))); tauto.
  - specialize (H field Hf).
    rewrite bool_decide_eq_true, bool_decide_eq_false. tauto.
Qed.

Lemma required_present (document_type : string) (ext : gmap string string) :
  required_field_missing document_type ext = false
  <-> forall p field, patterns_get document_type = Some p ->
        field ∈ ["name"; "document_number"] -> field ∈ fields p ->
        is_Some (ext !! field).
Proof.
  unfold required_field_missing.
  destruct (patterns_get document_type) as [p|].
  - destruct (missing_fields (fields p) ext) eqn:E.
    + split; [|done]. intros _ p' field [= <-]. by apply missing_fields_nil.
    + split; [discriminate|]. intros H. exfalso.
      assert (missing_fields (fields p) ext = []) as E'
        by (apply missing_fields_nil; intros; by eapply H).
      congruence.
  - split; [|done]. intros _ p field. discriminate.
Qed.

Variable now : datetime.
Variable _parse_date : string -> result datetime.

Local Abbreviation valid := (_validate_document now _parse_date).

Lemma dob_not_in_future (ext : gmap string string) :
  dob_in_future now _parse_date ext = false
  <-> ~ exists d dob, ext !! "date_of_birth" = Some d
                      /\ _parse_date d = Ok dob /\ (now < dob)%Z.
Proof.
  unfold dob_in_future.
  destruct (ext !! "date_of_birth") as [d|].
  - destruct (_parse_date d) as [dob|e] eqn:E.
    + rewrite Z.ltb_ge. split.
      * intros Hle (d' & dob' & Hd & Hp & Hlt).
        injection Hd as <-. rewrite E in Hp. injection Hp as <-. lia.
      * intros H. destruct (Z_lt_le_dec now dob) as [Hlt|Hle]; [|exact Hle].
        exfalso. apply H. exists d, dob. auto.
    + split; [|reflexivity].
      intros _ (d' & dob' & Hd & Hp & _).
      injection Hd as <-. rewrite E in Hp. discriminate Hp.
  - split; [|reflexivity].
    intros _ (d' & dob' & Hd & _). discriminate Hd.
Qed.

(** C7, amended. The document is valid iff no critical indicator
    (expired_document, missing_document_number, missing_name,
    possible_tampering) is present, the quality score is not below 0.4,
    no checked field (name, document_number) that the known document type
    requires is missing from the extracted data, the date of birth does
    not parse to a date in the future, and there are at most two fraud
    indicators. *)
Theorem document_valid_iff (extracted_data : gmap string string)
  (fraud_indicators : list string) (quality_score : Q) (document_type : string) :
  valid extracted_data fraud_indicators quality_score document_type = true
  <-> Forall (fun c => c ∉ fraud_indicators) critical_indicators
      /\ 0.4 <= quality_score
      /\ (forall p field, patterns_get document_type = Some p ->
            field ∈ ["name"; "document_number"] -> field ∈ fields p ->
            is_Some (extracted_data !! field))
      /\ ~ (exists d dob, extracted_data !! "date_of_birth" = Some d
                          /\ _parse_date d = Ok dob /\ (now < dob)%Z)
      /\ (length fraud_indicators <= 2)%nat.
Proof.
  unfold _validate_document.
  rewrite <- critical_absent, <- (Qltb_false quality_score 0.4),
    <- required_present, <- dob_not_in_future, <- Nat.leb_le.
  destruct (existsb _ _); destruct (Qltb quality_score 0.4);
    destruct (required_field_missing _ _); destruct (dob_in_future _ _ _);
    destruct (length fraud_indicators <=? 2)%nat; simpl; intuition congruence.
Qed.

(** The code decides as the design document says and, in addition,
    rejects a date of birth in the future. *)
Lemma validate_document_refines (extracted_data : gmap string string)
  (fraud_indicators : list string) (quality_score : Q) (document_type : string) :
  valid extracted_data fraud_indicators quality_score document_type
  = spec_document_valid extracted_data fraud_indicators quality_score document_type
    && negb (dob_in_future now _parse_date extracted_data).
Proof.
  unfold _validate_document, spec_document_valid.
  destruct (existsb _ _); destruct (Qltb quality_score 0.4);
    destruct (required_field_missing _ _); destruct (dob_in_future _ _ _);
    simpl; rewrite ?andb_true_r, ?andb_false_r; reflexivity.
Qed.

End DocumentValidity.

(** C7 as stated fails: an identity card with name and number, quality
    0.9 and no fraud indicator at all, whose date of birth reads
    01/01/2999, is declared invalid. *)
Lemma future_birth_date_invalidates :
  spec_document_valid (Scenario.card_data "01/01/2999") [] 0.9 "id_card" = true
  /\ Forall (fun c => c ∉ ([] : list string)) DocumentVerification.critical_indicators
  /\ ~ 0.9 < 0.4
  /\ DocumentVerification.required_field_missing "id_card"
       (Scenario.card_data "01/01/2999") = false
  /\ (length ([] : list string) <= 2)%nat
  /\ DocumentVerification._validate_document Scenario.today Scenario.parse_date
       (Scenario.card_data "01/01/2999") [] 0.9 "id_card" = false.
Proof.
  split; [|split; [|split; [|split; [|split]]]].
  - vm_compute. reflexivity.
  - repeat constructor; set_solver.
  - intros H. discriminate H.
  - vm_compute. reflexivity.
  - simpl. lia.
  - vm_compute. reflexivity.
Qed.

(** The amended C7 on the same card with the date of birth 01/01/1990. *)
Lemma document_valid_iff_witness :
  DocumentVerification._validate_document Scenario.today Scenario.parse_date
    (Scenario.card_data "01/01/1990") [] 0.9 "id_card" = true.
Proof.
  apply (proj2 (document_valid_iff Scenario.today Scenario.parse_date
                  (Scenario.card_data "01/01/1990") [] 0.9 "id_card")).
  split; [|split; [|split; [|split]]].
  - repeat constructor; set_solver.
  - discriminate.
  - apply (proj1 (required_present "id_card" (Scenario.card_data "01/01/1990"))).
    vm_compute. reflexivity.
  - apply (proj1 (dob_not_in_future Scenario.today Scenario.parse_date
                    (Scenario.card_data "01/01/1990"))).
    vm_compute. reflexivity.
  - simpl. lia.
Defined.

(** ** The aggregate label of the anti-spoof ensemble (anti_spoof.py 64-82) *)

Section MaxBy.

Context {A : Type} (key : A -> nat).

(** The result of the pass of [max] splits the sequence: strictly smaller
    keys before it, no greater key after it. *)
Lemma fold_max_first (xs : list A) (x : A) :
  exists before after,
    x :: xs = before ++ fold_left (max_step Nat.ltb key) xs x :: after
    /\ Forall (fun y => key y < key (fold_left (max_step Nat.ltb key) xs x))%nat before
    /\ Forall (fun y => key y <= key (fold_left (max_step Nat.ltb key) xs x))%nat after.
Proof.
  revert x. induction xs as [|a xs IH]; intros x.
  - exists [], []. simpl. repeat split; constructor.
  - simpl.
    assert (Hstep : max_step Nat.ltb key x a = if (key x <? key a)%nat then a else x)
      by reflexivity.
    rewrite Hstep. clear Hstep.
    destruct (key x <? key a)%nat eqn:E.
    + apply Nat.ltb_lt in E.
      destruct (IH a) as (before & after & Heq & Hb & Ha).
      set (r := fold_left (max_step Nat.ltb key) xs a) in *.
      exists (x :: before), after.
      split; [simpl; f_equal; exact Heq|].
      split; [|exact Ha].
      constructor; [|exact Hb].
      destruct before as [|b before].
      * injection Heq as Hr _. rewrite <- Hr. exact E.
      * injection Heq as Hr _. apply Forall_cons in Hb as [Hb _].
        rewrite <- Hr in Hb. lia.
    + apply Nat.ltb_ge in E.
      destruct (IH x) as (before & after & Heq & Hb & Ha).
      set (r := fold_left (max_step Nat.ltb key) xs x) in *.
      destruct before as [|b before].
      * injection Heq as Hr Hxs.
        exists [], (a :: after).
        split; [simpl; f_equal; [exact Hr|f_equal; exact Hxs]|].
        split; [constructor|].
        constructor; [rewrite <- Hr; exact E|exact Ha].
      * injection Heq as Hr Hxs.
        exists (x :: a :: before), after.
        split; [simpl; do 2 f_equal; exact Hxs|].
        split; [|exact Ha].
        pose proof Hb as Hb'. apply Forall_cons in Hb' as [Hx Hrest].
        rewrite <- Hr in Hx.
        constructor; [exact Hx|]. constructor; [lia|exact Hrest].
Qed.

Lemma max_by_first (xs : list A) :
  xs <> [] ->
  exists m before after,
    max_by Nat.ltb key xs = Some m
    /\ xs = before ++ m :: after
    /\ Forall (fun y => key y < key m)%nat before
    /\ Forall (fun y => key y <= key m)%nat after.
Proof.
  destruct xs as [|x xs]; [congruence|]. intros _.
  destruct (fold_max_first xs x) as (before & after & Heq & Hb & Ha).
  exists (fold_left (max_step Nat.ltb key) xs x), before, after. auto.
Qed.

End MaxBy.

Lemma count_NoDup (l : list string) (x : string) :
  NoDup l -> x ∈ l -> count l x = 1%nat.
Proof.
  unfold count. induction 1 as [|y l Hy Hl IH]; intros Hx.
  - by apply not_elem_of_nil in Hx.
  - rewrite filter_cons. case_decide as Hyx.
    + subst y. simpl. f_equal.
      assert (Hnil : filter (fun y => y = x) l = []).
      { apply filter_nil_Forall, Forall_forall. intros z Hz ->. contradiction. }
      by rewrite Hnil.
    + apply elem_of_cons in Hx as [->|Hx]; [congruence|]. by apply IH.
Qed.

Section AggregateLabel.

Import AntiSpoof.

Context {Image : Type}.
Variable crop : Image -> Z -> Z -> Z -> Z -> Image.
Variables lbp_variance saturation grid_score gradient_reflection : Image -> result Q.
Variable refresh_ratio : list Image -> result Q.
Variable block_std_dispersion : Image -> result (option Q).
Variables laplacian_var color_variance direction_consistency_by_pi : Image -> result Q.
Variable expression_variation : list Image -> result Q.
Variables highlight_ratio edge_sharpness noise_level brightness_diff : Image -> result Q.

Local Abbreviation methods :=
  (run_methods Image lbp_variance saturation grid_score
     gradient_reflection refresh_ratio block_std_dispersion laplacian_var
     color_variance direction_consistency_by_pi expression_variation
     highlight_ratio edge_sharpness noise_level brightness_diff).

(** Each method reports its own label, whether it ran or failed. *)
Lemma method_labels (region : Image) (temporal_frames : option (list Image)) :
  type <$> (snd <$> methods region temporal_frames)
  = ["printed_photo"; "screen_replay"; "mask"; "3d_mask"; "photo_manipulation"].
Proof.
  unfold run_methods, detection_methods. simpl.
  repeat f_equal.
  - unfold _detect_print_attack.
    destruct (lbp_variance region); simpl; [|reflexivity].
    destruct (saturation region); reflexivity.
  - unfold _detect_screen_replay.
    destruct (grid_score region); simpl; [|reflexivity].
    destruct (gradient_reflection region); simpl; [|reflexivity].
    destruct (if frames_longer_than Image 5 temporal_frames then _ else _); reflexivity.
  - unfold _detect_mask_attack, _calculate_texture_uniformity, _calculate_skin_detail.
    destruct (block_std_dispersion region); simpl; [|reflexivity].
    destruct (laplacian_var region); simpl; [|reflexivity].
    destruct (color_variance region); reflexivity.
  - unfold _detect_3d_mask, _estimate_face_depth, _analyze_reflection_pattern.
    destruct (direction_consistency_by_pi region); simpl; [|reflexivity].
    destruct (if frames_longer_than Image 10 temporal_frames then _ else _);
      simpl; [|reflexivity].
    destruct (highlight_ratio region); reflexivity.
  - unfold _detect_photo_quality, _analyze_noise_pattern, _check_lighting_consistency.
    destruct (edge_sharpness region); simpl; [|reflexivity].
    destruct (noise_level region); simpl; [|reflexivity].
    destruct (brightness_diff region); reflexivity.
Qed.

(** In a run every flagged label occurs once. *)
Lemma flagged_labels_NoDup (region : Image) (temporal_frames : option (list Image)) :
  NoDup (indicators_of (methods region temporal_frames)).
Proof.
  unfold indicators_of.
  eapply sublist_NoDup; [|apply fmap_sublist, sublist_filter].
  rewrite method_labels.
  apply (bool_decide_unpack _). vm_compute. reflexivity.
Qed.

(** The iteration order of a set: its elements are those of the list. *)
Variable set_order : list string -> list string.
Hypothesis set_order_elements : forall l x, x ∈ set_order l <-> x ∈ l.

Local Abbreviation spoof :=
  (detect_spoof Image crop lbp_variance saturation grid_score
     gradient_reflection refresh_ratio block_std_dispersion laplacian_var
     color_variance direction_consistency_by_pi expression_variation
     highlight_ratio edge_sharpness noise_level brightness_diff set_order).

Lemma spoof_type_field image face_bbox temporal_frames region :
  face_region_of Image crop image face_bbox = Ok region ->
  spoof image face_bbox temporal_frames !! "spoof_type"
  = Some (opt_str (spoof_type_of set_order
                     (indicators_of (methods region temporal_frames)))).
Proof.
  intros Hregion. unfold detect_spoof, detect_spoof_body.
  rewrite Hregion. simpl. by simplify_map_eq.
Qed.

(** The label of a non-empty indicator list: a most frequent one, the
    first such in the iteration order of the set. *)
Lemma spoof_type_of_nonempty (indicators : list string) :
  indicators <> [] ->
  exists label before after,
    spoof_type_of set_order indicators = Some label
    /\ label ∈ indicators
    /\ (forall other, other ∈ indicators ->
          (count indicators other <= count indicators label)%nat)
    /\ set_order indicators = before ++ label :: after
    /\ Forall (fun y => count indicators y < count indicators label)%nat before.
Proof.
  intros Hne.
  assert (Hs : set_order indicators <> []).
  { destruct indicators as [|i l]; [congruence|].
    intros Hnil. pose proof (proj2 (set_order_elements (i :: l) i)) as H.
    rewrite Hnil in H. eapply not_elem_of_nil, H. left. }
  destruct (max_by_first (count indicators) (set_order indicators) Hs)
    as (m & before & after & Hmax & Heq & Hb & Ha).
  exists m, before, after.
  assert (Hm : m ∈ set_order indicators).
  { rewrite Heq. apply elem_of_app. right. left. }
  split; [|split; [|split; [|split]]].
  - unfold spoof_type_of. destruct indicators; [congruence|exact Hmax].
  - by apply set_order_elements.
  - intros other Ho. apply set_order_elements in Ho.
    rewrite Heq in Ho. apply elem_of_app in Ho as [Ho|Ho].
    + rewrite Forall_forall in Hb. specialize (Hb other Ho). lia.
    + apply elem_of_cons in Ho as [->|Ho]; [lia|].
      rewrite Forall_forall in Ha. by apply Ha.
  - exact Heq.
  - exact Hb.
Qed.

(** What the detector computes as the aggregate label.  It is none when
    no outcome is flagged; otherwise it is a flagged label that no other
    flagged label outnumbers, and among the most frequent ones it is the
    one that the iteration over the set of flagged labels yields first;
    this is the spoof_type the detector reports. *)
Theorem aggregate_label_most_frequent :
  spoof_type_of set_order [] = None
  /\ (forall indicators : list string, indicators <> [] ->
        exists label before after,
          spoof_type_of set_order indicators = Some label
          /\ label ∈ indicators
          /\ (forall other, other ∈ indicators ->
                (count indicators other <= count indicators label)%nat)
          /\ set_order indicators = before ++ label :: after
          /\ Forall (fun y => count indicators y < count indicators label)%nat before)
  /\ (forall image face_bbox temporal_frames region,
        face_region_of Image crop image face_bbox = Ok region ->
        spoof image face_bbox temporal_frames !! "spoof_type"
        = Some (opt_str (spoof_type_of set_order
                           (indicators_of (methods region temporal_frames))))).
Proof.
  split; [reflexivity|].
  split; [apply spoof_type_of_nonempty|apply spoof_type_field].
Qed.

(** As every flagged label of a run occurs once, the label reported is
    simply the first one that the iteration over the set yields. *)
Lemma aggregate_label_first_iterated (region : Image)
  (temporal_frames : option (list Image)) :
  indicators_of (methods region temporal_frames) <> [] ->
  spoof_type_of set_order (indicators_of (methods region temporal_frames))
  = head (set_order (indicators_of (methods region temporal_frames))).
Proof.
  intros Hne.
  pose proof (flagged_labels_NoDup region temporal_frames) as Hnd.
  destruct (spoof_type_of_nonempty _ Hne)
    as (label & before & after & Hl & Hin & _ & Heq & Hb).
  rewrite Hl, Heq.
  destruct before as [|b before]; [reflexivity|].
  exfalso. apply Forall_cons in Hb as [Hb _].
  assert (Hbin : b ∈ indicators_of (methods region temporal_frames)).
  { apply set_order_elements. rewrite Heq. left. }
  rewrite (count_NoDup _ _ Hnd Hbin), (count_NoDup _ _ Hnd Hin) in Hb. lia.
Qed.

End AggregateLabel.

Lemma in_reverse_order_elements (l : list string) (x : string) :
  x ∈ Scenario.in_reverse_order l <-> x ∈ l.
Proof.
  unfold Scenario.in_reverse_order.
  rewrite elem_of_reverse. apply elem_of_remove_dups.
Qed.

Lemma in_reverse_order_NoDup (l : list string) : NoDup (Scenario.in_reverse_order l).
Proof.
  unfold Scenario.in_reverse_order.
  rewrite reverse_Permutation. apply NoDup_remove_dups.
Qed.

(** C10 fails in the code, which follows neither the detector order nor
    the scores.  In the scenario the print, mask and photo-quality
    detectors flag, each label once, with the scores 1.0, 1.0 and 0.8.
    First occurrence in detector order gives printed_photo, and so does the
    detector when the set of labels is iterated in the order of the list;
    with a set that is iterated in the order photo_manipulation, mask,
    printed_photo the detector reports photo_manipulation, the flagged
    label of the lowest score.  The input is the same in both runs: the
    label depends on the iteration order of the set alone. *)
Lemma aggregate_label_follows_set_order :
  (fun r => (AntiSpoof.type r.2, AntiSpoof.is_spoof r.2, Qred (AntiSpoof.score r.2)))
    <$> Scenario.method_results Scenario.Selfie
    = [("printed_photo", true, Qred 1.0); ("screen_replay", false, Qred 0.0);
       ("mask", true, Qred 1.0); ("3d_mask", false, Qred 0.3);
       ("photo_manipulation", true, Qred 0.8)]
  /\ Scenario.detect_spoof Scenario.in_list_order Scenario.Selfie !! "spoof_type"
     = Some (VStr "printed_photo")
  /\ AntiSpoof.indicators_of (Scenario.method_results Scenario.Selfie)
    = ["printed_photo"; "mask"; "photo_manipulation"]
  /\ (forall l x, x ∈ Scenario.in_reverse_order l <-> x ∈ l)
  /\ (forall l, NoDup (Scenario.in_reverse_order l))
  /\ Scenario.in_reverse_order ["printed_photo"; "mask"; "photo_manipulation"]
     = ["photo_manipulation"; "mask"; "printed_photo"]
  /\ spec_aggregate_label ["printed_photo"; "mask"; "photo_manipulation"]
     = Some "printed_photo"
  /\ Scenario.detect_spoof Scenario.in_reverse_order Scenario.Selfie !! "spoof_type"
     = Some (VStr "photo_manipulation")
  /\ Scenario.detect_spoof Scenario.in_reverse_order Scenario.Selfie !! "spoof_type"
     <> Some (opt_str (spec_aggregate_label
                         (AntiSpoof.indicators_of
                            (Scenario.method_results Scenario.Selfie)))).
Proof.
  split; [vm_compute; reflexivity|].
  split; [vm_compute; reflexivity|].
  split; [vm_compute; reflexivity|].
  split; [exact in_reverse_order_elements|].
  split; [exact in_reverse_order_NoDup|].
  repeat split; vm_compute; congruence.
Qed.

(** The label of the flagged labels of the scenario, for a set iterated
    in the order of the list. *)
Lemma aggregate_label_most_frequent_witness :
  exists label,
    AntiSpoof.spoof_type_of Scenario.in_list_order
      ["printed_photo"; "mask"; "photo_manipulation"] = Some label
    /\ label ∈ ["printed_photo"; "mask"; "photo_manipulation"].
Proof.
  destruct (proj1 (proj2 (aggregate_label_most_frequent
              (fun (i : Scenario.image) _ _ _ _ => i) Scenario.zero Scenario.zero
              Scenario.zero Scenario.zero Scenario.zero_frames Scenario.no_dispersion
              Scenario.zero Scenario.zero Scenario.zero Scenario.zero_frames
              Scenario.zero Scenario.zero Scenario.zero Scenario.zero
              Scenario.in_list_order (fun l x => elem_of_remove_dups l x)))
            ["printed_photo"; "mask"; "photo_manipulation"])
    as (label & _ & _ & Hl & Hin & _).
  - discriminate.
  - exists label. split; [exact Hl|exact Hin].
Defined.

(** * Further properties of the code *)

(** ** The /verify-kyc pipeline as a whole (routes.py, lines 224-346) *)

Section MapMResult.

Context {A B : Type} (f : A -> result B).

Lemma mapM_result_cons (a : A) (l : list A) :
  mapM f (a :: l) = (b ← f a; k ← mapM f l; mret (b :: k)).
Proof. reflexivity. Qed.

(** A [mapM] that raises re-raises what one of the items raised. *)
Lemma mapM_result_Raise (l : list A) (e : exn) :
  mapM f l = Raise e -> exists a, a ∈ l /\ f a = Raise e.
Proof.
  induction l as [|a l IH]; [discriminate|].
  rewrite mapM_result_cons.
  destruct (f a) as [b|e'] eqn:Ea; simpl.
  - destruct (mapM f l) as [k|e'']; simpl; [discriminate|].
    intros [= ->]. destruct (IH eq_refl) as (a' & Hin & Ha').
    exists a'. split; [by right|done].
  - intros [= ->]. exists a. split; [by left|done].
Qed.

(** A [mapM] over a list with an item that raises raises. *)
Lemma mapM_result_fails (l : list A) (a : A) (e : exn) :
  a ∈ l -> f a = Raise e -> exists e', mapM f l = Raise e'.
Proof.
  intros Hin Ha. induction l as [|a' l IH]; [by apply elem_of_nil in Hin|].
  rewrite mapM_result_cons.
  destruct (f a') as [b|e'] eqn:Ea'; simpl; [|eauto].
  apply elem_of_cons in Hin as [->|Hin]; [congruence|].
  destruct (IH Hin) as (e'' & ->). simpl. eauto.
Qed.

End MapMResult.

Section Pipeline.

Import Routes.

Lemma in_unit_interval_spec (x : Q) :
  in_unit_interval x = true <-> 0 <= x /\ x <= 1.
Proof.
  unfold in_unit_interval. rewrite andb_true_iff, !Qleb_le.
  assert (H0 : 0.0 == 0) by reflexivity.
  assert (H1 : 1.0 == 1) by reflexivity.
  rewrite H0, H1. tauto.
Qed.

(** A response that was built passed the range checks of the schema. *)
Lemma make_response_in_range l m f d o st rs c pt md r :
  make_response l m f d o st rs c pt md = Ok r ->
  (0 <= l /\ l <= 1) /\ (0 <= m /\ m <= 1) /\ (0 <= f /\ f <= 1)
  /\ (0 <= d /\ d <= 1) /\ (0 <= o /\ o <= 1) /\ (0 <= c /\ c <= 1).
Proof.
  unfold make_response. destruct (as_str_list rs) as [ss|]; [|discriminate].
  destruct (forallb _ _) eqn:E; [|discriminate]. intros _.
  simpl in E. rewrite !andb_true_iff in E.
  destruct E as (Hl & Hm & Hf & Hd & Ho & Hc & _).
  rewrite <- !in_unit_interval_spec. tauto.
Qed.

Lemma fuse_in_range att pt lr fr dr r :
  fuse att pt lr fr dr = Ok r ->
  (0 <= liveness_score r /\ liveness_score r <= 1)
  /\ (0 <= match_score r /\ match_score r <= 1)
  /\ (0 <= fraud_score r /\ fraud_score r <= 1)
  /\ (0 <= document_quality_score r /\ document_quality_score r <= 1)
  /\ (0 <= overall_score r /\ overall_score r <= 1)
  /\ (0 <= confidence r /\ confidence r <= 1).
Proof.
  unfold fuse.
  destruct (fraud_indicators_of lr dr) as [inds|]; [|discriminate].
  cbn [mbind result_bind].
  destruct (as_float (get lr "liveness_score" _)) as [l|]; [|discriminate].
  destruct (as_float (get fr "match_score" _)) as [m|]; [|discriminate].
  destruct (as_float (get dr "quality_score" _)) as [d|]; [|discriminate].
  destruct (as_float (get lr "confidence" _)) as [c1|]; [|discriminate].
  destruct (as_float (get fr "confidence" _)) as [c2|]; [|discriminate].
  intros H. pose proof (make_response_in_range _ _ _ _ _ _ _ _ _ _ _ H) as Hr.
  apply make_response_fields in H.
  destruct H as (-> & -> & -> & -> & -> & _ & _ & ->). exact Hr.
Qed.

Lemma fraud_score_of_range (inds : list value) :
  0 <= fraud_score_of inds /\ fraud_score_of inds <= 1.
Proof.
  unfold fraud_score_of.
  assert (H0 : 0 <= len inds).
  { unfold len. change 0 with (inject_Z 0). rewrite <- Zle_Qle. lia. }
  assert (H10 : 10.0 == 10) by reflexivity.
  assert (H1 : 1.0 == 1) by reflexivity.
  rewrite H10, H1. split.
  - apply Q.min_glb; [|lra]. apply Qle_shift_div_l; lra.
  - apply Q.le_min_r.
Qed.

Lemma fraud_score_of_nonempty (inds : list value) :
  inds <> [] -> 0.1 <= fraud_score_of inds.
Proof.
  intros Hne. unfold fraud_score_of.
  assert (H1 : 1 <= len inds).
  { unfold len. change 1 with (inject_Z 1). rewrite <- Zle_Qle.
    destruct inds; [congruence|]. simpl length. lia. }
  assert (H10 : 10.0 == 10) by reflexivity.
  assert (H1' : 1.0 == 1) by reflexivity.
  rewrite H10, H1'.
  apply Q.min_glb; [|lra]. apply Qle_shift_div_l; lra.
Qed.

(** The indicator list after a failed document task is not empty. *)
Lemma fraud_indicators_degraded (lr : gmap string value) (inds : list value) :
  fraud_indicators_of lr degraded = Ok inds -> inds <> [].
Proof.
  unfold fraud_indicators_of.
  destruct (extend [] _) as [l|]; [|discriminate].
  cbn [mbind result_bind]. change (get degraded "fraud_indicators" (VList []))
    with (VList [VStr "verification_failed"]).
  unfold extend. simpl. intros [= <-]. by destruct l.
Qed.

(** X1. Raising a score of an analyzer, or shortening the indicator list,
    never lowers the overall score and never worsens the status. *)
Theorem status_monotone (l l' m m' d d' f f' : Q) :
  l <= l' -> m <= m' -> d <= d' -> f' <= f ->
  overall_score_of l m d f <= overall_score_of l' m' d' f'
  /\ (status_rank (status_of (overall_score_of l m d f) l m)
      <= status_rank (status_of (overall_score_of l' m' d' f') l' m'))%nat.
Proof.
  intros Hl Hm Hd Hf.
  assert (Ho : overall_score_of l m d f <= overall_score_of l' m' d' f').
  { unfold overall_score_of. lra. }
  split; [exact Ho|].
  set (o := overall_score_of l m d f) in *.
  set (o' := overall_score_of l' m' d' f') in *.
  unfold status_of.
  destruct (Qleb 0.8 o) eqn:E1; destruct (Qleb 0.7 l) eqn:E2;
    destruct (Qleb 0.6 m) eqn:E3; destruct (Qleb 0.6 o) eqn:E4;
    destruct (Qleb 0.8 o') eqn:E1'; destruct (Qleb 0.7 l') eqn:E2';
    destruct (Qleb 0.6 m') eqn:E3'; destruct (Qleb 0.6 o') eqn:E4';
    try (vm_compute; lia);
    rewrite ?Qleb_le, ?Qleb_false in *; exfalso; lra.
Qed.

End Pipeline.

Lemma status_monotone_witness :
  (status_rank (Routes.status_of (Routes.overall_score_of 0.5 0.6 0.9 0.4) 0.5 0.6)
   <= status_rank (Routes.status_of (Routes.overall_score_of 0.9 0.8 0.9 0.0) 0.9 0.8))%nat.
Proof.
  refine (proj2 (status_monotone 0.5 0.9 0.6 0.8 0.9 0.9 0.4 0.0 _ _ _ _));
    vm_compute; discriminate.
Defined.

Section EndpointFailures.

Import Routes.

Context {Image : Type}.
Variable download_image : string -> result Image.
Variable FACE_MATCH_THRESHOLD : Q.
Variable detect_liveness :
  Image -> option string -> option (list Image) -> result (gmap string value).
Variable verify_face_match : Image -> Image -> Q -> result (gmap string value).
Variable verify_document :
  Image -> option Image -> option string -> result (gmap string value).
Variable start_time end_time : Q.

Local Abbreviation endpoint :=
  (verify_kyc Image download_image FACE_MATCH_THRESHOLD detect_liveness
              verify_face_match verify_document start_time end_time).

(** X2. An image that cannot be fetched ends the request with status 500,
    whatever the analyzers would answer; the detail is the message of a
    failed download. *)
Theorem failed_download_is_500 (request : KYCVerificationRequest)
  (url : string) (e : exn) :
  url ∈ [selfie_url request; id_front_url request]
        ++ back_url request ->
  download_image url = Raise e ->
  exists url' e',
    url' ∈ [selfie_url request; id_front_url request]
           ++ back_url request
    /\ download_image url' = Raise e'
    /\ endpoint request = HTTPException 500 (str e').
Proof.
  intros Hin He.
  destruct (mapM_result_fails download_image _ url e Hin He) as (e' & Hm).
  destruct (mapM_result_Raise download_image _ e' Hm) as (url' & Hin' & He').
  exists url', e'. split; [exact Hin'|]. split; [exact He'|].
  unfold verify_kyc, verify_kyc_body.
  rewrite Hm. reflexivity.
Qed.


(** X3. When the images are fetched and one of the three analyzer tasks
    raises, a response, if one is built, has an overall score below 0.8
    and is never approved. *)
Theorem failed_task_never_approved (request : KYCVerificationRequest)
  (selfie front : Image) (rest : list Image) (r : KYCVerificationResponse) :
  mapM download_image
       ([selfie_url request; id_front_url request] ++ back_url request)
    = Ok (selfie :: front :: rest) ->
  (exists e, detect_liveness selfie None None = Raise e)
  \/ (exists e, verify_face_match selfie front FACE_MATCH_THRESHOLD = Raise e)
  \/ (exists e, verify_document front (head rest) None = Raise e) ->
  endpoint request = Returned r ->
  overall_score r < 0.8 /\ status r <> "approved".
Proof.
  intros Hd Hfail Hr. unfold verify_kyc in Hr.
  rewrite (verify_kyc_body_fuse download_image FACE_MATCH_THRESHOLD
             detect_liveness verify_face_match verify_document
             start_time end_time request selfie front rest Hd) in Hr.
  destruct (fuse _ _ _ _ _) as [r'|] eqn:E; [|discriminate].
  injection Hr as ->.
  pose proof (fuse_in_range _ _ _ _ _ _ E) as (Hl & Hm & Hf & Hq & _ & _).
  apply fuse_inv in E as (inds & Hi & Hls & Hms & Hds & Hfs & Hov & Hst & _).
  assert (Ho : overall_score r < 0.8).
  { rewrite Hov. unfold overall_score_of.
    destruct Hfail as [[e He]|[[e He]|[e He]]].
    - rewrite He in Hls. change (Ok 0.0 = Ok (liveness_score r)) in Hls.
      injection Hls as Hls. rewrite <- Hls. lra.
    - rewrite He in Hms. change (Ok 0.0 = Ok (match_score r)) in Hms.
      injection Hms as Hms. rewrite <- Hms. lra.
    - rewrite He in Hds, Hi. change (Ok 0.0 = Ok (document_quality_score r)) in Hds.
      injection Hds as Hds. rewrite <- Hds.
      change (handled (Raise e)) with degraded in Hi.
      apply fraud_indicators_degraded, fraud_score_of_nonempty in Hi.
      rewrite <- Hfs in Hi. lra. }
  split; [exact Ho|].
  rewrite Hst. intros Happ. apply status_of_cases in Happ. lra.
Qed.

End EndpointFailures.

(** X3 on the scenario: the face-match task fails on the masked selfie;
    the response that is built is not approved. *)
Lemma failed_task_never_approved_witness :
  exists r,
    Scenario.verify_kyc_with Scenario.failing_face_task
      "https://kyc.example/masked.jpg" = Routes.Returned r
    /\ Routes.overall_score r < 0.8 /\ Routes.status r <> "approved".
Proof.
  destruct (Scenario.verify_kyc_with Scenario.failing_face_task
              "https://kyc.example/masked.jpg") as [r|c d] eqn:E.
  - exists r. split; [reflexivity|].
    refine (failed_task_never_approved
              Scenario.download_image 0.6 _ Scenario.failing_face_task _ 10.0 10.25
              (Scenario.request "https://kyc.example/masked.jpg")
              Scenario.Masked Scenario.IdFront [] r eq_refl _ E).
    right. left. eexists. reflexivity.
  - vm_compute in E. discriminate E.
Defined.

(** X2 on a request whose selfie cannot be fetched. *)
Lemma failed_download_is_500_witness :
  exists detail, Scenario.verify_kyc "https://kyc.example/missing.jpg"
                 = Routes.HTTPException 500 detail.
Proof.
  destruct (failed_download_is_500 Scenario.download_image 0.6
              (fun i c t => Ok (Scenario.detect_liveness i c t))
              (fun s i t => Ok (Scenario.verify_face_match s i t))
              (fun f b t => Ok (Scenario.verify_document f b t))
              10.0 10.25 (Scenario.request "https://kyc.example/missing.jpg")
              "https://kyc.example/missing.jpg"
              (ExternalError
                 "Failed to download image from https://kyc.example/missing.jpg"))
    as (url' & e' & _ & _ & H).
  - rewrite !elem_of_app, !elem_of_cons. auto.
  - reflexivity.
  - exists (str e'). exact H.
Defined.

(** ** The liveness analyzer in the pipeline *)

Section LivenessFacts.

Import LivenessDetection.

Context {Image : Type}.
Variable cvtColor : Image -> result Image.
Variables lbp_entropy skin_ratio edge_density reflection_ratio : Image -> result Q.
Variable mean_absdiff : Image -> Image -> result Q.

Local Abbreviation liveness :=
  (detect_liveness Image cvtColor lbp_entropy skin_ratio edge_density
                   reflection_ratio mean_absdiff).
Local Abbreviation color_score := (_analyze_color_space Image skin_ratio).
Local Abbreviation texture_score := (_analyze_texture Image lbp_entropy).
Local Abbreviation edge_score := (_analyze_edges Image edge_density).
Local Abbreviation reflection_score := (_detect_reflections Image reflection_ratio).

(** The colour score and the edge score take three values (0.5 also
    when the measurement raises). *)
Lemma color_score_values (image : Image) :
  color_score image = 0.8 \/ color_score image = 0.5 \/ color_score image = 0.2.
Proof.
  unfold _analyze_color_space. destruct (skin_ratio image) as [r|]; simpl; [|auto].
  destruct (_ && _); [auto|]. destruct (_ && _); auto.
Qed.

Lemma edge_score_values (image : Image) :
  edge_score image = 0.8 \/ edge_score image = 0.5 \/ edge_score image = 0.2.
Proof.
  unfold _analyze_edges. destruct (edge_density image) as [r|]; simpl; [|auto].
  destruct (_ && _); [auto|]. destruct (_ && _); auto.
Qed.

Lemma spoof_type_labels (texture color edge reflection : Q) (label : string) :
  color = 0.8 \/ color = 0.5 \/ color = 0.2 ->
  _detect_spoof_type texture color edge reflection = Some label ->
  label ∈ ["printed_photo"; "screen_replay"; "mask"].
Proof.
  intros Hc. unfold _detect_spoof_type.
  destruct (_ && _); [intros [= <-]; rewrite !elem_of_cons; auto 10|].
  destruct (Qltb 0.1 reflection); [intros [= <-]; rewrite !elem_of_cons; auto 10|].
  destruct (Qltb color 0.3); [intros [= <-]; rewrite !elem_of_cons; auto 10|].
  destruct (Qltb 0.8 texture); simpl; [|discriminate].
  destruct Hc as [->| [->| ->]]; vm_compute; discriminate.
Qed.

(** The two shapes of a result of [detect_liveness]. *)
Lemma detect_liveness_cases self image challenge_type temporal_data :
  (exists e, cvtColor image = Raise e
             /\ liveness self image challenge_type temporal_data = liveness_error e)
  \/ (exists rgb, cvtColor image = Ok rgb
        /\ liveness self image challenge_type temporal_data !! "spoof_type"
           = Some (opt_str (_detect_spoof_type (texture_score rgb) (color_score rgb)
                                               (edge_score rgb) (reflection_score rgb)))).
Proof.
  unfold detect_liveness, detect_liveness_body.
  destruct (cvtColor image) as [rgb|e]; [right|left].
  - exists rgb. split; [reflexivity|]. simpl. by simplify_map_eq.
  - exists e. split; reflexivity.
Qed.

(** X4. The liveness analyzer never reports the label 3d_mask: its rule
    asks for a colour score above 0.8, and the colour score is 0.8, 0.5 or
    0.2 (0.5 also when the analysis of the colours raises). *)
Theorem liveness_never_reports_3d_mask self image challenge_type temporal_data :
  (forall rgb,
      _analyze_color_space Image skin_ratio rgb = 0.8
      \/ _analyze_color_space Image skin_ratio rgb = 0.5
      \/ _analyze_color_space Image skin_ratio rgb = 0.2)
  /\ liveness self image challenge_type temporal_data !! "spoof_type"
     <> Some (VStr "3d_mask").
Proof.
  split; [exact color_score_values|].
  destruct (detect_liveness_cases self image challenge_type temporal_data)
    as [(e & _ & ->)|(rgb & _ & ->)].
  - discriminate.
  - destruct (_detect_spoof_type _ _ _ _) as [label|] eqn:E; [|discriminate].
    apply spoof_type_labels in E; [|apply color_score_values].
    simpl. intros [= ->]. rewrite !elem_of_cons, elem_of_nil in E.
    destruct E as [E|[E|[E|[]]]]; discriminate E.
Qed.


(** The score and the verdict in a result on an image that converts. *)
Lemma liveness_score_field self image rgb challenge_type temporal_data :
  cvtColor image = Ok rgb ->
  let w := weighted (detector_scores Image lbp_entropy skin_ratio edge_density
                       reflection_ratio mean_absdiff rgb challenge_type temporal_data)
                    weights in
  let s := match model Image self with
           | Some net => (w + _model_based_detection Image net rgb) / 2
           | None => w
           end in
  liveness self image challenge_type temporal_data !! "liveness_score"
    = Some (VFloat s)
  /\ liveness self image challenge_type temporal_data !! "is_live"
    = Some (VBool (Qleb 0.7 s)).
Proof.
  intros Hcvt. unfold detect_liveness, detect_liveness_body. rewrite Hcvt.
  destruct (model Image self) as [net|]; simpl; by simplify_map_eq.
Qed.

Lemma texture_score_le (image : Image) : texture_score image <= 1.
Proof.
  unfold _analyze_texture. destruct (lbp_entropy image) as [x|]; simpl.
  - apply Qle_trans with 1.0; [apply Q.le_min_r|]. vm_compute. discriminate.
  - vm_compute. discriminate.
Qed.

Lemma color_score_le (image : Image) : color_score image <= 0.8.
Proof.
  destruct (color_score_values image) as [->|[->| ->]]; vm_compute; discriminate.
Qed.

Lemma edge_score_le (image : Image) : edge_score image <= 0.8.
Proof.
  destruct (edge_score_values image) as [->|[->| ->]]; vm_compute; discriminate.
Qed.

Lemma reflection_score_nonneg (image : Image) :
  (forall x, reflection_ratio image = Ok x -> 0 <= x) ->
  0 <= reflection_score image.
Proof.
  intros H. unfold _detect_reflections.
  destruct (reflection_ratio image) as [x|]; simpl; [by apply H|].
  vm_compute. discriminate.
Qed.

(** X5. Through the API no frames reach the analyzer, and then a selfie
    is declared live only if the network itself gives "live" at least
    0.58: the five detectors contribute at most 0.82 to the mean.  When
    the forward pass fails, the selfie is not live. *)
Theorem live_needs_network_score self net image rgb challenge_type :
  model Image self = Some net ->
  cvtColor image = Ok rgb ->
  (forall x, reflection_ratio rgb = Ok x -> 0 <= x) ->
  liveness self image challenge_type None !! "is_live" = Some (VBool true) ->
  exists p, net rgb = Ok p /\ 0.58 <= p.
Proof.
  intros Hnet Hcvt Hrefl Hlive.
  destruct (liveness_score_field self image rgb challenge_type None Hcvt)
    as [_ Hfield].
  rewrite Hfield, Hnet in Hlive. injection Hlive as Hlive.
  apply Qleb_le in Hlive.
  unfold detector_scores in Hlive.
  rewrite (challenge_not_supplied challenge_type None (or_intror eq_refl)) in Hlive.
  rewrite weighted_five in Hlive.
  pose proof (texture_score_le rgb) as Ht.
  pose proof (color_score_le rgb) as Hc.
  pose proof (edge_score_le rgb) as He.
  pose proof (reflection_score_nonneg rgb Hrefl) as Hr.
  unfold _model_based_detection, Qdiv in Hlive.
  change (/ 2) with (1 # 2) in Hlive.
  destruct (net rgb) as [p|] eqn:Ep; simpl in Hlive.
  - exists p. split; [reflexivity|]. lra.
  - exfalso. lra.
Qed.

End LivenessFacts.

(** X5 on the scenario, with a network that gives the selfie 0.9. *)
Lemma live_needs_network_score_witness :
  let net : LivenessDetection.LivenessNet Scenario.image := fun _ => Ok 0.9 in
  let self := {| LivenessDetection.device := "cpu";
                 LivenessDetection.model := Some net |} in
  LivenessDetection.detect_liveness Scenario.image Scenario.cvtColor
    Scenario.lbp_entropy Scenario.skin_ratio Scenario.edge_density
    Scenario.reflection_ratio Scenario.mean_absdiff self Scenario.Selfie None None
    !! "is_live" = Some (VBool true)
  /\ exists p, net Scenario.Selfie = Ok p /\ 0.58 <= p.
Proof.
  cbv zeta. split; [vm_compute; reflexivity|].
  refine (live_needs_network_score Scenario.cvtColor Scenario.lbp_entropy
            Scenario.skin_ratio Scenario.edge_density Scenario.reflection_ratio
            Scenario.mean_absdiff
            {| LivenessDetection.device := "cpu";
               LivenessDetection.model := Some (fun _ => Ok 0.9) |}
            (fun _ => Ok 0.9) Scenario.Selfie Scenario.Selfie None
            eq_refl eq_refl _ _).
  - intros x [= <-]. vm_compute. discriminate.
  - vm_compute. reflexivity.
Defined.

Section Challenge.

Import LivenessDetection.

Context {Image : Type}.
Variable cvtColor : Image -> result Image.
Variables lbp_entropy skin_ratio edge_density reflection_ratio : Image -> result Q.
Variable mean_absdiff : Image -> Image -> result Q.

Local Abbreviation liveness :=
  (detect_liveness Image cvtColor lbp_entropy skin_ratio edge_density
                   reflection_ratio mean_absdiff).
Local Abbreviation challenge := (_analyze_challenge Image mean_absdiff).

Lemma blink_score (frames : list Image) :
  _detect_blink Image frames == (if (10 <=? length frames)%nat then 0.275 else 0.5).
Proof.
  unfold _detect_blink. destruct (10 <=? length frames)%nat eqn:E; [|reflexivity].
  apply Nat.leb_le in E. rewrite take_ge by (simpl; lia). reflexivity.
Qed.

Lemma smile_score (frames : list Image) :
  _detect_smile Image frames == (if (5 <=? length frames)%nat then 0.46 else 0.5).
Proof.
  unfold _detect_smile. destruct (5 <=? length frames)%nat eqn:E; [|reflexivity].
  apply Nat.leb_le in E. rewrite take_ge by (simpl; lia). reflexivity.
Qed.





End Challenge.


(** ** Ranges of the liveness result *)

Section NonNegative.

Lemma sum_nonneg (xs : list Q) : Forall (fun x => 0 <= x) xs -> 0 <= sum xs.
Proof.
  induction 1 as [|x xs Hx _ IH]; [apply Qle_refl|].
  rewrite sum_cons. lra.
Qed.

Lemma len_nonneg {A} (xs : list A) : 0 <= len xs.
Proof. unfold len. change 0 with (inject_Z 0). rewrite <- Zle_Qle. lia. Qed.

Lemma Qdiv_nonneg (a b : Q) : 0 <= a -> 0 <= b -> 0 <= a / b.
Proof.
  intros Ha Hb. unfold Qdiv. apply Qmult_le_0_compat; [exact Ha|].
  by apply Qinv_le_0_compat.
Qed.

Lemma np_mean_nonneg (xs : list Q) : Forall (fun x => 0 <= x) xs -> 0 <= np_mean xs.
Proof.
  intros H. unfold np_mean. apply Qdiv_nonneg; [by apply sum_nonneg|apply len_nonneg].
Qed.

Lemma np_var_nonneg (xs : list Q) : 0 <= np_var xs.
Proof.
  unfold np_var. apply np_mean_nonneg, Forall_fmap, Forall_forall.
  intros x _. unfold compose. cbv beta. set (y := x - np_mean xs). nra.
Qed.

Lemma confidence_range (scores : list Q) :
  0 <= LivenessDetection._calculate_confidence scores
  /\ LivenessDetection._calculate_confidence scores <= 1.
Proof.
  rewrite confidence_formula. pose proof (np_var_nonneg scores) as Hv.
  pose proof (Q.le_min_r (5 * np_var scores) 1).
  assert (0 <= Qmin (5 * np_var scores) 1) by (apply Q.min_glb; lra).
  lra.
Qed.

End NonNegative.

Section LivenessRange.

Import LivenessDetection.

Context {Image : Type}.
Variable cvtColor : Image -> result Image.
Variables lbp_entropy skin_ratio edge_density reflection_ratio : Image -> result Q.
Variable mean_absdiff : Image -> Image -> result Q.

Local Abbreviation liveness :=
  (detect_liveness Image cvtColor lbp_entropy skin_ratio edge_density
                   reflection_ratio mean_absdiff).
Local Abbreviation challenge := (_analyze_challenge Image mean_absdiff).

Hypothesis entropy_nonneg : forall img x, lbp_entropy img = Ok x -> 0 <= x.
Hypothesis reflection_in_range :
  forall img x, reflection_ratio img = Ok x -> 0 <= x /\ x <= 1.
Hypothesis absdiff_nonneg : forall f g x, mean_absdiff f g = Ok x -> 0 <= x.

Lemma turn_scores_step (f g : Image) (rest : list Image) :
  turn_scores Image mean_absdiff (f :: g :: rest)
  = (d ← mean_absdiff f g;
     ds ← turn_scores Image mean_absdiff (g :: rest);
     mret (d :: ds)).
Proof. reflexivity. Qed.

Lemma turn_scores_nonneg (frames : list Image) (ts : list Q) :
  turn_scores Image mean_absdiff frames = Ok ts -> Forall (fun x => 0 <= x) ts.
Proof.
  revert ts. induction frames as [|f rest IH]; intros ts.
  - intros [= <-]. constructor.
  - destruct rest as [|g rest'].
    + intros [= <-]. constructor.
    + rewrite turn_scores_step.
      destruct (mean_absdiff f g) as [d|] eqn:Ed; [|discriminate].
      cbn [mbind result_bind].
      destruct (turn_scores Image mean_absdiff (g :: rest')) as [ds|];
        cbn [mbind result_bind mret result_ret]; [|discriminate].
      intros [= <-]. constructor; [by eapply absdiff_nonneg|by apply IH].
Qed.

Lemma head_turn_range (frames : list Image) :
  0 <= _detect_head_turn Image mean_absdiff frames
  /\ _detect_head_turn Image mean_absdiff frames <= 1.
Proof.
  unfold _detect_head_turn.
  destruct (5 <=? length frames)%nat; [|vm_compute; split; discriminate].
  destruct (turn_scores Image mean_absdiff frames) as [ts|] eqn:E;
    [|vm_compute; split; discriminate].
  apply turn_scores_nonneg in E. simpl.
  destruct ts as [|t ts]; [vm_compute; split; discriminate|].
  pose proof (np_mean_nonneg _ E). split.
  - apply Q.min_glb; [lra|vm_compute; discriminate].
  - apply Qle_trans with 1.0; [apply Q.le_min_r|vm_compute; discriminate].
Qed.

Lemma challenge_range (frames : list Image) (c : string) :
  0 <= challenge frames c /\ challenge frames c <= 1.
Proof.
  unfold _analyze_challenge.
  destruct (length frames <? 2)%nat; [vm_compute; split; discriminate|].
  destruct (String.eqb c "blink").
  { rewrite blink_score. destruct (10 <=? _)%nat; vm_compute; split; discriminate. }
  destruct (String.eqb c "head_turn"); [apply head_turn_range|].
  destruct (String.eqb c "smile").
  { rewrite smile_score. destruct (5 <=? _)%nat; vm_compute; split; discriminate. }
  vm_compute; split; discriminate.
Qed.

Lemma texture_score_range (image : Image) :
  0 <= _analyze_texture Image lbp_entropy image
  /\ _analyze_texture Image lbp_entropy image <= 1.
Proof.
  split; [|apply texture_score_le].
  unfold _analyze_texture. destruct (lbp_entropy image) as [x|] eqn:E; simpl.
  - apply entropy_nonneg in E.
    apply Q.min_glb; [|vm_compute; discriminate].
    apply Qdiv_nonneg; [exact E|vm_compute; discriminate].
  - vm_compute. discriminate.
Qed.

Lemma reflection_score_range (image : Image) :
  0 <= _detect_reflections Image reflection_ratio image
  /\ _detect_reflections Image reflection_ratio image <= 1.
Proof.
  unfold _detect_reflections.
  destruct (reflection_ratio image) as [x|] eqn:E; simpl.
  - by apply reflection_in_range in E.
  - vm_compute. split; discriminate.
Qed.

(** X7. When the measurements are in their natural ranges (entropy and
    frame differences non-negative, reflection ratio and network output in
    [0, 1]), every result of the liveness analyzer, the error result
    included, carries a liveness score and a confidence in [0, 1], as the
    response schema demands. *)
Theorem liveness_result_in_range self image challenge_type temporal_data :
  (forall net img p,
      model Image self = Some net -> net img = Ok p -> 0 <= p /\ p <= 1) ->
  exists s c,
    liveness self image challenge_type temporal_data !! "liveness_score"
      = Some (VFloat s)
    /\ liveness self image challenge_type temporal_data !! "confidence"
      = Some (VFloat c)
    /\ (0 <= s /\ s <= 1) /\ (0 <= c /\ c <= 1).
Proof.
  intros Hnet.
  destruct (cvtColor image) as [rgb|e] eqn:Hcvt.
  - destruct (liveness_score_field cvtColor lbp_entropy skin_ratio edge_density
                reflection_ratio mean_absdiff self image rgb challenge_type
                temporal_data Hcvt) as [Hs _].
    eexists _, _. split; [exact Hs|].
    split; [by apply liveness_confidence|].
    split; [|apply confidence_range].
    unfold detector_scores. 
    pose proof (texture_score_range rgb) as Ht.
    pose proof (color_score_values skin_ratio rgb) as Hc.
    pose proof (edge_score_values edge_density rgb) as He.
    pose proof (reflection_score_range rgb) as Hr.
    set (ch := if challenge_supplied Image challenge_type temporal_data
               then _ else _).
    assert (Hch : 0 <= ch /\ ch <= 1).
    { subst ch. destruct (challenge_supplied _ _ _);
        [apply challenge_range|vm_compute; split; discriminate]. }
    assert (Hc' : 0 <= _analyze_color_space Image skin_ratio rgb
                  /\ _analyze_color_space Image skin_ratio rgb <= 1).
    { destruct Hc as [->|[->| ->]]; vm_compute; split; discriminate. }
    assert (He' : 0 <= _analyze_edges Image edge_density rgb
                  /\ _analyze_edges Image edge_density rgb <= 1).
    { destruct He as [->|[->| ->]]; vm_compute; split; discriminate. }
    clear Hc He.
    destruct (model Image self) as [net|] eqn:Hm.
    + assert (Hms : 0 <= _model_based_detection Image net rgb
                    /\ _model_based_detection Image net rgb <= 1).
      { unfold _model_based_detection.
        destruct (net rgb) as [p|] eqn:Ep; simpl;
          [by eapply Hnet|vm_compute; split; discriminate]. }
      rewrite weighted_five. unfold Qdiv. change (/ 2) with (1 # 2). lra.
    + rewrite weighted_five. lra.
  - exists 0.0, 0.0.
    unfold detect_liveness, detect_liveness_body. rewrite Hcvt. simpl.
    split; [reflexivity|]. split; [reflexivity|].
    vm_compute. repeat split; discriminate.
Qed.

End LivenessRange.

(** X7 on the scenario. *)
Lemma liveness_result_in_range_witness :
  exists s c,
    Scenario.detect_liveness Scenario.Masked None None !! "liveness_score"
      = Some (VFloat s)
    /\ Scenario.detect_liveness Scenario.Masked None None !! "confidence"
      = Some (VFloat c)
    /\ (0 <= s /\ s <= 1) /\ (0 <= c /\ c <= 1).
Proof.
  refine (liveness_result_in_range Scenario.cvtColor Scenario.lbp_entropy
            Scenario.skin_ratio Scenario.edge_density Scenario.reflection_ratio
            Scenario.mean_absdiff _ _ _
            Scenario.liveness_model Scenario.Masked None None _).
  - intros img x [= <-]. vm_compute. discriminate.
  - intros img x [= <-]. vm_compute. split; discriminate.
  - intros f g x [= <-]. vm_compute. discriminate.
  - intros net img p [= <-] [= <-]. vm_compute. split; discriminate.
Defined.

(** ** The pipeline over the liveness analyzer *)

Section PipelineLiveness.

Import Routes.

Context {Image : Type}.
Variable download_image : string -> result Image.
Variable FACE_MATCH_THRESHOLD : Q.
Variable cvtColor : Image -> result Image.
Variables lbp_entropy skin_ratio edge_density reflection_ratio : Image -> result Q.
Variable mean_absdiff : Image -> Image -> result Q.
Variable self : LivenessDetection.LivenessDetectionModel Image.
Variable verify_face_match : Image -> Image -> Q -> result (gmap string value).
Variable verify_document :
  Image -> option Image -> option string -> result (gmap string value).
Variable start_time end_time : Q.

(** The endpoint with the liveness task running [detect_liveness]. *)
Local Abbreviation endpoint :=
  (verify_kyc Image download_image FACE_MATCH_THRESHOLD
     (fun image challenge_type temporal_data =>
        Ok (LivenessDetection.detect_liveness Image cvtColor lbp_entropy
              skin_ratio edge_density reflection_ratio mean_absdiff self
              image challenge_type temporal_data))
     verify_face_match verify_document start_time end_time).



End PipelineLiveness.


(** ** The single-analyzer routes and their response schemas *)

Section LivenessRouteFacts.

Import Endpoints.

Context {Image : Type}.
Variable download_image : string -> result Image.
Variable cvtColor : Image -> result Image.
Variables lbp_entropy skin_ratio edge_density reflection_ratio : Image -> result Q.
Variable mean_absdiff : Image -> Image -> result Q.
Variable self : LivenessDetection.LivenessDetectionModel Image.
Variable loop_time : Q.

Local Abbreviation liveness :=
  (LivenessDetection.detect_liveness Image cvtColor lbp_entropy skin_ratio
     edge_density reflection_ratio mean_absdiff self).
Local Abbreviation route :=
  (detect_liveness_route Image download_image liveness loop_time).

Lemma detect_liveness_no_frames (image : Image) (c : option string) :
  liveness image c None = liveness image None None.
Proof. by destruct c. Qed.

(** X9. The route /detect-liveness never hands frames to the analyzer, so
    the challenge type of the request has no effect on the reply; the
    challenge score is the neutral 0.5.  A reply is given exactly when
    the image is fetched, and it carries every field the response schema
    requires, also when the analysis failed. *)
Theorem liveness_route_ignores_challenge (request : LivenessRequest)
  (c : option string) :
  route request
  = route {| image_url := image_url request; attempt_id := attempt_id request;
             challenge_type := c |}
  /\ (forall image, download_image (image_url request) = Ok image ->
        exists body,
          route request = Reply body
          /\ Schemas.has_fields Schemas.LivenessResponse_required body = true
          /\ (body !! "error" = None ->
              exists metadata,
                body !! "metadata" = Some (VDict metadata)
                /\ metadata !! "challenge_score" = Some (VFloat 0.5)))
  /\ (forall e, download_image (image_url request) = Raise e ->
        route request = HTTPError 500 (str e)).
Proof.
  split; [|split].
  - unfold detect_liveness_route. cbn [image_url attempt_id challenge_type].
    destruct (download_image (image_url request)) as [image|]; [|reflexivity].
    rewrite (detect_liveness_no_frames image (challenge_type request)).
    rewrite (detect_liveness_no_frames image c). reflexivity.
  - intros image Hd. unfold detect_liveness_route. rewrite Hd.
    rewrite detect_liveness_no_frames.
    unfold LivenessDetection.detect_liveness, LivenessDetection.detect_liveness_body.
    destruct (cvtColor image) as [rgb|e]; simpl.
    + eexists. split; [reflexivity|]. split; [reflexivity|].
      intros _. eexists. split; reflexivity.
    + eexists. split; [reflexivity|]. split; [reflexivity|].
      intros H. discriminate H.
  - intros e Hd. unfold detect_liveness_route. by rewrite Hd.
Qed.

End LivenessRouteFacts.

(** X9 on the scenario: the challenge type "blink" changes nothing. *)
Lemma liveness_route_ignores_challenge_witness :
  exists body,
    Endpoints.detect_liveness_route Scenario.image Scenario.download_image
      Scenario.detect_liveness 12.5
      {| Endpoints.image_url := "https://kyc.example/masked.jpg";
         Endpoints.attempt_id := "a-3";
         Endpoints.challenge_type := Some "blink" |}
    = Endpoints.Reply body
    /\ Schemas.has_fields Schemas.LivenessResponse_required body = true
    /\ exists metadata,
         body !! "metadata" = Some (VDict metadata)
         /\ metadata !! "challenge_score" = Some (VFloat 0.5).
Proof.
  destruct (proj1 (proj2 (liveness_route_ignores_challenge
              Scenario.download_image Scenario.cvtColor Scenario.lbp_entropy
              Scenario.skin_ratio Scenario.edge_density Scenario.reflection_ratio
              Scenario.mean_absdiff Scenario.liveness_model 12.5
              {| Endpoints.image_url := "https://kyc.example/masked.jpg";
                 Endpoints.attempt_id := "a-3";
                 Endpoints.challenge_type := Some "blink" |} None))
              Scenario.Masked eq_refl)
    as (body & Hr & Hf & Hm).
  exists body. split; [exact Hr|]. split; [exact Hf|].
  apply Hm. injection Hr as <-. reflexivity.
Defined.

Section FaceRouteFacts.

Import FaceMatchEndpoint.

Context {Image : Type}.
Variable download_image : string -> result Image.
Variable FACE_MATCH_THRESHOLD : Q.
Variable insight_faces : Image -> result (list FaceRecognition.Face).
Variable facenet_embedding :
  Image -> FaceRecognition.Face -> result (option FaceRecognition.Embedding).
Variable cosine_similarity :
  FaceRecognition.Embedding -> FaceRecognition.Embedding -> result Q.
Variable loop_time : Q.

Local Abbreviation face_match :=
  (FaceRecognition.verify_face_match Image insight_faces facenet_embedding
     cosine_similarity).
Local Abbreviation route :=
  (verify_face_match_route Image download_image FACE_MATCH_THRESHOLD
     face_match loop_time).

(** The two shapes of a result of [verify_face_match]. *)
Lemma verify_face_match_cases (selfie_image id_image : Image) (threshold : Q) :
  (exists msg, face_match selfie_image id_image threshold
               = FaceRecognition.face_error msg)
  \/ (face_match selfie_image id_image threshold !! "error" = None
      /\ Schemas.has_fields Schemas.FaceMatchResponse_required
           (face_match selfie_image id_image threshold) = true).
Proof.
  unfold FaceRecognition.verify_face_match.
  destruct (max_by _ _ _) as [sf|]; [|left; eauto].
  destruct (max_by _ _ _) as [idf|]; [|left; eauto].
  destruct (FaceRecognition.extract_embeddings _ _ _ _) as [|se ?]; [left; eauto|].
  destruct (FaceRecognition.extract_embeddings _ _ _ _) as [|ie ?]; [left; eauto|].
  right. split; reflexivity.
Qed.

Lemma no_face_error (selfie_image id_image : Image) (threshold : Q) :
  FaceRecognition.detect_faces Image insight_faces selfie_image = []
  \/ FaceRecognition.detect_faces Image insight_faces id_image = [] ->
  face_match selfie_image id_image threshold
  = FaceRecognition.face_error "No faces detected in one or both images".
Proof.
  unfold FaceRecognition.verify_face_match. intros [-> | ->]; simpl.
  - reflexivity.
  - by destruct (max_by _ _ _).
Qed.

Lemma has_fields_insert (required : list string) (d : gmap string value)
  (k : string) (v : value) :
  Schemas.has_fields required d = true ->
  Schemas.has_fields required (<[k := v]> d) = true.
Proof.
  unfold Schemas.has_fields. rewrite !forallb_forall. intros H x Hx.
  specialize (H x Hx). apply bool_decide_eq_true in H. apply bool_decide_eq_true.
  destruct (decide (k = x)) as [->|Hne].
  - rewrite lookup_insert_eq. eauto.
  - by rewrite lookup_insert_ne.
Qed.

(** X10. The route /verify-face-match replies whenever both images are
    fetched, but the reply satisfies the response schema, which requires
    the field distance, only when the comparison succeeded: the result for
    "no face detected" or "no embedding" carries an error and no distance. *)
Theorem face_route_error_lacks_distance (request : FaceMatchRequest)
  (selfie_image id_image : Image) :
  download_image (selfie_url request) = Ok selfie_image ->
  download_image (id_photo_url request) = Ok id_image ->
  exists body,
    route request = Endpoints.Reply body
    /\ (Schemas.has_fields Schemas.FaceMatchResponse_required body = true
        <-> body !! "error" = None)
    /\ (FaceRecognition.detect_faces Image insight_faces selfie_image = []
        \/ FaceRecognition.detect_faces Image insight_faces id_image = [] ->
        body !! "distance" = None
        /\ body !! "error" = Some (VStr "No faces detected in one or both images")).
Proof.
  intros Hs Hi. unfold verify_face_match_route.
  rewrite Hs. cbn [mbind result_bind]. rewrite Hi.
  cbn [mbind result_bind mret result_ret].
  destruct (verify_face_match_cases selfie_image id_image FACE_MATCH_THRESHOLD)
    as [(msg & Herr)|(Hnone & Hfields)].
  - rewrite Herr. eexists. split; [reflexivity|]. split.
    + split; intros H; discriminate H.
    + intros Hfaces.
      rewrite (no_face_error _ _ FACE_MATCH_THRESHOLD Hfaces) in Herr.
      apply (f_equal (fun d => d !! "error")) in Herr.
      change (Some (VStr "No faces detected in one or both images")
              = Some (VStr msg)) in Herr.
      injection Herr as <-. split; reflexivity.
  - set (fm := face_match selfie_image id_image FACE_MATCH_THRESHOLD) in *.
    assert (Hms : is_Some (fm !! "match_score")).
    { unfold Schemas.has_fields in Hfields. simpl in Hfields.
      apply andb_true_iff in Hfields as [H _]. by apply bool_decide_eq_true in H. }
    destruct Hms as [ms Hms].
    rewrite !lookup_insert_ne, Hms by done.
    eexists. split; [reflexivity|]. split.
    + split; intros _.
      * by rewrite !lookup_insert_ne.
      * by do 2 apply has_fields_insert.
    + intros Hfaces. exfalso. subst fm.
      rewrite (no_face_error _ _ FACE_MATCH_THRESHOLD Hfaces) in Hnone.
      discriminate Hnone.
Qed.

End FaceRouteFacts.

(** X10 on the scenario: a picture without a face as the selfie. *)
Lemma face_route_error_lacks_distance_witness :
  exists body,
    FaceMatchEndpoint.verify_face_match_route Scenario.image
      Scenario.download_image 0.6 Scenario.verify_face_match 12.5
      {| FaceMatchEndpoint.selfie_url := "https://kyc.example/faceless.jpg";
         FaceMatchEndpoint.id_photo_url := "https://kyc.example/id-front.jpg";
         FaceMatchEndpoint.attempt_id := "a-2" |}
    = Endpoints.Reply body
    /\ Schemas.has_fields Schemas.FaceMatchResponse_required body = false
    /\ body !! "distance" = None.
Proof.
  destruct (face_route_error_lacks_distance Scenario.download_image 0.6
              Scenario.insight_faces Scenario.facenet_embedding
              Scenario.cosine_similarity 12.5
              {| FaceMatchEndpoint.selfie_url := "https://kyc.example/faceless.jpg";
                 FaceMatchEndpoint.id_photo_url := "https://kyc.example/id-front.jpg";
                 FaceMatchEndpoint.attempt_id := "a-2" |}
              Scenario.Faceless Scenario.IdFront eq_refl eq_refl)
    as (body & Hr & Hiff & Hno).
  exists body. split; [exact Hr|].
  destruct (Hno (or_introl eq_refl)) as [Hd He].
  split; [|exact Hd].
  apply not_true_is_false. intros E. apply Hiff in E. congruence.
Defined.

Section UploadRouteFacts.

Import Endpoints.

Context {UploadFile Image : Type}.
Variable decode : UploadFile -> result Image.
Variable size : Image -> Z.
Variable shape : Image -> Z * Z.
Variable MAX_IMAGE_SIZE : Z.

Local Abbreviation upload :=
  (upload_image UploadFile Image decode size shape MAX_IMAGE_SIZE).

(** X11. The route /upload fails only with status 400, and with one of
    two details: "Invalid file type" or "Invalid image file".  An
    unexpected exception while decoding is not a 500, and an image above
    the size limit is reported as an invalid image file: the message that
    names the limit never leaves [validate_image]. *)
Theorem upload_failures_are_400 (file : UploadFile) (file_type : string) :
  (forall status_code detail,
      upload file file_type = HTTPError status_code detail ->
      status_code = 400%Z
      /\ (detail = "Invalid file type" /\ file_type ∉ file_types
          \/ detail = "Invalid image file" /\ file_type ∈ file_types))
  /\ (forall image,
        file_type ∈ file_types ->
        decode file = Ok image ->
        (MAX_IMAGE_SIZE * MAX_IMAGE_SIZE * 3 < size image)%Z ->
        upload file file_type = HTTPError 400 "Invalid image file")
  /\ (forall body,
        upload file file_type = Reply body ->
        file_type ∈ file_types
        /\ exists image,
             decode file = Ok image
             /\ (size image <= MAX_IMAGE_SIZE * MAX_IMAGE_SIZE * 3)%Z
             /\ body !! "file_type" = Some (VStr file_type)).
Proof.
  unfold upload_image, upload_image_body, validate_image, validate_image_body.
  destruct (bool_decide (file_type ∈ file_types)) eqn:Et; simpl.
  - apply bool_decide_eq_true in Et.
    destruct (decode file) as [image|e] eqn:Ed.
    + destruct (MAX_IMAGE_SIZE * MAX_IMAGE_SIZE * 3 <? size image)%Z eqn:Es.
      * apply Z.ltb_lt in Es. split; [|split].
        -- intros s d [= <- <-]. auto.
        -- reflexivity.
        -- discriminate.
      * apply Z.ltb_ge in Es. split; [|split].
        -- discriminate.
        -- intros image' _ [= <-] Hlt. lia.
        -- intros body [= <-]. split; [exact Et|].
           exists image. split; [reflexivity|]. split; [exact Es|].
           by simplify_map_eq.
    + split; [|split].
      * intros s d [= <- <-]. auto.
      * discriminate.
      * discriminate.
  - apply bool_decide_eq_false in Et. split; [|split].
    + intros s d [= <- <-]. auto.
    + intros image Hin. contradiction.
    + discriminate.
Qed.

End UploadRouteFacts.

(** X11 on an upload of 1000 bytes under a limit of 10 x 10 pixels. *)
Lemma upload_failures_are_400_witness :
  Endpoints.upload_image nat nat (fun n => Ok n) Z.of_nat (fun _ => (1, 1)%Z) 10
    1000%nat "selfie"
  = Endpoints.HTTPError 400 "Invalid image file".
Proof.
  refine (proj1 (proj2 (upload_failures_are_400 (fun n => Ok n) Z.of_nat
                          (fun _ => (1, 1)%Z) 10 1000%nat "selfie"))
                1000%nat _ eq_refl _).
  - unfold Endpoints.file_types. rewrite !elem_of_cons. auto.
  - vm_compute. reflexivity.
Defined.

(** ** Face matching (face_recognition.py, lines 137-247) *)

Section MaxByQ.

Context {A : Type} (key : A -> Q).

Lemma max_step_ge (m item : A) :
  key m <= key (max_step Qltb key m item)
  /\ key item <= key (max_step Qltb key m item)
  /\ (max_step Qltb key m item = m \/ max_step Qltb key m item = item).
Proof.
  unfold max_step. destruct (Qltb (key m) (key item)) eqn:E.
  - apply Qltb_lt in E. split; [lra|]. split; [lra|]. by right.
  - apply Qltb_false in E. split; [lra|]. split; [lra|]. by left.
Qed.

Lemma fold_max_ge (xs : list A) (x : A) :
  let m := fold_left (max_step Qltb key) xs x in
  m ∈ x :: xs /\ forall y, y ∈ x :: xs -> key y <= key m.
Proof.
  revert x. induction xs as [|a xs IH]; intros x; simpl.
  - split; [by left|]. intros y Hy.
    apply elem_of_cons in Hy as [->|Hy]; [lra|by apply elem_of_nil in Hy].
  - destruct (IH (max_step Qltb key x a)) as [Hin Hge].
    destruct (max_step_ge x a) as (Hx & Ha & Hor).
    split.
    + apply elem_of_cons in Hin as [Hin|Hin].
      * rewrite Hin. destruct Hor as [-> | ->]; [by left|by right; left].
      * by right; right.
    + intros y Hy.
      assert (Hm : key (max_step Qltb key x a)
                   <= key (fold_left (max_step Qltb key) xs (max_step Qltb key x a))).
      { apply Hge. by left. }
      apply elem_of_cons in Hy as [->|Hy]; [lra|].
      apply elem_of_cons in Hy as [->|Hy]; [lra|].
      apply Hge. by right.
Qed.

(** [max(xs, key=...)] returns an item of the list with a greatest key. *)
Lemma max_by_ge (xs : list A) (m : A) :
  max_by Qltb key xs = Some m ->
  m ∈ xs /\ forall y, y ∈ xs -> key y <= key m.
Proof.
  destruct xs as [|x xs]; [discriminate|]. intros [= <-]. apply fold_max_ge.
Qed.

End MaxByQ.

Section FaceMatch.

Import FaceRecognition.

Context {Image : Type}.
Variable insight_faces : Image -> result (list Face).
Variable facenet_embedding : Image -> Face -> result (option Embedding).
Variable cosine_similarity : Embedding -> Embedding -> result Q.

Local Abbreviation faces_of := (detect_faces Image insight_faces).
Local Abbreviation embeddings_of := (extract_embeddings Image facenet_embedding).
Local Abbreviation compare := (compare_faces cosine_similarity).
Local Abbreviation face_match :=
  (verify_face_match Image insight_faces facenet_embedding cosine_similarity).

Lemma compare_faces_range (e1 e2 : Embedding) :
  (forall c, cosine_similarity e1 e2 = Ok c -> -1 <= c /\ c <= 1) ->
  0 <= compare e1 e2 /\ compare e1 e2 <= 1.
Proof.
  intros H. unfold compare_faces.
  destruct (cosine_similarity e1 e2) as [c|]; simpl.
  - destruct (H c eq_refl). unfold Qdiv. change (/ 2) with (1 # 2). lra.
  - vm_compute. split; discriminate.
Qed.

(** X12. A face-match result without an error compares the face of
    greatest quality of each image; the match score is (cosine + 1) / 2, or
    0.0 when the comparison raised, and lies in [0, 1] for a cosine in
    [-1, 1]; is_match holds iff the score reaches the threshold, which for
    a cosine c means c >= 2 * threshold - 1; distance is 1 - score; the
    confidence is the smaller of the qualities of the two chosen faces. *)
Theorem face_match_success (selfie_image id_image : Image) (threshold : Q) :
  (forall e1 e2 c, cosine_similarity e1 e2 = Ok c -> -1 <= c /\ c <= 1) ->
  face_match selfie_image id_image threshold !! "error" = None ->
  exists selfie_face id_face se ie more_se more_ie,
    let s := compare se ie in
    (selfie_face ∈ faces_of selfie_image
     /\ forall f, f ∈ faces_of selfie_image ->
                  quality_score f <= quality_score selfie_face)
    /\ (id_face ∈ faces_of id_image
        /\ forall f, f ∈ faces_of id_image ->
                     quality_score f <= quality_score id_face)
    /\ embeddings_of selfie_image [selfie_face] = se :: more_se
    /\ embeddings_of id_image [id_face] = ie :: more_ie
    /\ face_match selfie_image id_image threshold !! "match_score"
       = Some (VFloat s)
    /\ face_match selfie_image id_image threshold !! "is_match"
       = Some (VBool (Qleb threshold s))
    /\ face_match selfie_image id_image threshold !! "distance"
       = Some (VFloat (1 - s))
    /\ face_match selfie_image id_image threshold !! "confidence"
       = Some (VFloat (Qmin (quality_score selfie_face) (quality_score id_face)))
    /\ (0 <= s /\ s <= 1) /\ 0 <= 1 - s
    /\ (forall c, cosine_similarity se ie = Ok c ->
          (Qleb threshold s = true <-> 2 * threshold - 1 <= c)).
Proof.
  intros Hcos. unfold verify_face_match.
  destruct (max_by Qltb quality_score (faces_of selfie_image)) as [sf|] eqn:Es;
    [|discriminate].
  destruct (max_by Qltb quality_score (faces_of id_image)) as [idf|] eqn:Ei;
    [|discriminate].
  destruct (embeddings_of selfie_image [sf]) as [|se more_se] eqn:Ese;
    [discriminate|].
  destruct (embeddings_of id_image [idf]) as [|ie more_ie] eqn:Eie;
    [discriminate|].
  intros _. exists sf, idf, se, ie, more_se, more_ie. cbv zeta.
  split; [by apply max_by_ge|]. split; [by apply max_by_ge|].
  split; [exact Ese|]. split; [exact Eie|].
  split; [reflexivity|]. split; [reflexivity|].
  split; [reflexivity|]. split; [reflexivity|].
  pose proof (compare_faces_range se ie (Hcos se ie)) as Hr.
  split; [exact Hr|]. split; [lra|].
  intros c Hc. rewrite Qleb_le. unfold compare_faces. rewrite Hc. simpl.
  unfold Qdiv. change (/ 2) with (1 # 2). split; intros; lra.
Qed.

End FaceMatch.

(** X12 on the scenario: cosine 0.5 gives the score 0.75, a match at the
    threshold 0.6, with distance 0.25. *)
Lemma face_match_success_witness :
  exists s,
    Scenario.verify_face_match Scenario.Selfie Scenario.IdFront 0.6 !! "match_score"
      = Some (VFloat s)
    /\ Scenario.verify_face_match Scenario.Selfie Scenario.IdFront 0.6 !! "is_match"
      = Some (VBool true)
    /\ s == 0.75 /\ 0 <= 1 - s.
Proof.
  destruct (face_match_success Scenario.insight_faces Scenario.facenet_embedding
              Scenario.cosine_similarity Scenario.Selfie Scenario.IdFront 0.6)
    as (sf & idf & se & ie & mse & mie & _ & _ & Hse & Hie & Hs & Hm & _ & _ & _ & Hd & _).
  - intros e1 e2 c [= <-]. vm_compute. split; discriminate.
  - reflexivity.
  - injection Hse as <- <-. injection Hie as <- <-.
    eexists. split; [exact Hs|]. split; [exact Hm|]. split; [reflexivity|exact Hd].
Defined.

(** ** The verdict of the anti-spoof ensemble (anti_spoof.py, lines 22-99) *)

Section MeanBounds.

Lemma sum_le_all (xs : list Q) (a : Q) :
  Forall (fun x => x <= a) xs -> sum xs <= len xs * a.
Proof.
  induction 1 as [|x xs Hx _ IH].
  - vm_compute. discriminate.
  - rewrite sum_cons, len_cons. lra.
Qed.

(** A mean above [a] needs an item above [a]. *)
Lemma np_mean_gt_exists (xs : list Q) (a : Q) :
  xs <> [] -> a < np_mean xs -> exists x, x ∈ xs /\ a < x.
Proof.
  intros Hne Hmean.
  assert (Hcases : (exists x, x ∈ xs /\ a < x) \/ Forall (fun x => x <= a) xs).
  { clear. induction xs as [|x xs IH]; [by right|].
    destruct (Qlt_le_dec a x) as [Hx|Hx].
    - left. exists x. split; [by left|exact Hx].
    - destruct IH as [(y & Hy & Hay)|Hall].
      + left. exists y. split; [by right|exact Hay].
      + right. by constructor. }
  destruct Hcases as [Hex|Hall]; [exact Hex|].
  exfalso.
  pose proof (sum_le_all xs a Hall) as Hs.
  pose proof (len_pos xs Hne) as Hl.
  unfold np_mean in Hmean.
  apply Qlt_not_le in Hmean. apply Hmean.
  apply Qle_shift_div_r; [exact Hl|]. lra.
Qed.

End MeanBounds.

Section SpoofVerdict.

Import AntiSpoof.

Context {Image : Type}.
Variable crop : Image -> Z -> Z -> Z -> Z -> Image.
Variables lbp_variance saturation grid_score gradient_reflection : Image -> result Q.
Variable refresh_ratio : list Image -> result Q.
Variable block_std_dispersion : Image -> result (option Q).
Variables laplacian_var color_variance direction_consistency_by_pi : Image -> result Q.
Variable expression_variation : list Image -> result Q.
Variables highlight_ratio edge_sharpness noise_level brightness_diff : Image -> result Q.

Local Abbreviation methods :=
  (run_methods Image lbp_variance saturation grid_score gradient_reflection
     refresh_ratio block_std_dispersion laplacian_var color_variance
     direction_consistency_by_pi expression_variation highlight_ratio
     edge_sharpness noise_level brightness_diff).

(** A method result is the failure result or carries the flag
    [threshold < score] for a threshold of at most 0.7. *)
Local Abbreviation flag_consistent r := (0.7 < score r -> is_spoof r = true).

Lemma failed_consistent (label : string) : flag_consistent (failed label).
Proof. intros H. vm_compute in H. discriminate H. Qed.

Lemma scored_consistent (s threshold : Q) (label : string) :
  threshold <= 0.7 ->
  flag_consistent {| score := s; is_spoof := Qltb threshold s; type := label |}.
Proof. intros Ht H. simpl in *. apply Qltb_lt. lra. Qed.

Lemma methods_consistent (region : Image) (temporal_frames : option (list Image)) :
  Forall (fun r => flag_consistent r) (snd <$> methods region temporal_frames).
Proof.
  unfold run_methods, detection_methods.
  cbn [fmap list_fmap fst snd].
  repeat apply Forall_cons_2; [..|apply Forall_nil_2].
  - unfold _detect_print_attack, try_default.
    destruct (lbp_variance region); cbn [mbind result_bind mret result_ret];
      [|apply failed_consistent].
    destruct (saturation region); cbn [mbind result_bind mret result_ret];
      [|apply failed_consistent].
    apply scored_consistent. vm_compute. discriminate.
  - unfold _detect_screen_replay, try_default.
    destruct (grid_score region); cbn [mbind result_bind mret result_ret];
      [|apply failed_consistent].
    destruct (gradient_reflection region); cbn [mbind result_bind mret result_ret];
      [|apply failed_consistent].
    destruct (if frames_longer_than _ _ _ then _ else _);
      cbn [mbind result_bind mret result_ret]; [|apply failed_consistent].
    apply scored_consistent. vm_compute. discriminate.
  - unfold _detect_mask_attack, try_default.
    destruct (_calculate_texture_uniformity _ _ _);
      cbn [mbind result_bind mret result_ret]; [|apply failed_consistent].
    destruct (_calculate_skin_detail _ _ _);
      cbn [mbind result_bind mret result_ret]; [|apply failed_consistent].
    destruct (color_variance region); cbn [mbind result_bind mret result_ret];
      [|apply failed_consistent].
    apply scored_consistent. vm_compute. discriminate.
  - unfold _detect_3d_mask, try_default.
    destruct (_estimate_face_depth _ _ _);
      cbn [mbind result_bind mret result_ret]; [|apply failed_consistent].
    destruct (if frames_longer_than _ _ _ then _ else _);
      cbn [mbind result_bind mret result_ret]; [|apply failed_consistent].
    destruct (_analyze_reflection_pattern _ _ _);
      cbn [mbind result_bind mret result_ret]; [|apply failed_consistent].
    apply scored_consistent. vm_compute. discriminate.
  - unfold _detect_photo_quality, try_default.
    destruct (edge_sharpness region); cbn [mbind result_bind mret result_ret];
      [|apply failed_consistent].
    destruct (_analyze_noise_pattern _ _ _);
      cbn [mbind result_bind mret result_ret]; [|apply failed_consistent].
    destruct (_check_lighting_consistency _ _ _);
      cbn [mbind result_bind mret result_ret]; [|apply failed_consistent].
    apply scored_consistent. vm_compute. discriminate.
Qed.

Variable set_order : list string -> list string.
Hypothesis set_order_elements : forall l x, x ∈ set_order l <-> x ∈ l.

Local Abbreviation spoof :=
  (detect_spoof Image crop lbp_variance saturation grid_score
     gradient_reflection refresh_ratio block_std_dispersion laplacian_var
     color_variance direction_consistency_by_pi expression_variation
     highlight_ratio edge_sharpness noise_level brightness_diff set_order).

(** X13. A spoof verdict always comes with a label: when the mean of
    the five method scores exceeds 0.7, one score does, and each method
    raises its own flag at a threshold of at most 0.7.  The label is one
    of the five method labels. *)
Theorem spoof_verdict_has_label (image : Image) (face_bbox : option (list Z))
  (temporal_frames : option (list Image)) :
  spoof image face_bbox temporal_frames !! "is_spoof" = Some (VBool true) ->
  exists label,
    spoof image face_bbox temporal_frames !! "spoof_type" = Some (VStr label)
    /\ label ∈ ["printed_photo"; "screen_replay"; "mask"; "3d_mask";
                "photo_manipulation"].
Proof.
  intros Hspoof.
  destruct (face_region_of Image crop image face_bbox) as [region|e] eqn:Hregion.
  - rewrite (spoof_type_field crop lbp_variance saturation grid_score
               gradient_reflection refresh_ratio block_std_dispersion
               laplacian_var color_variance direction_consistency_by_pi
               expression_variation highlight_ratio edge_sharpness noise_level
               brightness_diff set_order image face_bbox temporal_frames region
               Hregion).
    unfold detect_spoof, detect_spoof_body in Hspoof. rewrite Hregion in Hspoof.
    cbn [mbind result_bind mret result_ret try_except] in Hspoof.
    rewrite lookup_insert_eq in Hspoof. injection Hspoof as Hmean.
    apply Qltb_lt in Hmean.
    set (rs := methods region temporal_frames) in *.
    change (0.7 < np_mean (score <$> (snd <$> rs))) in Hmean.
    apply np_mean_gt_exists in Hmean; [|by subst rs].
    destruct Hmean as (x & Hx & Hgt).
    apply list_elem_of_fmap in Hx as (r & -> & Hr).
    pose proof (methods_consistent region temporal_frames) as Hcons.
    rewrite Forall_forall in Hcons. specialize (Hcons r Hr Hgt).
    assert (Hin : type r ∈ indicators_of rs).
    { unfold indicators_of. apply list_elem_of_fmap. exists r. split; [done|].
      apply list_elem_of_filter. split; [exact Hcons|exact Hr]. }
    assert (Hne : indicators_of rs <> []).
    { intros Hnil. rewrite Hnil in Hin. by apply elem_of_nil in Hin. }
    destruct (spoof_type_of_nonempty set_order set_order_elements _ Hne)
      as (label & _ & _ & Hlabel & Hmem & _).
    exists label. rewrite Hlabel. split; [reflexivity|].
    unfold indicators_of in Hmem.
    apply list_elem_of_fmap in Hmem as (r' & -> & Hr').
    apply list_elem_of_filter in Hr' as [_ Hr'].
    rewrite <- (method_labels lbp_variance saturation grid_score
                  gradient_reflection refresh_ratio block_std_dispersion
                  laplacian_var color_variance direction_consistency_by_pi
                  expression_variation highlight_ratio edge_sharpness noise_level
                  brightness_diff region temporal_frames).
    apply list_elem_of_fmap. eauto.
  - unfold detect_spoof, detect_spoof_body in Hspoof. rewrite Hregion in Hspoof.
    discriminate Hspoof.
Qed.

End SpoofVerdict.

(** X13 on a face region whose screen pattern and highlights are at
    their maximum and every other measurement is 0: the mean score is
    0.78. *)
Lemma spoof_verdict_has_label_witness :
  exists label,
    AntiSpoof.detect_spoof Scenario.image (fun i _ _ _ _ => i)
      Scenario.zero Scenario.zero (fun _ => Ok 1.0) (fun _ => Ok 1.0)
      Scenario.zero_frames Scenario.no_dispersion Scenario.zero Scenario.zero
      Scenario.zero Scenario.zero_frames Scenario.zero Scenario.zero
      Scenario.zero Scenario.zero Scenario.in_list_order
      Scenario.Selfie None None !! "spoof_type" = Some (VStr label)
    /\ label ∈ ["printed_photo"; "screen_replay"; "mask"; "3d_mask";
                "photo_manipulation"].
Proof.
  refine (spoof_verdict_has_label (fun i _ _ _ _ => i)
            Scenario.zero Scenario.zero (fun _ => Ok 1.0) (fun _ => Ok 1.0)
            Scenario.zero_frames Scenario.no_dispersion Scenario.zero Scenario.zero
            Scenario.zero Scenario.zero_frames Scenario.zero Scenario.zero
            Scenario.zero Scenario.zero Scenario.in_list_order _
            Scenario.Selfie None None _).
  - intros l x. apply elem_of_remove_dups.
  - vm_compute. reflexivity.
Defined.

(** ** The indicators of the document analyzer
       (document_verification.py, lines 435-483) *)

Section DocumentIndicators.

Import DocumentVerification.

Lemma patterns_get_cases (document_type : string) :
  (document_type = "passport"
   /\ required_fields_of document_type
      = ["document_number"; "surname"; "given_names"; "nationality"; "dob";
         "expiry"; "sex"])
  \/ (document_type = "driver_license"
      /\ required_fields_of document_type
         = ["license_number"; "name"; "address"; "dob"; "expiry"; "class"])
  \/ (document_type = "id_card"
      /\ required_fields_of document_type
         = ["id_number"; "name"; "dob"; "expiry"; "address"])
  \/ (document_type <> "passport" /\ document_type <> "driver_license"
      /\ document_type <> "id_card"
      /\ required_fields_of document_type = []).
Proof.
  destruct (decide (document_type = "passport")) as [->|H1]; [left; done|].
  destruct (decide (document_type = "driver_license")) as [->|H2];
    [right; left; done|].
  destruct (decide (document_type = "id_card")) as [->|H3];
    [right; right; left; done|].
  right. right. right. repeat split; try done.
  unfold required_fields_of, patterns_get, document_patterns.
  cbn [list_to_map foldr fst snd uncurry].
  rewrite !lookup_insert_ne by done. by rewrite lookup_empty.
Qed.

Lemma missing_fields_eq (required : list string) (extracted_data : gmap string string) :
  missing_fields required extracted_data
  = (if mem "name" required && negb (has_key "name" extracted_data)
     then ["name"] else [])
    ++ (if mem "document_number" required
           && negb (has_key "document_number" extracted_data)
        then ["document_number"] else []).
Proof.
  unfold missing_fields. rewrite !filter_cons, filter_nil.
  destruct (mem "name" required), (has_key "name" extracted_data),
    (mem "document_number" required), (has_key "document_number" extracted_data);
    repeat case_decide; simpl; try reflexivity; exfalso;
    repeat match goal with
           | H : _ /\ _ |- _ => destruct H
           | H : ~ (_ /\ _) |- _ => apply H; split; reflexivity
           end; discriminate.
Qed.

(** The indicators for missing fields: which field can be flagged
    depends on the document type alone. *)
Lemma missing_part (document_type : string) (extracted_data : gmap string string) :
  let missing :=
    (fun field => "missing_" +:+ field)
      <$> missing_fields (required_fields_of document_type) extracted_data in
  (document_type = "passport"
   /\ missing = if has_key "document_number" extracted_data then []
                else ["missing_document_number"])
  \/ ((document_type = "driver_license" \/ document_type = "id_card")
      /\ missing = if has_key "name" extracted_data then [] else ["missing_name"])
  \/ (document_type <> "passport" /\ document_type <> "driver_license"
      /\ document_type <> "id_card" /\ missing = []).
Proof.
  cbv zeta. rewrite missing_fields_eq.
  destruct (patterns_get_cases document_type)
    as [[Ht ->]|[[Ht ->]|[[Ht ->]|(H1 & H2 & H3 & ->)]]].
  - left. split; [exact Ht|].
    by destruct (has_key "name" _), (has_key "document_number" _).
  - right. left. split; [by left|].
    by destruct (has_key "name" _), (has_key "document_number" _).
  - right. left. split; [by right|].
    by destruct (has_key "name" _), (has_key "document_number" _).
  - right. right. repeat split; try done.
Qed.

Context {Image : Type}.
Variable now : datetime.
Variable _parse_date : string -> result datetime.
Variable laplacian_var : Image -> result Q.
Variable brightness_std_dispersion : Image -> result Q.
Variable histogram_correlation : Image -> Image -> result Q.

Local Abbreviation indicators :=
  (_detect_fraud_indicators Image now _parse_date laplacian_var
     brightness_std_dispersion histogram_correlation).

Lemma missing_flags (front_image back_image : option Image)
  (extracted_data : gmap string string) (document_type : string) :
  ("missing_document_number"
     ∈ indicators front_image back_image extracted_data document_type
   <-> document_type = "passport" /\ extracted_data !! "document_number" = None)
  /\ ("missing_name"
        ∈ indicators front_image back_image extracted_data document_type
      <-> (document_type = "driver_license" \/ document_type = "id_card")
          /\ extracted_data !! "name" = None).
Proof.
  unfold _detect_fraud_indicators. rewrite !elem_of_app.
  pose proof (missing_part document_type extracted_data) as Hm. cbv zeta in Hm.
  set (missing := (fun field => "missing_" +:+ field) <$> _) in *.
  assert (Hb : forall x (l : list string),
             (l = [] \/ exists y, l = [y] /\ x <> y) -> ~ x ∈ l).
  { intros x l [->|(y & -> & Hne)] Hin; [by apply elem_of_nil in Hin|].
    apply elem_of_cons in Hin as [->|Hin]; [done|by apply elem_of_nil in Hin]. }
  assert (Hblur : forall x, x <> "blurry_image" ->
            ~ x ∈ match front_image with
                  | Some img =>
                      if Qltb (_calculate_blur_score Image laplacian_var img) 0.3
                      then ["blurry_image"] else []
                  | None => []
                  end).
  { intros x Hx. apply Hb. destruct front_image as [img|]; [|by left].
    destruct (Qltb _ _); [right; eauto|by left]. }
  assert (Hdates : forall x, x <> "expired_document" -> x <> "invalid_date_format" ->
            ~ x ∈ match extracted_data !! "expiry_date" with
                  | Some d =>
                      match _parse_date d with
                      | Ok expiry =>
                          if (expiry <? now)%Z then ["expired_document"] else []
                      | Raise _ => ["invalid_date_format"]
                      end
                  | None => []
                  end).
  { intros x Hx1 Hx2. apply Hb. destruct (extracted_data !! "expiry_date"); [|by left].
    destruct (_parse_date _); [destruct (_ <? _)%Z|]; [right|left|right]; eauto. }
  assert (Htamper : forall x, x <> "possible_tampering" ->
            ~ x ∈ match front_image with
                  | Some img =>
                      if Qltb 0.7 (_detect_tampering Image brightness_std_dispersion img)
                      then ["possible_tampering"] else []
                  | None => []
                  end).
  { intros x Hx. apply Hb. destruct front_image as [img|]; [|by left].
    destruct (Qltb 0.7 _); [right; eauto|by left]. }
  assert (Hsides : forall x, x <> "inconsistent_document_sides" ->
            ~ x ∈ match front_image, back_image with
                  | Some f, Some b =>
                      if Qltb (_check_consistency Image histogram_correlation f b) 0.5
                      then ["inconsistent_document_sides"] else []
                  | _, _ => []
                  end).
  { intros x Hx. apply Hb. destruct front_image as [f|]; [|by left].
    destruct back_image as [b|]; [|by left].
    destruct (Qltb (_check_consistency _ _ _ _) _); [right; eauto|by left]. }
  unfold has_key in Hm.
  split.
  - split.
    + intros [H|[H|[H|[H|H]]]].
      * by apply Hblur in H.
      * destruct Hm as [[Ht Hm]|[[Ht Hm]|(_ & _ & _ & Hm)]]; rewrite Hm in H.
        -- split; [exact Ht|].
           destruct (extracted_data !! "document_number"); [|done].
           by apply elem_of_nil in H.
        -- exfalso. destruct (bool_decide _).
           ++ by apply elem_of_nil in H.
           ++ apply elem_of_cons in H as [H|H]; [discriminate H|by apply elem_of_nil in H].
        -- by apply elem_of_nil in H.
      * by apply Hdates in H.
      * by apply Htamper in H.
      * by apply Hsides in H.
    + intros [-> Hnone]. right. left.
      destruct Hm as [[_ Hm]|[[[Ht|Ht] _]|(Ht & _)]]; try done.
      rewrite Hm, Hnone. by left.
  - split.
    + intros [H|[H|[H|[H|H]]]].
      * by apply Hblur in H.
      * destruct Hm as [[Ht Hm]|[[Ht Hm]|(_ & _ & _ & Hm)]]; rewrite Hm in H.
        -- exfalso. destruct (bool_decide _).
           ++ by apply elem_of_nil in H.
           ++ apply elem_of_cons in H as [H|H]; [discriminate H|by apply elem_of_nil in H].
        -- split; [exact Ht|].
           destruct (extracted_data !! "name"); [|done].
           by apply elem_of_nil in H.
        -- by apply elem_of_nil in H.
      * by apply Hdates in H.
      * by apply Htamper in H.
      * by apply Hsides in H.
    + intros [Ht Hnone]. right. left.
      destruct Hm as [[-> _]|[[_ Hm]|(H1 & H2 & H3 & _)]].
      * destruct Ht as [Ht|Ht]; discriminate Ht.
      * rewrite Hm, Hnone. by left.
      * destruct Ht; done.
Qed.

(** X14. Which missing field the document analyzer can flag is fixed by
    the document type: for a passport only the document number, for a
    driving licence or an identity card only the name (their patterns list
    license_number and id_number, never document_number), for any other
    type nothing. *)
Theorem missing_field_flags_by_type (front_image back_image : option Image)
  (extracted_data : gmap string string) (document_type : string) :
  let fraud_indicators :=
    _detect_fraud_indicators Image now _parse_date laplacian_var
      brightness_std_dispersion histogram_correlation
      front_image back_image extracted_data document_type in
  ("missing_document_number" ∈ fraud_indicators
   <-> document_type = "passport" /\ extracted_data !! "document_number" = None)
  /\ ("missing_name" ∈ fraud_indicators
      <-> (document_type = "driver_license" \/ document_type = "id_card")
          /\ extracted_data !! "name" = None)
  /\ (document_type = "id_card" \/ document_type = "driver_license" ->
      "missing_document_number" ∉ fraud_indicators).
Proof.
  intros fraud_indicators. subst fraud_indicators.
  destruct (missing_flags front_image back_image extracted_data document_type)
    as [Hnumber Hname].
  split; [exact Hnumber|]. split; [exact Hname|].
  intros Ht Hin. apply Hnumber in Hin as [-> _].
  destruct Ht as [Ht|Ht]; discriminate Ht.
Qed.


(** The blur score is below 0.3 only at its lowest step. *)
Lemma blur_below (img : Image) :
  Qltb (_calculate_blur_score Image laplacian_var img) 0.3 = true
  <-> exists v, laplacian_var img = Ok v /\ v <= 10.
Proof.
  unfold _calculate_blur_score.
  destruct (laplacian_var img) as [v|e]; simpl.
  - destruct (Qltb 100 v) eqn:E1; [|destruct (Qltb 50 v) eqn:E2;
      [|destruct (Qltb 20 v) eqn:E3; [|destruct (Qltb 10 v) eqn:E4]]].
    + apply Qltb_lt in E1. split; [discriminate|]. intros (v' & [= <-] & H). lra.
    + apply Qltb_lt in E2. split; [discriminate|]. intros (v' & [= <-] & H). lra.
    + apply Qltb_lt in E3. split; [discriminate|]. intros (v' & [= <-] & H). lra.
    + apply Qltb_lt in E4. split; [discriminate|]. intros (v' & [= <-] & H). lra.
    + apply Qltb_false in E4. split; [|reflexivity]. intros _. eauto.
  - split; [discriminate|]. intros (v & H & _). discriminate H.
Qed.

(** The list of indicators, part by part. *)
Lemma indicators_shape (front_image back_image : option Image)
  (extracted_data : gmap string string) (document_type : string) :
  exists m d t s,
    indicators front_image back_image extracted_data document_type
    = match front_image with
      | Some img =>
          if Qltb (_calculate_blur_score Image laplacian_var img) 0.3
          then ["blurry_image"] else []
      | None => []
      end ++ m ++ d ++ t ++ s
    /\ (m = [] \/ m = ["missing_name"] \/ m = ["missing_document_number"])
    /\ (d = [] \/ d = ["expired_document"] \/ d = ["invalid_date_format"])
    /\ (t = [] \/ t = ["possible_tampering"])
    /\ (s = [] \/ s = ["inconsistent_document_sides"]).
Proof.
  unfold _detect_fraud_indicators.
  eexists _, _, _, _. split; [reflexivity|].
  split; [|split; [|split]].
  - destruct (missing_part document_type extracted_data)
      as [[_ ->]|[[_ ->]|(_ & _ & _ & ->)]]; [| |auto].
    + destruct (has_key _ _); auto.
    + destruct (has_key _ _); auto.
  - destruct (extracted_data !! "expiry_date"); [|auto].
    destruct (_parse_date _); [destruct (_ <? _)%Z|]; auto.
  - destruct front_image; [destruct (Qltb 0.7 _)|]; auto.
  - destruct front_image; [|auto]. destruct back_image; [|auto].
    destruct (Qltb _ 0.5); auto.
Qed.

(** X15. The indicators of the document analyzer come from a vocabulary
    of seven names, none occurs twice, and there are at most five of them
    (a name and a document number are never both reported missing, and a
    date is expired or unreadable, not both).  The indicator blurry_image
    is reported exactly when the variance of the Laplacian of the front
    image can be computed and is at most 10. *)
Theorem document_indicators_bounded (front_image back_image : option Image)
  (extracted_data : gmap string string) (document_type : string) :
  let fraud_indicators :=
    _detect_fraud_indicators Image now _parse_date laplacian_var
      brightness_std_dispersion histogram_correlation
      front_image back_image extracted_data document_type in
  Forall (fun x => x ∈ ["blurry_image"; "missing_name"; "missing_document_number";
                        "expired_document"; "invalid_date_format";
                        "possible_tampering"; "inconsistent_document_sides"])
         fraud_indicators
  /\ NoDup fraud_indicators
  /\ (length fraud_indicators <= 5)%nat
  /\ ("blurry_image" ∈ fraud_indicators
      <-> exists img v,
            front_image = Some img /\ laplacian_var img = Ok v /\ v <= 10).
Proof.
  intros fraud_indicators. subst fraud_indicators.
  destruct (indicators_shape front_image back_image extracted_data document_type)
    as (m & d & t & s & -> & Hm & Hd & Ht & Hs).
  split; [|split; [|split]].
  - destruct front_image as [img|]; [destruct (Qltb _ 0.3)|];
      destruct Hm as [->|[->| ->]], Hd as [->|[->| ->]],
        Ht as [->| ->], Hs as [->| ->];
      apply (bool_decide_unpack _); vm_compute; reflexivity.
  - destruct front_image as [img|]; [destruct (Qltb _ 0.3)|];
      destruct Hm as [->|[->| ->]], Hd as [->|[->| ->]],
        Ht as [->| ->], Hs as [->| ->];
      apply (bool_decide_unpack _); vm_compute; reflexivity.
  - destruct front_image as [img|]; [destruct (Qltb _ 0.3)|];
      destruct Hm as [->|[->| ->]], Hd as [->|[->| ->]],
        Ht as [->| ->], Hs as [->| ->]; simpl; lia.
  - rewrite elem_of_app. split.
    + intros [H|H].
      * destruct front_image as [img|]; [|by apply elem_of_nil in H].
        destruct (Qltb _ 0.3) eqn:E; [|by apply elem_of_nil in H].
        apply blur_below in E as (v & Hv & Hle). eauto.
      * exfalso. revert H.
        destruct Hm as [->|[->| ->]], Hd as [->|[->| ->]],
          Ht as [->| ->], Hs as [->| ->];
          apply (bool_decide_unpack _); vm_compute; reflexivity.
    + intros (img & v & -> & Hv & Hle). left.
      assert (E : Qltb (_calculate_blur_score Image laplacian_var img) 0.3 = true)
        by (apply blur_below; eauto).
      rewrite E. by left.
Qed.

End DocumentIndicators.

(** X14 on an identity card without a document number: nothing is
    flagged for it. *)
Lemma missing_field_flags_by_type_witness :
  "missing_document_number"
    ∉ DocumentVerification._detect_fraud_indicators Scenario.image Scenario.today
        Scenario.parse_date (fun _ => Ok 150.0) Scenario.zero (fun _ _ => Ok 1.0)
        (Some Scenario.IdFront) None (<["name" := "JANE DOE"]> ∅) "id_card".
Proof.
  refine (proj2 (proj2 (missing_field_flags_by_type Scenario.today
                   Scenario.parse_date (fun _ => Ok 150.0) Scenario.zero
                   (fun _ _ => Ok 1.0) (Some Scenario.IdFront) None
                   (<["name" := "JANE DOE"]> ∅) "id_card")) _).
  by left.
Defined.

(** ** The validity decision inside [verify_document] *)

Section DocumentPipeline.

Import DocumentVerification.

Lemma required_field_missing_eq (document_type : string)
  (extracted_data : gmap string string) :
  required_field_missing document_type extracted_data
  = match missing_fields (required_fields_of document_type) extracted_data with
    | [] => false
    | _ => true
    end.
Proof.
  unfold required_field_missing, required_fields_of.
  destruct (patterns_get document_type); [reflexivity|].
  by rewrite missing_fields_eq.
Qed.

Context {Image : Type}.
Variable now : datetime.
Variable _parse_date : string -> result datetime.
Variable laplacian_var : Image -> result Q.
Variable brightness_std_dispersion : Image -> result Q.
Variable histogram_correlation : Image -> Image -> result Q.

Local Abbreviation indicators :=
  (_detect_fraud_indicators Image now _parse_date laplacian_var
     brightness_std_dispersion histogram_correlation).
Local Abbreviation valid := (_validate_document now _parse_date).

(** X16. On the indicators that [_detect_fraud_indicators] itself
    produced, as in [verify_document], the check of the required fields
    never decides: a missing required field is already a critical
    indicator.  The document is valid iff none of the four critical
    indicators is present, the quality is at least 0.4, the date of birth
    is not in the future and there are at most two indicators. *)
Theorem required_fields_check_is_redundant (front_image back_image : option Image)
  (extracted_data : gmap string string) (quality_score : Q) (document_type : string) :
  let fraud_indicators :=
    indicators front_image back_image extracted_data document_type in
  (required_field_missing document_type extracted_data = true ->
   "missing_name" ∈ fraud_indicators \/ "missing_document_number" ∈ fraud_indicators)
  /\ (valid extracted_data fraud_indicators quality_score document_type = true
      <-> Forall (fun c => c ∉ fraud_indicators) critical_indicators
          /\ 0.4 <= quality_score
          /\ dob_in_future now _parse_date extracted_data = false
          /\ (length fraud_indicators <= 2)%nat).
Proof.
  cbv zeta.
  assert (Hred : required_field_missing document_type extracted_data = true ->
            "missing_name"
              ∈ indicators front_image back_image extracted_data document_type
            \/ "missing_document_number"
                 ∈ indicators front_image back_image extracted_data document_type).
  { rewrite required_field_missing_eq. intros Hmiss.
    unfold _detect_fraud_indicators. rewrite !elem_of_app.
    destruct (missing_part document_type extracted_data)
      as [[_ Hm]|[[_ Hm]|(_ & _ & _ & Hm)]]; cbv zeta in Hm.
    - right. right. left. rewrite Hm.
      destruct (has_key "document_number" extracted_data); [|by left].
      apply fmap_nil_inv in Hm. rewrite Hm in Hmiss. discriminate.
    - left. right. left. rewrite Hm.
      destruct (has_key "name" extracted_data); [|by left].
      apply fmap_nil_inv in Hm. rewrite Hm in Hmiss. discriminate.
    - apply fmap_nil_inv in Hm. rewrite Hm in Hmiss. discriminate. }
  split; [exact Hred|].
  unfold _validate_document.
  set (inds := indicators front_image back_image extracted_data document_type) in *.
  destruct (existsb _ critical_indicators) eqn:Ec.
  - split; [discriminate|]. intros (Hc & _).
    apply critical_absent in Hc. congruence.
  - apply critical_absent in Ec.
    destruct (Qltb quality_score 0.4) eqn:Eq.
    { apply Qltb_lt in Eq. split; [discriminate|]. intros (_ & Hq & _). lra. }
    apply Qltb_false in Eq.
    destruct (required_field_missing document_type extracted_data) eqn:Er.
    { exfalso.
      unfold critical_indicators in Ec. rewrite !Forall_cons in Ec.
      destruct Ec as (_ & Hn & Hnm & _).
      destruct (Hred eq_refl); contradiction. }
    destruct (dob_in_future now _parse_date extracted_data).
    { split; [discriminate|]. intros (_ & _ & H & _). discriminate H. }
    rewrite Nat.leb_le. tauto.
Qed.

End DocumentPipeline.

(** X16 on a passport without a document number. *)
Lemma required_fields_check_is_redundant_witness :
  "missing_name"
    ∈ DocumentVerification._detect_fraud_indicators Scenario.image Scenario.today
        Scenario.parse_date (fun _ => Ok 150.0) Scenario.zero (fun _ _ => Ok 1.0)
        (Some Scenario.IdFront) None ∅ "passport"
  \/ "missing_document_number"
       ∈ DocumentVerification._detect_fraud_indicators Scenario.image Scenario.today
           Scenario.parse_date (fun _ => Ok 150.0) Scenario.zero (fun _ _ => Ok 1.0)
           (Some Scenario.IdFront) None ∅ "passport".
Proof.
  refine (proj1 (required_fields_check_is_redundant Scenario.today
                   Scenario.parse_date (fun _ => Ok 150.0) Scenario.zero
                   (fun _ _ => Ok 1.0) (Some Scenario.IdFront) None ∅ 0.9
                   "passport") _).
  vm_compute. reflexivity.
Defined.

(** ** The quality score of a document (document_verification.py, 229-272) *)

Section MapMOk.

Context {A B : Type} (f : A -> result B) (P : B -> Prop).

Lemma mapM_result_Forall (l : list A) (k : list B) :
  (forall a b, f a = Ok b -> P b) -> mapM f l = Ok k -> Forall P k.
Proof.
  intros HP. revert k. induction l as [|a l IH]; intros k.
  - intros [= <-]. constructor.
  - rewrite mapM_result_cons.
    destruct (f a) as [b|] eqn:Ea; cbn [mbind result_bind]; [|discriminate].
    destruct (mapM f l) as [k'|]; cbn [mbind result_bind mret result_ret];
      [|discriminate].
    intros [= <-]. constructor; [by eapply HP|by apply IH].
Qed.

Lemma mapM_result_length (l : list A) (k : list B) :
  mapM f l = Ok k -> length k = length l.
Proof.
  revert k. induction l as [|a l IH]; intros k.
  - by intros [= <-].
  - rewrite mapM_result_cons.
    destruct (f a) as [b|]; cbn [mbind result_bind]; [|discriminate].
    destruct (mapM f l) as [k'|]; cbn [mbind result_bind mret result_ret];
      [|discriminate].
    intros [= <-]. simpl. f_equal. by apply IH.
Qed.

End MapMOk.

Lemma np_mean_unit (xs : list Q) :
  Forall (fun x => 0 <= x /\ x <= 1) xs -> 0 <= np_mean xs /\ np_mean xs <= 1.
Proof.
  intros H. split.
  - apply np_mean_nonneg. eapply Forall_impl; [exact H|]. by intros x [? ?].
  - destruct xs as [|x xs]; [vm_compute; discriminate|].
    assert (Hs : sum (x :: xs) <= len (x :: xs) * 1).
    { apply sum_le_all. eapply Forall_impl; [exact H|]. by intros y [? ?]. }
    assert (Hl : 0 < len (x :: xs)) by (by apply len_pos).
    unfold np_mean. apply Qle_shift_div_r; [exact Hl|]. lra.
Qed.

Section DocumentQuality.

Import DocumentVerification.

Context {Image : Type}.
Variables laplacian_var brightness contrast : Image -> result Q.

Hypothesis variance_nonneg : forall img v, laplacian_var img = Ok v -> 0 <= v.
Hypothesis brightness_in_range :
  forall img b, brightness img = Ok b -> 0 <= b /\ b <= 1.
Hypothesis contrast_nonneg : forall img c, contrast img = Ok c -> 0 <= c.

Local Abbreviation blur := (_calculate_blur_score Image laplacian_var).
Local Abbreviation quality :=
  (_calculate_document_quality Image laplacian_var brightness contrast).

Lemma blur_score_range (img : Image) : 0.1 <= blur img /\ blur img <= 1.
Proof.
  unfold _calculate_blur_score. destruct (laplacian_var img) as [v|]; simpl.
  - destruct (Qltb 100 v); [vm_compute; split; discriminate|].
    destruct (Qltb 50 v); [vm_compute; split; discriminate|].
    destruct (Qltb 20 v); [vm_compute; split; discriminate|].
    destruct (Qltb 10 v); vm_compute; split; discriminate.
  - vm_compute; split; discriminate.
Qed.

Lemma img_score_range (img : Image) (s : Q) :
  img_score Image laplacian_var brightness contrast img = Ok s ->
  0 <= s /\ s <= 1.
Proof.
  unfold img_score.
  destruct (brightness img) as [b|] eqn:Eb; cbn [mbind result_bind]; [|discriminate].
  destruct (contrast img) as [c|] eqn:Ec; cbn [mbind result_bind]; [|discriminate].
  destruct (laplacian_var img) as [v|] eqn:Ev;
    cbn [mbind result_bind mret result_ret]; [|discriminate].
  intros H. assert (Hinj : forall x y : Q, Ok x = Ok y -> x = y)
    by (intros x y [= ->]; reflexivity).
  apply Hinj in H. clear Hinj. subst s.
  apply brightness_in_range in Eb. apply contrast_nonneg in Ec.
  pose proof (variance_nonneg img v Ev) as Hv.
  pose proof (blur_score_range img) as Hblur.
  assert (Habs : 0 <= Qabs (b - 0.5) /\ Qabs (b - 0.5) <= 0.5).
  { split; [apply Qabs_nonneg|]. apply Qabs_Qle_condition. split; lra. }
  assert (Hc : 0 <= Qmin (c * 2) 1.0 /\ Qmin (c * 2) 1.0 <= 1).
  { split; [apply Q.min_glb; lra|].
    apply Qle_trans with 1.0; [apply Q.le_min_r|lra]. }
  assert (Hs : 0 <= Qmin (v / 1000.0) 1.0 /\ Qmin (v / 1000.0) 1.0 <= 1).
  { split.
    - apply Q.min_glb; [|lra]. apply Qdiv_nonneg; lra.
    - apply Qle_trans with 1.0; [apply Q.le_min_r|lra]. }
  set (a := Qabs (b - 0.5)) in *. set (cs := Qmin (c * 2) 1.0) in *.
  set (ss := Qmin (v / 1000.0) 1.0) in *.
  set (bl := blur img) in *.
  unfold Qdiv. change (/ 0.5) with (10 # 5).
  split; lra.
Qed.

(** X17. The quality score of a document is in [0, 1] when the
    measurements are in their natural ranges (variance and contrast
    non-negative, brightness in [0, 1]); it is 0.5 when a measurement
    raises and 0.0 when there is no image. *)
Theorem document_quality_in_range (front_image back_image : option Image) :
  let quality_score :=
    _calculate_document_quality Image laplacian_var brightness contrast in
  (0 <= quality_score front_image back_image
   /\ quality_score front_image back_image <= 1)
  /\ quality_score None None = 0.0
  /\ (forall img e,
        front_image = Some img -> brightness img = Raise e ->
        quality_score front_image back_image = 0.5).
Proof.
  intros quality_score. subst quality_score.
  split; [|split].
  - unfold _calculate_document_quality.
    destruct (mapM _ _) as [scores|] eqn:E; simpl; [|lra].
    apply (mapM_result_Forall _ (fun x => 0 <= x /\ x <= 1)) in E;
      [|apply img_score_range].
    destruct scores as [|s scores]; [lra|]. by apply np_mean_unit.
  - reflexivity.
  - intros img e -> Hb. unfold _calculate_document_quality.
    assert (Hi : img_score Image laplacian_var brightness contrast img = Raise e).
    { unfold img_score. rewrite Hb. reflexivity. }
    cbn [omap list_omap id]. rewrite mapM_result_cons, Hi. reflexivity.
Qed.

End DocumentQuality.

(** X17 on a sharp, evenly lit card: the quality is 0.83. *)
Lemma document_quality_in_range_witness :
  0 <= DocumentVerification._calculate_document_quality Scenario.image
         (fun _ => Ok 150.0) (fun _ => Ok 0.5) (fun _ => Ok 0.5)
         (Some Scenario.IdFront) None
  /\ DocumentVerification._calculate_document_quality Scenario.image
       (fun _ => Ok 150.0) (fun _ => Ok 0.5) (fun _ => Ok 0.5)
       (Some Scenario.IdFront) None <= 1.
Proof.
  refine (proj1 (document_quality_in_range (fun _ => Ok 150.0) (fun _ => Ok 0.5)
                   (fun _ => Ok 0.5) _ _ _ (Some Scenario.IdFront) None)).
  - intros img v [= <-]. vm_compute. discriminate.
  - intros img b [= <-]. vm_compute. split; discriminate.
  - intros img c [= <-]. vm_compute. discriminate.
Defined.

(** ** The metrics collector (utils/metrics.py) *)

Section MetricsLock.

Import Metrics.

Lemma get_all_metrics_models (self : MetricsCollector) (names : list string) :
  mapM (fun name => d ← get_model_metrics true self name; mret (name, VDict d))
       names
  = match names with
    | [] => Returns []
    | _ => Blocks
    end.
Proof. by destruct names. Qed.

(** X18. [get_all_metrics] calls [get_model_metrics] for every recorded
    model while it holds the lock, and [get_model_metrics] acquires the
    same non-reentrant lock: the call returns only while nothing has been
    recorded, and waits for ever as soon as one inference has been.  So
    does [get_health_status], which therefore never reports "healthy": it
    can answer only with no inference on record. *)
Theorem get_all_metrics_deadlocks (self : MetricsCollector) (now1 now2 : Q) :
  (get_all_metrics false self now1 now2 = Blocks <-> metrics self <> ∅)
  /\ (forall model_name processing_time success now self',
        record_inference false self model_name processing_time success now
          = Returns self' ->
        get_all_metrics false self' now1 now2 = Blocks
        /\ get_health_status false self' now1 now2 = Blocks)
  /\ (forall d,
        get_health_status false self now1 now2 = Returns d ->
        metrics self = ∅ /\ d !! "status" = Some (VStr "degraded")).
Proof.
  assert (Hall : forall c : MetricsCollector,
             (metrics c = ∅ ->
              get_all_metrics false c now1 now2
              = Returns (<["uptime" := VFloat (now1 - start_time c)]>
                        (<["total_inferences" := VInt 0]>
                        (<["overall_success_rate" := VInt 0]>
                        (<["models" := VDict ∅]>
                        (<["timestamp" := VFloat now2]> ∅))))))
             /\ (metrics c <> ∅ -> get_all_metrics false c now1 now2 = Blocks)).
  { intros c. unfold get_all_metrics, with_lock.
    rewrite get_all_metrics_models. split.
    - intros ->. rewrite map_to_list_empty. reflexivity.
    - intros Hne.
      destruct (map_to_list (metrics c)) as [|kv l] eqn:E; [|reflexivity].
      apply map_to_list_empty_iff in E. contradiction. }
  split; [|split].
  - split.
    + intros Hb Hempty. rewrite (proj1 (Hall self) Hempty) in Hb. discriminate.
    + apply Hall.
  - intros model_name processing_time success now self' Hrec.
    unfold record_inference, with_lock in Hrec. injection Hrec as <-.
    assert (Hb : get_all_metrics false
                   {| metrics :=
                        <[model_name :=
                            update (default fresh (metrics self !! model_name))
                                   processing_time success now]> (metrics self);
                      start_time := start_time self |} now1 now2 = Blocks).
    { apply Hall. simpl. apply insert_non_empty. }
    split; [exact Hb|]. unfold get_health_status. rewrite Hb. reflexivity.
  - intros d Hd. unfold get_health_status in Hd.
    destruct (decide (metrics self = ∅)) as [Hempty|Hne].
    + split; [exact Hempty|].
      rewrite (proj1 (Hall self) Hempty) in Hd.
      cbn [mbind run_bind mret run_ret] in Hd. injection Hd as <-. reflexivity.
    + rewrite (proj2 (Hall self) Hne) in Hd. discriminate.
Qed.

End MetricsLock.

(** X18 after one recorded inference. *)
Lemma get_all_metrics_deadlocks_witness :
  exists self,
    Metrics.record_inference false (Metrics.init 0) "verify-kyc" 0.25 true 10
      = Metrics.Returns self
    /\ Metrics.get_all_metrics false self 11 12 = Metrics.Blocks
    /\ Metrics.get_health_status false self 11 12 = Metrics.Blocks.
Proof.
  eexists. split; [reflexivity|].
  refine (proj1 (proj2 (get_all_metrics_deadlocks (Metrics.init 0) 11 12))
            "verify-kyc" 0.25 true 10 _ eq_refl).
Defined.

Section MetricsAccounting.

Import Metrics.

(** The inferences recorded for one model, and their times. *)
Local Abbreviation of_model name inferences :=
  (filter (fun i : string * Q * bool * Q => i.1.1.1 = name) inferences).
Local Abbreviation times inferences :=
  ((fun i : string * Q * bool * Q => i.1.1.2) <$> inferences).
Local Abbreviation successes inferences :=
  (filter (fun i : string * Q * bool * Q => i.1.2 = true) inferences).
Local Abbreviation entry self name := (default fresh (metrics self !! name)).

Lemma record_inference_entry (self : MetricsCollector) (model_name : string)
  (processing_time : Q) (success : bool) (now : Q) (name : string) :
  exists self',
    record_inference false self model_name processing_time success now
      = Returns self'
    /\ entry self' name
       = (if decide (model_name = name)
          then update (entry self name) processing_time success now
          else entry self name)
    /\ (metrics self' !! name = None
        <-> metrics self !! name = None /\ model_name <> name).
Proof.
  eexists. split; [reflexivity|]. simpl.
  destruct (decide (model_name = name)) as [->|Hne].
  - rewrite lookup_insert_eq. split; [reflexivity|].
    split; [discriminate|]. intros [_ H]. congruence.
  - rewrite lookup_insert_ne by done. split; [reflexivity|]. tauto.
Qed.

Lemma record_all_entry (inferences : list (string * Q * bool * Q))
  (self : MetricsCollector) (name : string) :
  exists self',
    record_all self inferences = Returns self'
    /\ total_inferences (entry self' name)
       = (total_inferences (entry self name)
          + length (of_model name inferences))%nat
    /\ success_count (entry self' name)
       = (success_count (entry self name)
          + length (successes (of_model name inferences)))%nat
    /\ (success_count (entry self' name) + error_count (entry self' name)
        = success_count (entry self name) + error_count (entry self name)
          + length (of_model name inferences))%nat
    /\ total_processing_time (entry self' name)
       == total_processing_time (entry self name)
          + sum (times (of_model name inferences))
    /\ (of_model name inferences <> [] ->
        avg_processing_time (entry self' name)
        == total_processing_time (entry self' name)
           / inject_Z (Z.of_nat (total_inferences (entry self' name))))
    /\ (metrics self' !! name = None
        <-> metrics self !! name = None /\ of_model name inferences = []).
Proof.
  revert self. induction inferences as [|[[[n pt] s] t] rest IH]; intros self.
  - exists self. split; [reflexivity|]. rewrite !filter_nil.
    split; [simpl; lia|]. split; [simpl; lia|]. split; [simpl; lia|].
    split; [unfold sum; simpl; ring|]. split; [congruence|]. tauto.
  - destruct (record_inference_entry self n pt s t name) as (c1 & Hrec & He & Hnone).
    destruct (IH c1) as (c2 & Hall & Ht & Hs & Hse & Htime & Havg & Hnone2).
    exists c2. split.
    { cbn [record_all]. rewrite Hrec. exact Hall. }
    rewrite filter_cons. cbn [fst snd].
    destruct (decide (n = name)) as [->|Hne].
    + rewrite He in Ht, Hs, Hse, Htime.
      cbn [update total_inferences success_count error_count
           total_processing_time] in Ht, Hs, Hse, Htime.
      split; [simpl length; lia|]. split.
      { rewrite filter_cons. cbn [fst snd].
        destruct s; [rewrite decide_True by done|rewrite decide_False by done];
          simpl length; lia. }
      split; [destruct s; simpl length; lia|].
      split; [rewrite Htime, fmap_cons, sum_cons; cbn [fst snd]; ring|]. split.
      * intros _.
        destruct (of_model name rest) as [|i l] eqn:Erest.
        -- assert (Hsame : entry c2 name = entry c1 name).
           { revert Hall Erest. clear. revert c1 c2.
             induction rest as [|[[[n' pt'] s'] t'] rest IH]; intros c1 c2 Hall Erest.
             - cbn in Hall. by injection Hall as <-.
             - rewrite filter_cons in Erest. cbn [fst snd] in Erest.
               destruct (decide (n' = name)) as [->|Hne]; [discriminate|].
               cbn [record_all] in Hall.
               destruct (record_inference_entry c1 n' pt' s' t' name)
                 as (c1' & Hrec & He & _).
               rewrite Hrec in Hall. cbn [mbind run_bind] in Hall.
               rewrite (IH c1' c2 Hall Erest), He.
               by rewrite decide_False. }
           rewrite Hsame, He. reflexivity.
        -- apply Havg. discriminate.
      * rewrite Hnone2, Hnone. split; [intros [[_ H] _]; congruence|].
        intros [_ H]. discriminate H.
    + rewrite He in Ht, Hs, Hse, Htime.
      split; [exact Ht|]. split; [exact Hs|]. split; [exact Hse|].
      split; [exact Htime|]. split; [exact Havg|].
      rewrite Hnone2, Hnone. tauto.
Qed.

(** X19. After any sequence of recorded inferences on a new collector,
    the entry of a model counts exactly the inferences recorded under its
    name, successes and errors add up to that count, the total time is the
    sum of their processing times and the average is their mean; a model
    never recorded has no entry. *)
Theorem recorded_metrics_account (start : Q)
  (inferences : list (string * Q * bool * Q)) (name : string) :
  exists self,
    record_all (init start) inferences = Returns self
    /\ total_inferences (entry self name) = length (of_model name inferences)
    /\ success_count (entry self name)
       = length (successes (of_model name inferences))
    /\ (success_count (entry self name) + error_count (entry self name)
        = total_inferences (entry self name))%nat
    /\ total_processing_time (entry self name)
       == sum (times (of_model name inferences))
    /\ (of_model name inferences <> [] ->
        avg_processing_time (entry self name)
        == np_mean (times (of_model name inferences)))
    /\ (metrics self !! name = None <-> of_model name inferences = []).
Proof.
  destruct (record_all_entry inferences (init start) name)
    as (self & Hall & Ht & Hs & Hse & Htime & Havg & Hnone).
  exists self. split; [exact Hall|].
  change (entry (init start) name) with fresh in *. simpl in Ht, Hs, Hse, Htime.
  split; [exact Ht|]. split; [exact Hs|]. split; [lia|].
  assert (Htime' : total_processing_time (entry self name)
                   == sum (times (of_model name inferences))).
  { rewrite Htime. ring. }
  split; [exact Htime'|]. split.
  - intros Hne. rewrite (Havg Hne), Htime', Ht. unfold np_mean, len.
    by rewrite length_fmap.
  - rewrite Hnone. simpl. rewrite lookup_empty. tauto.
Qed.

End MetricsAccounting.

(** X19 on three inferences, two of them of the liveness model. *)
Lemma recorded_metrics_account_witness :
  exists self,
    Metrics.record_all (Metrics.init 0)
      [("liveness", 0.2, true, 1); ("kyc", 0.5, false, 2); ("liveness", 0.4, true, 3)]
    = Metrics.Returns self
    /\ Metrics.avg_processing_time
         (default Metrics.fresh (Metrics.metrics self !! "liveness")) == 0.3.
Proof.
  destruct (recorded_metrics_account 0
              [("liveness", 0.2, true, 1); ("kyc", 0.5, false, 2);
               ("liveness", 0.4, true, 3)] "liveness")
    as (self & Hall & _ & _ & _ & _ & Havg & _).
  exists self. split; [exact Hall|].
  eapply Qeq_trans; [apply Havg|].
  - intros H. vm_compute in H. discriminate H.
  - vm_compute. reflexivity.
Defined.

(** ** Image quality (image_utils.py 151-192, image_processor.py 139-230) *)

Section ImageQuality.

Import ImageProcessor.

Context {Image : Type}.
Variables laplacian_var gray_mean gray_std : Image -> result Q.
Variable shape : Image -> Z * Z.
Variables enhance_image resize_image binarize_and_deskew : Image -> result Image.

Local Abbreviation quality_of :=
  (_calculate_image_quality Image laplacian_var gray_mean gray_std shape).

(** The fields of a computed quality in terms of the measurements. *)
Lemma quality_fields (image : Image) (q : ImageQuality) :
  quality_of image = Ok q ->
  exists v m s,
    laplacian_var image = Ok v /\ gray_mean image = Ok m /\ gray_std image = Ok s
    /\ blur_score q = Qmin (v / 100.0) 1.0
    /\ brightness q = m / 255.0
    /\ contrast q = Qmin (s / 128.0) 1.0
    /\ overall_score q
       = blur_score q * 0.4 + Qmin (Qabs (brightness q - 0.5) * 2) 1.0 * 0.3
         + contrast q * 0.3.
Proof.
  unfold _calculate_image_quality, detect_blur, calculate_brightness,
    calculate_contrast.
  destruct (laplacian_var image) as [v|]; cbn [mbind result_bind mret result_ret];
    [|discriminate].
  destruct (gray_mean image) as [m|]; cbn [mbind result_bind mret result_ret];
    [|discriminate].
  destruct (gray_std image) as [s|]; cbn [mbind result_bind mret result_ret];
    [|discriminate].
  intros H. exists v, m, s.
  assert (Hinj : forall x y : ImageQuality, Ok x = Ok y -> x = y)
    by (intros x y [= ->]; reflexivity).
  apply Hinj in H. subst q. repeat split; reflexivity.
Qed.

(** X20. The overall quality score of [ImageProcessor] grows with the
    distance of the brightness from mid-grey: of two images with the same
    blur score and contrast, the one whose brightness is further from 0.5
    never scores lower, and an image of brightness exactly 0.5 gets
    nothing for its brightness.  For measurements in their natural ranges
    the overall score is in [0, 1]. *)
Theorem overall_score_rewards_extreme_brightness (image1 image2 : Image)
  (q1 q2 : ImageQuality) :
  quality_of image1 = Ok q1 ->
  quality_of image2 = Ok q2 ->
  (blur_score q1 == blur_score q2 -> contrast q1 == contrast q2 ->
   Qabs (brightness q1 - 0.5) <= Qabs (brightness q2 - 0.5) ->
   overall_score q1 <= overall_score q2)
  /\ (brightness q1 == 0.5 ->
      overall_score q1 == blur_score q1 * 0.4 + contrast q1 * 0.3)
  /\ ((forall v, laplacian_var image1 = Ok v -> 0 <= v) ->
      (forall s, gray_std image1 = Ok s -> 0 <= s) ->
      0 <= overall_score q1 /\ overall_score q1 <= 1).
Proof.
  intros H1 H2.
  destruct (quality_fields image1 q1 H1)
    as (v1 & m1 & s1 & Hv1 & Hm1 & Hs1 & Hb1 & Hbr1 & Hc1 & Ho1).
  destruct (quality_fields image2 q2 H2)
    as (v2 & m2 & s2 & _ & _ & _ & _ & _ & _ & Ho2).
  split; [|split].
  - intros Hb Hc Habs. rewrite Ho1, Ho2, Hb, Hc.
    assert (Hmin : Qmin (Qabs (brightness q1 - 0.5) * 2) 1.0
                   <= Qmin (Qabs (brightness q2 - 0.5) * 2) 1.0).
    { apply Q.min_le_compat_r. lra. }
    lra.
  - intros Hbr. rewrite Ho1, Hbr.
    assert (Hz : Qmin (Qabs (0.5 - 0.5) * 2) 1.0 == 0) by reflexivity.
    rewrite Hz. ring.
  - intros Hv Hs. specialize (Hv v1 Hv1). specialize (Hs s1 Hs1).
    assert (Hblur : 0 <= blur_score q1 /\ blur_score q1 <= 1).
    { rewrite Hb1. split.
      - apply Q.min_glb; [|lra]. apply Qdiv_nonneg; lra.
      - apply Qle_trans with 1.0; [apply Q.le_min_r|lra]. }
    assert (Hcon : 0 <= contrast q1 /\ contrast q1 <= 1).
    { rewrite Hc1. split.
      - apply Q.min_glb; [|lra]. apply Qdiv_nonneg; lra.
      - apply Qle_trans with 1.0; [apply Q.le_min_r|lra]. }
    assert (Hbt : 0 <= Qmin (Qabs (brightness q1 - 0.5) * 2) 1.0
                  /\ Qmin (Qabs (brightness q1 - 0.5) * 2) 1.0 <= 1).
    { split.
      - apply Q.min_glb; [|lra]. pose proof (Qabs_nonneg (brightness q1 - 0.5)). lra.
      - apply Qle_trans with 1.0; [apply Q.le_min_r|lra]. }
    rewrite Ho1. lra.
Qed.


Lemma Qmin_ge_inv (x a : Q) : a <= Qmin x 1.0 -> a <= x.
Proof. intros H. pose proof (Q.le_min_l x 1.0). lra. Qed.

Lemma Qdiv_ge_inv (a b c : Q) : 0 < c -> a <= b / c -> a * c <= b.
Proof.
  intros Hc H. assert (Hb : b == b / c * c) by (field; lra).
  rewrite Hb. apply Qmult_le_compat_r; lra.
Qed.

Lemma Qdiv_le_inv (a b c : Q) : 0 < c -> b / c <= a -> b <= a * c.
Proof.
  intros Hc H. assert (Hb : b == b / c * c) by (field; lra).
  rewrite Hb. apply Qmult_le_compat_r; lra.
Qed.

(** X21. What [ImageProcessor] accepts, in terms of the raw measurements:
    a document image is valid only if it has at least 600 rows and 800
    columns, a Laplacian variance of at least 40 and a grey-level standard
    deviation of at least 51.2; a selfie only if, after enhancement and
    resizing, it has at least 480 rows and columns, a Laplacian variance of
    at least 30 and a mean grey level between 76.5 and 204.  The list of
    validation errors is empty exactly for a valid image. *)
Theorem accepted_images_meet_thresholds (image : Image) (p : processed Image) :
  (process_id_document Image laplacian_var gray_mean gray_std shape
     binarize_and_deskew image = Ok p ->
   (is_valid Image p = true <-> validation_errors Image p = [])
   /\ (is_valid Image p = true ->
       exists v s,
         laplacian_var image = Ok v /\ gray_std image = Ok s
         /\ 40 <= v /\ 51.2 <= s
         /\ (600 <= (shape image).1)%Z /\ (800 <= (shape image).2)%Z))
  /\ (process_selfie Image laplacian_var gray_mean gray_std shape
        enhance_image resize_image image = Ok p ->
      (is_valid Image p = true <-> validation_errors Image p = [])
      /\ (is_valid Image p = true ->
          exists v m,
            laplacian_var (processed_image Image p) = Ok v
            /\ gray_mean (processed_image Image p) = Ok m
            /\ 30 <= v /\ 76.5 <= m /\ m <= 204
            /\ (480 <= (shape (processed_image Image p)).1)%Z
            /\ (480 <= (shape (processed_image Image p)).2)%Z)).
Proof.
  assert (Hinj : forall x y : processed Image, Ok x = Ok y -> x = y)
    by (intros x y [= ->]; reflexivity).
  split.
  - unfold process_id_document.
    destruct (binarize_and_deskew image) as [deskewed|];
      cbn [mbind result_bind mret result_ret]; [|discriminate].
    destruct (quality_of image) as [q|] eqn:Eq;
      cbn [mbind result_bind mret result_ret]; [|discriminate].
    intros H. apply Hinj in H. subst p. cbn [is_valid validation_errors].
    split.
    { destruct (_validate_document _ _ _ _); split; congruence. }
    intros Hvalid.
    destruct (quality_fields image q Eq)
      as (v & m & s & Hv & Hm & Hs & Hb & Hbr & Hc & Ho).
    exists v, s. split; [exact Hv|]. split; [exact Hs|].
    unfold _validate_document in Hvalid.
    destruct (_ || _) eqn:Eshape; [discriminate|].
    apply orb_false_iff in Eshape as [E1 E2].
    apply Z.ltb_ge in E1, E2.
    destruct (Qltb (overall_score q) 0.5); [discriminate|].
    destruct (Qltb (contrast q) 0.4) eqn:Ec; [discriminate|].
    destruct (Qltb (blur_score q) 0.4) eqn:Eb; [discriminate|].
    apply Qltb_false in Ec, Eb. rewrite Hc in Ec. rewrite Hb in Eb.
    apply Qmin_ge_inv in Ec, Eb.
    assert (Ev : 0.4 * 100.0 <= v).
    { apply Qdiv_ge_inv; [reflexivity|exact Eb]. }
    assert (Es : 0.4 * 128.0 <= s).
    { apply Qdiv_ge_inv; [reflexivity|exact Ec]. }
    repeat split; [lra|lra|exact E1|exact E2].
  - unfold process_selfie.
    destruct (enhance_image image) as [enhanced|];
      cbn [mbind result_bind mret result_ret]; [|discriminate].
    destruct (resize_image enhanced) as [resized|];
      cbn [mbind result_bind mret result_ret]; [|discriminate].
    destruct (quality_of resized) as [q|] eqn:Eq;
      cbn [mbind result_bind mret result_ret]; [|discriminate].
    intros H. apply Hinj in H. subst p.
    cbn [is_valid validation_errors processed_image].
    split.
    { destruct (_validate_selfie _ _ _ _); split; congruence. }
    intros Hvalid.
    destruct (quality_fields resized q Eq)
      as (v & m & s & Hv & Hm & Hs & Hb & Hbr & Hc & Ho).
    exists v, m. split; [exact Hv|]. split; [exact Hm|].
    unfold _validate_selfie in Hvalid.
    destruct (_ || _) eqn:Eshape; [discriminate|].
    apply orb_false_iff in Eshape as [E1 E2].
    apply Z.ltb_ge in E1, E2.
    destruct (Qltb (overall_score q) 0.4); [discriminate|].
    destruct (Qltb (brightness q) 0.3 || Qltb 0.8 (brightness q)) eqn:Ebr;
      [discriminate|].
    apply orb_false_iff in Ebr as [Eb1 Eb2].
    destruct (Qltb (blur_score q) 0.3) eqn:Eb; [discriminate|].
    apply Qltb_false in Eb1, Eb2, Eb. rewrite Hbr in Eb1, Eb2. rewrite Hb in Eb.
    apply Qmin_ge_inv in Eb.
    assert (Ev : 0.3 * 100.0 <= v).
    { apply Qdiv_ge_inv; [reflexivity|exact Eb]. }
    assert (Em1 : 0.3 * 255.0 <= m).
    { apply Qdiv_ge_inv; [reflexivity|exact Eb1]. }
    assert (Em2 : m <= 0.8 * 255.0).
    { apply Qdiv_le_inv; [reflexivity|exact Eb2]. }
    repeat split; [lra|lra|lra|exact E1|exact E2].
Qed.

End ImageQuality.

(** X20 on a black and a mid-grey image of equal sharpness and contrast. *)
Lemma overall_score_rewards_extreme_brightness_witness :
  exists q1 q2,
    ImageProcessor._calculate_image_quality bool
      (fun _ => Ok 50) (fun dark : bool => Ok (if dark then 0 else 127.5))
      (fun _ => Ok 64) (fun _ => (600, 800)%Z) false = Ok q1
    /\ ImageProcessor._calculate_image_quality bool
         (fun _ => Ok 50) (fun dark : bool => Ok (if dark then 0 else 127.5))
         (fun _ => Ok 64) (fun _ => (600, 800)%Z) true = Ok q2
    /\ ImageProcessor.overall_score q1 <= ImageProcessor.overall_score q2
    /\ ImageProcessor.overall_score q1 == 0.35
    /\ ImageProcessor.overall_score q2 == 0.65.
Proof.
  eexists _, _. split; [reflexivity|]. split; [reflexivity|].
  split; [|split; reflexivity].
  refine (proj1 (overall_score_rewards_extreme_brightness
                   (fun _ => Ok 50) (fun dark : bool => Ok (if dark then 0 else 127.5))
                   (fun _ => Ok 64) (fun _ => (600, 800)%Z) false true _ _
                   eq_refl eq_refl) _ _ _); vm_compute; first [reflexivity|discriminate].
Defined.

(** X21 on a sharp document image of 600 x 800 pixels. *)
Lemma accepted_images_meet_thresholds_witness :
  exists p,
    ImageProcessor.process_id_document bool
      (fun _ => Ok 150) (fun _ => Ok 127.5) (fun _ => Ok 64)
      (fun _ => (600, 800)%Z) (fun i => Ok i) true = Ok p
    /\ ImageProcessor.is_valid bool p = true
    /\ exists v s, Ok 150 = Ok v /\ Ok 64 = Ok s /\ 40 <= v /\ 51.2 <= s.
Proof.
  eexists. split; [reflexivity|]. split; [reflexivity|].
  destruct (proj2 (proj1 (accepted_images_meet_thresholds
              (fun _ => Ok 150) (fun _ => Ok 127.5) (fun _ => Ok 64)
              (fun _ => (600, 800)%Z) (fun i => Ok i) (fun i => Ok i) (fun i => Ok i)
              true _) eq_refl) eq_refl)
    as (v & s & Hv & Hs & Hv40 & Hs51 & _).
  exists v, s. auto.
Defined.

(** ** The best match among reference embeddings
       (embedding_service.py, lines 68-113) *)

Section ArgMax.

Context {A : Type} (key : A -> Q).

(** The result of the pass of [max] splits the sequence: strictly smaller
    keys before it, no greater key after it. *)
Lemma fold_max_first_Q (xs : list A) (x : A) :
  exists before after,
    x :: xs = before ++ fold_left (max_step Qltb key) xs x :: after
    /\ Forall (fun y => key y < key (fold_left (max_step Qltb key) xs x)) before
    /\ Forall (fun y => key y <= key (fold_left (max_step Qltb key) xs x)) after.
Proof.
  revert x. induction xs as [|a xs IH]; intros x.
  - exists [], []. simpl. repeat split; constructor.
  - simpl.
    assert (Hstep : max_step Qltb key x a = if Qltb (key x) (key a) then a else x)
      by reflexivity.
    rewrite Hstep. clear Hstep.
    destruct (Qltb (key x) (key a)) eqn:E.
    + apply Qltb_lt in E.
      destruct (IH a) as (before & after & Heq & Hb & Ha).
      set (r := fold_left (max_step Qltb key) xs a) in *.
      exists (x :: before), after.
      split; [simpl; f_equal; exact Heq|].
      split; [|exact Ha].
      constructor; [|exact Hb].
      destruct before as [|b before].
      * injection Heq as Hr _. rewrite <- Hr. exact E.
      * injection Heq as Hr _. apply Forall_cons in Hb as [Hb _].
        rewrite <- Hr in Hb. lra.
    + apply Qltb_false in E.
      destruct (IH x) as (before & after & Heq & Hb & Ha).
      set (r := fold_left (max_step Qltb key) xs x) in *.
      destruct before as [|b before].
      * injection Heq as Hr Hxs.
        exists [], (a :: after).
        split; [simpl; f_equal; [exact Hr|f_equal; exact Hxs]|].
        split; [constructor|].
        constructor; [rewrite <- Hr; exact E|exact Ha].
      * injection Heq as Hr Hxs.
        exists (x :: a :: before), after.
        split; [simpl; do 2 f_equal; exact Hxs|].
        split; [|exact Ha].
        pose proof Hb as Hb'. apply Forall_cons in Hb' as [Hx Hrest].
        rewrite <- Hr in Hx.
        constructor; [exact Hx|]. constructor; [lra|exact Hrest].
Qed.

End ArgMax.

Lemma argmax_first (xs : list Q) :
  xs <> [] ->
  exists s,
    xs !! EmbeddingService.argmax xs = Some s
    /\ (forall j y, xs !! j = Some y -> y <= s)
    /\ (forall j y, (j < EmbeddingService.argmax xs)%nat -> xs !! j = Some y -> y < s).
Proof.
  intros Hne. unfold EmbeddingService.argmax.
  destruct (imap (fun i x => (i, x)) xs) as [|p ps] eqn:Ei.
  { destruct xs; [congruence|discriminate Ei]. }
  cbn [max_by].
  destruct (fold_max_first_Q snd ps p) as (before & after & Heq & Hb & Ha).
  destruct (fold_left (max_step Qltb snd) ps p) as [i s] eqn:Em.
  rewrite <- Ei in Heq. cbn [snd] in Hb, Ha.
  assert (Hlook : forall j, imap (fun i x => (i, x)) xs !! j
                            = (fun x => (j, x)) <$> xs !! j).
  { intros j. apply list_lookup_imap. }
  assert (Hi : imap (fun i x => (i, x)) xs !! length before = Some (i, s)).
  { rewrite Heq. by apply list_lookup_middle. }
  rewrite Hlook in Hi.
  destruct (xs !! length before) as [x|] eqn:Ex; [|discriminate].
  injection Hi as <- ->.
  exists s. split; [exact Ex|]. split.
  - intros j y Hj.
    assert (Hin : (j, y) ∈ imap (fun i x => (i, x)) xs).
    { apply list_elem_of_lookup. exists j. by rewrite Hlook, Hj. }
    rewrite Heq in Hin. apply elem_of_app in Hin as [Hin|Hin].
    + rewrite Forall_forall in Hb. specialize (Hb _ Hin). simpl in Hb. lra.
    + apply elem_of_cons in Hin as [[= _ ->]|Hin]; [lra|].
      rewrite Forall_forall in Ha. by specialize (Ha _ Hin).
  - intros j y Hlt Hj.
    assert (Hbj : before !! j = Some (j, y)).
    { assert (H : imap (fun i x => (i, x)) xs !! j = Some (j, y))
        by (by rewrite Hlook, Hj).
      rewrite Heq in H. by rewrite lookup_app_l in H. }
    rewrite Forall_forall in Hb.
    apply (Hb (j, y)). apply list_elem_of_lookup. eauto.
Qed.

Section BestMatch.

Import EmbeddingService.

Context {Embedding : Type}.
Variable cosine : Embedding -> Embedding -> Q.

Local Abbreviation best_match := (find_best_match Embedding cosine).

(** X22. [find_best_match] reports the first reference that reaches the
    greatest similarity to the query, and a match iff some reference has a
    similarity above 0.6.  With a list of ids shorter than the list of
    references it raises (IndexError) when the best index has no id.
    Without references the result has index -1, no match, and neither a
    best_match_id nor the list of all similarities. *)
Theorem best_match_is_first_maximum (query_embedding : Embedding)
  (reference_embeddings : list Embedding) (reference_ids : option (list string)) :
  (reference_embeddings <> [] ->
   exists i s,
     (cosine query_embedding <$> reference_embeddings) !! i = Some s
     /\ (forall j y, (cosine query_embedding <$> reference_embeddings) !! j = Some y ->
                     y <= s)
     /\ (forall j y, (j < i)%nat ->
                     (cosine query_embedding <$> reference_embeddings) !! j = Some y ->
                     y < s)
     /\ (Qltb 0.6 s = true
         <-> exists reference, reference ∈ reference_embeddings
                               /\ 0.6 < cosine query_embedding reference)
     /\ match best_match query_embedding reference_embeddings reference_ids with
        | Some d =>
            d !! "best_match_index" = Some (VInt (Z.of_nat i))
            /\ d !! "similarity" = Some (VFloat s)
            /\ d !! "is_match" = Some (VBool (Qltb 0.6 s))
            /\ d !! "best_match_id"
               = Some (match reference_ids with
                       | Some ids => from_option VStr VNone (ids !! i)
                       | None => VNone
                       end)
        | None =>
            exists ids, reference_ids = Some ids /\ ids <> []
                        /\ (length ids <= i)%nat
        end)
  /\ (exists d,
        best_match query_embedding [] reference_ids = Some d
        /\ d !! "best_match_index" = Some (VInt (-1))
        /\ d !! "is_match" = Some (VBool false)
        /\ d !! "best_match_id" = None
        /\ d !! "all_similarities" = None).
Proof.
  split.
  - intros Hne.
    set (sims := cosine query_embedding <$> reference_embeddings).
    assert (Hsne : sims <> []).
    { subst sims. destruct reference_embeddings; [congruence|discriminate]. }
    destruct (argmax_first sims Hsne) as (s & Hs & Hmax & Hfirst).
    exists (argmax sims), s.
    split; [exact Hs|]. split; [exact Hmax|]. split; [exact Hfirst|]. split.
    { rewrite Qltb_lt. split.
      - intros Hgt. subst sims. rewrite list_lookup_fmap in Hs.
        destruct (reference_embeddings !! argmax _) as [r|] eqn:Er; [|discriminate].
        injection Hs as Hs. exists r. split; [by eapply list_elem_of_lookup_2|].
        by rewrite Hs.
      - intros (r & Hin & Hgt).
        apply list_elem_of_lookup in Hin as (j & Hj).
        assert (Hle : cosine query_embedding r <= s).
        { apply (Hmax j). subst sims. by rewrite list_lookup_fmap, Hj. }
        lra. }
    unfold find_best_match.
    destruct reference_embeddings as [|r refs]; [congruence|].
    fold sims. rewrite Hs. cbn [default].
    destruct reference_ids as [[|id ids]|]; cbn [mbind option_bind fmap option_fmap].
    + repeat split; reflexivity.
    + destruct ((id :: ids) !! argmax sims) as [best|] eqn:Eid; simpl.
      * repeat split; reflexivity.
      * exists (id :: ids). split; [reflexivity|]. split; [discriminate|].
        by apply lookup_ge_None.
    + repeat split; reflexivity.
  - eexists. split; [reflexivity|]. repeat split; reflexivity.
Qed.

End BestMatch.

(** X22 on three references, the last two equally close to the query:
    the first of the two is reported. *)
Lemma best_match_is_first_maximum_witness :
  exists i s,
    ((fun r => match r with 0%nat => 0.3 | _ => 0.9 end) <$> [0; 1; 2]%nat) !! i
      = Some s
    /\ (forall j y, (j < i)%nat ->
          ((fun r => match r with 0%nat => 0.3 | _ => 0.9 end) <$> [0; 1; 2]%nat) !! j
            = Some y -> y < s)
    /\ (EmbeddingService.find_best_match nat
          (fun _ r => match r with 0%nat => 0.3 | _ => 0.9 end) 7%nat
          [0; 1; 2]%nat (Some ["a"; "b"; "c"]) ≫= (.!! "best_match_id"))
       = Some (VStr "b").
Proof.
  destruct (proj1 (best_match_is_first_maximum
              (fun _ r => match r with 0%nat => 0.3 | _ => 0.9 end) 7%nat
              [0; 1; 2]%nat (Some ["a"; "b"; "c"])))
    as (i & s & Hs & _ & Hfirst & _ & _); [discriminate|].
  exists i, s. split; [exact Hs|]. split; [exact Hfirst|]. reflexivity.
Defined.

(** ** The rate limiter (middleware.py, lines 14-75) *)

Section RateLimiter.

Import RateLimit.

Variable RATE_LIMIT_PER_MINUTE : Z.
Variable ttl : string -> Z.

Local Abbreviation check := (limit_check RATE_LIMIT_PER_MINUTE ttl).
Local Abbreviation next := (command RATE_LIMIT_PER_MINUTE ttl).
Local Abbreviation run := (interleave RATE_LIMIT_PER_MINUTE ttl).
Local Abbreviation entering keys := ((fun k : string => (k, Entered)) <$> keys).

(** The number of requests with the key [key] among [keys]. *)
Local Abbreviation requests_of key keys := (length (filter (fun k => k = key) keys)).
(** The number of forwarded requests with the key [key] among [requests]. *)
Local Abbreviation forwarded_of key requests :=
  (length (filter (fun r : string * progress => r.1 = key /\ passed r.2 = true)
                  requests)).

(** The two commands of a request, issued without another request in
    between, are the block as [__call__] runs it for a single request. *)
Lemma uninterrupted_check (redis_client : option Redis) (key : string) :
  next (next redis_client key Entered).1 key (next redis_client key Entered).2
  = ((check redis_client key).1, Checked (check redis_client key).2).
Proof.
  destruct redis_client as [[counters|e]|]; [|reflexivity..].
  cbn [command limit_check fst snd].
  destruct (counters !! key) as [current|]; [|reflexivity].
  cbn [command].
  destruct (current <? RATE_LIMIT_PER_MINUTE)%Z; reflexivity.
Qed.

Lemma insert_middle {A} (l1 l2 : list A) (x y : A) :
  <[length l1 := y]> (l1 ++ x :: l2) = l1 ++ y :: l2.
Proof.
  rewrite insert_app_r_alt by lia. by rewrite Nat.sub_diag.
Qed.

(** One request issuing both commands in a row. *)
Lemma interleave_uninterrupted (redis_client : option Redis)
  (done rest : list (string * progress)) (k : string) (schedule : list nat) :
  run redis_client (done ++ (k, Entered) :: rest)
      (length done :: length done :: schedule)
  = run (check redis_client k).1
        ((done ++ [(k, Checked (check redis_client k).2)]) ++ rest) schedule.
Proof.
  pose proof (uninterrupted_check redis_client k) as H.
  cbn [interleave]. rewrite list_lookup_middle by done.
  destruct (next redis_client k Entered) as [r1 p1]. cbn [fst snd] in H.
  rewrite insert_middle, list_lookup_middle by done.
  rewrite H, insert_middle, <- app_assoc. reflexivity.
Qed.

Lemma forwarded_of_app (key : string) (l1 l2 : list (string * progress)) :
  forwarded_of key (l1 ++ l2) = (forwarded_of key l1 + forwarded_of key l2)%nat.
Proof. by rewrite filter_app, length_app. Qed.

Lemma forwarded_of_checked (key k : string) (v : verdict) :
  forwarded_of key [(k, Checked v)]
  = if decide (k = key) then if forwarded v then 1%nat else 0%nat else 0%nat.
Proof.
  rewrite filter_cons. cbn [fst snd passed].
  destruct (decide (k = key)) as [->|Hne].
  - destruct (forwarded v).
    + by rewrite decide_True.
    + rewrite decide_False; [reflexivity|]. intros [_ H]. discriminate H.
  - rewrite decide_False; [reflexivity|]. intros [H _]. contradiction.
Qed.

(** A check leaves the counters of the other keys as they are. *)
Lemma check_other (key k : string) (counters : gmap string Z) :
  k <> key ->
  exists counters',
    (check (Some (Up counters)) k).1 = Some (Up counters')
    /\ counters' !! key = counters !! key.
Proof.
  intros Hne. unfold limit_check. destruct (counters !! k) as [c|].
  - destruct (c <? RATE_LIMIT_PER_MINUTE)%Z; cbn [fst].
    + eexists. split; [reflexivity|]. by rewrite lookup_insert_ne.
    + eauto.
  - cbn [fst]. eexists. split; [reflexivity|]. by rewrite lookup_insert_ne.
Qed.

(** With the counter of [key] at [current], the requests of that key
    that are still forwarded number the smaller of how many there are and
    how much of the limit is left. *)
Lemma forwarded_from (key : string) (keys : list string)
  (done : list (string * progress)) (counters : gmap string Z) (current : Z) :
  counters !! key = Some current ->
  Z.of_nat (forwarded_of key
              (run (Some (Up counters)) (done ++ entering keys)
                   (flat_map (fun i => [i; i]) (seq (length done) (length keys)))).2)
  = (Z.of_nat (forwarded_of key done)
     + Z.min (Z.of_nat (requests_of key keys))
             (Z.max 0 (RATE_LIMIT_PER_MINUTE - current)))%Z.
Proof.
  revert done counters current.
  induction keys as [|k keys IH]; intros done counters current Hc.
  - cbn. rewrite app_nil_r. lia.
  - cbn [fmap list_fmap length seq flat_map app].
    rewrite interleave_uninterrupted.
    replace (S (length done)) with (length (done ++ [(k, Checked (check (Some (Up counters)) k).2)]))
      by (rewrite length_app; simpl; lia).
    rewrite filter_cons.
    destruct (decide (k = key)) as [->|Hne].
    + unfold limit_check. rewrite Hc.
      destruct (current <? RATE_LIMIT_PER_MINUTE)%Z eqn:E; cbn [fst snd].
      * apply Z.ltb_lt in E.
        rewrite (IH _ _ (current + 1)%Z) by (by rewrite lookup_insert_eq).
        rewrite forwarded_of_app, forwarded_of_checked, decide_True by done.
        cbn [forwarded]. simpl length. lia.
      * apply Z.ltb_ge in E.
        rewrite (IH _ _ current Hc).
        rewrite forwarded_of_app, forwarded_of_checked, decide_True by done.
        cbn [forwarded]. simpl length. lia.
    + destruct (check_other key k counters Hne) as (counters' & Hr & Hc').
      rewrite Hr, (IH _ _ current) by (by rewrite Hc').
      rewrite forwarded_of_app, forwarded_of_checked, decide_False by done. lia.
Qed.

(** The same from a server without a counter for [key]. *)
Lemma forwarded_from_none (key : string) (keys : list string)
  (done : list (string * progress)) (counters : gmap string Z) :
  counters !! key = None ->
  Z.of_nat (forwarded_of key
              (run (Some (Up counters)) (done ++ entering keys)
                   (flat_map (fun i => [i; i]) (seq (length done) (length keys)))).2)
  = (Z.of_nat (forwarded_of key done)
     + Z.min (Z.of_nat (requests_of key keys)) (Z.max 1 RATE_LIMIT_PER_MINUTE))%Z.
Proof.
  revert done counters.
  induction keys as [|k keys IH]; intros done counters Hc.
  - cbn. rewrite app_nil_r. lia.
  - cbn [fmap list_fmap length seq flat_map app].
    rewrite interleave_uninterrupted.
    replace (S (length done)) with (length (done ++ [(k, Checked (check (Some (Up counters)) k).2)]))
      by (rewrite length_app; simpl; lia).
    rewrite filter_cons.
    destruct (decide (k = key)) as [->|Hne].
    + unfold limit_check. rewrite Hc. cbn [fst snd].
      rewrite (forwarded_from _ _ _ _ 1%Z) by (by rewrite lookup_insert_eq).
      rewrite forwarded_of_app, forwarded_of_checked, decide_True by done.
      cbn [forwarded]. simpl length. lia.
    + destruct (check_other key k counters Hne) as (counters' & Hr & Hc').
      rewrite Hr, IH by (by rewrite Hc').
      rewrite forwarded_of_app, forwarded_of_checked, decide_False by done. lia.
Qed.

(** Without a server that answers, every request is forwarded. *)
Lemma forwarded_unlimited (key : string) (keys : list string)
  (done : list (string * progress)) (redis_client : option Redis) :
  (forall counters, redis_client <> Some (Up counters)) ->
  forwarded_of key
    (run redis_client (done ++ entering keys)
         (flat_map (fun i => [i; i]) (seq (length done) (length keys)))).2
  = (forwarded_of key done + requests_of key keys)%nat.
Proof.
  intros Hdown. revert done.
  induction keys as [|k keys IH]; intros done.
  - cbn. rewrite app_nil_r. lia.
  - cbn [fmap list_fmap length seq flat_map app].
    rewrite interleave_uninterrupted.
    replace (S (length done)) with (length (done ++ [(k, Checked (check redis_client k).2)]))
      by (rewrite length_app; simpl; lia).
    assert (Hc : (check redis_client k).1 = redis_client
                 /\ forwarded (check redis_client k).2 = true).
    { destruct redis_client as [[counters|e]|]; [|by split..].
      by destruct (Hdown counters). }
    destruct Hc as [-> Hf].
    rewrite IH, forwarded_of_app, forwarded_of_checked, Hf, filter_cons.
    destruct (decide (k = key)); simpl length; lia.
Qed.

(** Every request of a client reading before any of them writes: the
    reads change nothing, and all of them see no counter. *)
Lemma reads_of_a_new_client (key : string) (counters : gmap string Z)
  (done : list (string * progress)) (n : nat) (schedule : list nat) :
  counters !! key = None ->
  run (Some (Up counters)) (done ++ replicate n (key, Entered))
      (seq (length done) n ++ schedule)
  = run (Some (Up counters))
        (done ++ replicate n (key, Read None)) schedule.
Proof.
  intros Hc. revert done.
  induction n as [|n IH]; intros done; [reflexivity|].
  cbn [replicate seq app interleave].
  rewrite list_lookup_middle by done. cbn [command]. rewrite Hc, insert_middle.
  replace (S (length done)) with (length (done ++ [(key, Read None)]))
    by (rewrite length_app; simpl; lia).
  rewrite (cons_middle _ done), app_assoc, IH, <- app_assoc. reflexivity.
Qed.

(** Each of them then sets the counter to 1 and passes. *)
Lemma writes_after_the_reads (key : string) (counters : gmap string Z)
  (done : list (string * progress)) (n : nat) :
  exists counters',
    run (Some (Up counters)) (done ++ replicate n (key, Read None))
        (seq (length done) n)
    = (Some (Up counters'), done ++ replicate n (key, Checked Pass)).
Proof.
  revert done counters.
  induction n as [|n IH]; intros done counters; [by exists counters|].
  cbn [replicate seq interleave].
  rewrite list_lookup_middle by done. cbn [command]. rewrite insert_middle.
  replace (S (length done)) with (length (done ++ [(key, Checked Pass)]))
    by (rewrite length_app; simpl; lia).
  rewrite (cons_middle _ done), app_assoc.
  destruct (IH (done ++ [(key, Checked Pass)]) (<[key := 1%Z]> counters))
    as (counters' & ->).
  exists counters'. by rewrite <- app_assoc.
Qed.

Lemma forwarded_of_replicate (key : string) (n : nat) :
  forwarded_of key (replicate n (key, Checked Pass)) = n.
Proof.
  induction n as [|n IH]; [reflexivity|].
  cbn [replicate]. rewrite filter_cons, decide_True by done.
  simpl length. by rewrite IH.
Qed.

(** X23. When the rate checks run one after another, none starting
    before the one before it has ended, then within one window, with Redis
    answering and no counter yet for a client, the requests of that client
    that reach the handler number min(n, max(1, RATE_LIMIT_PER_MINUTE)) of
    its n requests, in whatever order the requests of other clients come
    between them: the first one always passes, also under a limit of 0.
    When Redis raises on every command, or no Redis client is configured,
    every request is forwarded.  The limit does not hold for requests that
    overlap: when n requests of a new client have all read the counter
    before one of them writes it, all n are forwarded, whatever the
    limit. *)
Theorem rate_limit_forwards_up_to_the_limit (key : string) (keys : list string)
  (counters : gmap string Z) :
  (counters !! key = None ->
   Z.of_nat (forwarded_for RATE_LIMIT_PER_MINUTE ttl key (Some (Up counters)) keys
               (one_at_a_time (length keys)))
   = Z.min (Z.of_nat (requests_of key keys)) (Z.max 1 RATE_LIMIT_PER_MINUTE)
   /\ forall n,
        forwarded_for RATE_LIMIT_PER_MINUTE ttl key (Some (Up counters))
          (replicate n key) (reads_first n)
        = n)
  /\ (forall e,
        forwarded_for RATE_LIMIT_PER_MINUTE ttl key (Some (Down e)) keys
          (one_at_a_time (length keys))
        = requests_of key keys)
  /\ forwarded_for RATE_LIMIT_PER_MINUTE ttl key None keys
       (one_at_a_time (length keys))
     = requests_of key keys.
Proof.
  unfold forwarded_for, one_at_a_time, reads_first.
  split; [intros Hc; split|split].
  - pose proof (forwarded_from_none key keys [] counters Hc) as H.
    cbn [app length] in H. rewrite H. simpl. lia.
  - intros n. rewrite fmap_replicate.
    pose proof (reads_of_a_new_client key counters [] n (seq 0 n) Hc) as H.
    cbn [app length] in H. rewrite H.
    destruct (writes_after_the_reads key counters [] n) as (counters' & Hw).
    cbn [app length] in Hw. rewrite Hw.
    apply forwarded_of_replicate.
  - intros e.
    pose proof (forwarded_unlimited key keys [] (Some (Down e))) as H.
    cbn [app length] in H. by rewrite H.
  - pose proof (forwarded_unlimited key keys [] None) as H.
    cbn [app length] in H. by rewrite H.
Qed.

End RateLimiter.

(** X23 on five requests of one client among those of two others, one
    after another under a limit of 3, and on two requests of one client
    that overlap under a limit of 1. *)
Lemma rate_limit_forwards_up_to_the_limit_witness :
  RateLimit.forwarded_for 3 (fun _ => 42%Z) "ip:10.0.0.1" (Some (RateLimit.Up ∅))
    ["api_key:k1"; "ip:10.0.0.1"; "ip:10.0.0.1"; "ip:10.0.0.2"; "ip:10.0.0.1";
     "ip:10.0.0.1"; "ip:10.0.0.2"; "ip:10.0.0.1"]
    (RateLimit.one_at_a_time 8)
  = 3%nat
  /\ RateLimit.forwarded_for 1 (fun _ => 42%Z) "ip:10.0.0.1" (Some (RateLimit.Up ∅))
       ["ip:10.0.0.1"; "ip:10.0.0.1"] [0; 1; 0; 1]%nat
     = 2%nat.
Proof.
  split.
  - apply Nat2Z.inj.
    rewrite (proj1 (proj1 (rate_limit_forwards_up_to_the_limit 3 (fun _ => 42%Z)
                             "ip:10.0.0.1"
                             ["api_key:k1"; "ip:10.0.0.1"; "ip:10.0.0.1";
                              "ip:10.0.0.2"; "ip:10.0.0.1"; "ip:10.0.0.1";
                              "ip:10.0.0.2"; "ip:10.0.0.1"]
                             ∅) (lookup_empty _))).
    vm_compute. reflexivity.
  - exact (proj2 (proj1 (rate_limit_forwards_up_to_the_limit 1 (fun _ => 42%Z)
                           "ip:10.0.0.1" [] ∅) (lookup_empty _)) 2%nat).
Defined.

Section Middleware.

Import RateLimit.

Variable RATE_LIMIT_PER_MINUTE : Z.
Variable ttl : string -> Z.
Context {Response App : Type}.
Variable call_next : Request -> App -> App * reply Response.

(** The handler with a count of its runs next to its state. *)
Local Abbreviation counted :=
  (fun (request : Request) (s : App * nat) =>
     ((call_next request s.1).1, S s.2, (call_next request s.1).2)).
Local Abbreviation middleware :=
  (__call__ RATE_LIMIT_PER_MINUTE ttl Response (App * nat) counted).
Local Abbreviation verdict_of redis_client request :=
  (limit_check RATE_LIMIT_PER_MINUTE ttl redis_client
     ("rate_limit:" +:+ _get_client_id request)).2.

(** X24. How often the middleware runs the handler for one request:
    not at all when the limit is exceeded (the reply is the 429 and the
    state of the application is untouched); twice when the rate check
    passed and the first run raised something other than an HTTPException,
    the reply then being that of the second run on the state the first one
    left; once otherwise.  An exempt path never touches Redis. *)
Theorem handler_runs_per_request (redis_client : option Redis)
  (request : Request) (app : App) (n : nat) :
  let out := middleware redis_client request (app, n) in
  let runs := (out.2.1.2 - n)%nat in
  let first := call_next request app in
  (path request ∈ exempt_paths ->
   out.1 = redis_client /\ runs = 1%nat /\ out.2.2 = first.2)
  /\ (path request ∉ exempt_paths ->
      (forall retry_after limit,
          verdict_of redis_client request = Exceeded retry_after limit ->
          runs = 0%nat /\ out.2.1.1 = app /\ out.1 = redis_client
          /\ exists detail, out.2.2 = RaisedHTTP 429 detail)
      /\ (forall e,
            verdict_of redis_client request = Pass ->
            first.2 = RaisedOther e ->
            runs = 2%nat /\ out.2.2 = (call_next request first.1).2
            /\ out.2.1.1 = (call_next request first.1).1)
      /\ (verdict_of redis_client request = Pass ->
          (forall e, first.2 <> RaisedOther e) ->
          runs = 1%nat /\ out.2.2 = first.2)
      /\ (forall e,
            verdict_of redis_client request = Failed e ->
            runs = 1%nat /\ out.2.2 = first.2))
  /\ (runs <= 2)%nat.
Proof.
  cbv zeta. unfold __call__.
  destruct (bool_decide (path request ∈ exempt_paths)) eqn:Ex.
  - apply bool_decide_eq_true in Ex. cbn [fst snd].
    split; [intros _; repeat split; lia|]. split; [intros H; contradiction|lia].
  - apply bool_decide_eq_false in Ex.
    destruct (limit_check RATE_LIMIT_PER_MINUTE ttl redis_client _) as [r v] eqn:Ev.
    cbn [fst snd].
    split; [intros H; contradiction|].
    destruct v as [|retry_after limit|e]; cbn [fst snd].
    + destruct (call_next request app) as [app1 r1] eqn:E1. cbn [fst snd].
      destruct r1 as [resp|code detail|e1]; cbn [fst snd].
      * split; [|lia]. intros _. split; [discriminate|]. split; [discriminate|].
        split; [|discriminate]. intros _ _. split; [lia|reflexivity].
      * split; [|lia]. intros _. split; [discriminate|]. split; [discriminate|].
        split; [|discriminate]. intros _ _. split; [lia|reflexivity].
      * split; [|lia]. intros _. split; [discriminate|]. split.
        -- intros e _ _. repeat split. lia.
        -- split; [|discriminate]. intros _ H. exfalso. by apply (H e1).
    + split; [|lia]. intros _. split.
      * intros ra lim [= <- <-]. split; [lia|]. split; [reflexivity|].
        split; [|eauto].
        unfold limit_check in Ev. destruct redis_client as [[counters|e]|];
          try discriminate Ev.
        destruct (counters !! _) as [c|]; [|discriminate Ev].
        destruct (c <? RATE_LIMIT_PER_MINUTE)%Z; [discriminate Ev|].
        by injection Ev as <- _.
      * split; [discriminate|]. split; discriminate.
    + split; [|lia]. intros _. split; [discriminate|]. split; [discriminate|].
      split; [discriminate|]. intros e' _. split; [lia|reflexivity].
Qed.

End Middleware.

(** X24 on a handler that raises on its first run and answers on the
    second; no Redis client is configured. *)
Lemma handler_runs_per_request_witness :
  let call_next :=
    fun (_ : RateLimit.Request) (tries : nat) =>
      (S tries,
       match tries with
       | 0%nat => RateLimit.RaisedOther (ExternalError "connection reset")
       | _ => RateLimit.Responded "ok"
       end) in
  let request :=
    {| RateLimit.path := "/api/v1/verify-kyc"; RateLimit.x_api_key := None;
       RateLimit.client_host := Some "10.0.0.1" |} in
  RateLimit.__call__ 60 (fun _ => 60%Z) string nat call_next None request 0%nat
    = (None, (2%nat, RateLimit.Responded "ok"))
  /\ (RateLimit.__call__ 60 (fun _ => 60%Z) string (nat * nat)
        (fun r s => ((call_next r s.1).1, S s.2, (call_next r s.1).2))
        None request (0%nat, 0%nat)).2.1.2 = 2%nat.
Proof.
  cbv zeta. split; [reflexivity|].
  assert (Hpath : "/api/v1/verify-kyc" ∉ RateLimit.exempt_paths).
  { unfold RateLimit.exempt_paths. rewrite !elem_of_cons, elem_of_nil.
    intros [H|[H|[H|[H|[H|[]]]]]]; discriminate H. }
  destruct (proj1 (proj2 (proj1 (proj2 (handler_runs_per_request 60 (fun _ => 60%Z)
              (fun (_ : RateLimit.Request) (tries : nat) =>
                 (S tries,
                  match tries with
                  | 0%nat => RateLimit.RaisedOther (ExternalError "connection reset")
                  | _ => RateLimit.Responded "ok"
                  end))
              None
              {| RateLimit.path := "/api/v1/verify-kyc";
                 RateLimit.x_api_key := None;
                 RateLimit.client_host := Some "10.0.0.1" |} 0%nat 0%nat)) Hpath))
              (ExternalError "connection reset") eq_refl eq_refl) as [Hruns _].
  exact Hruns.
Defined.
